(** * The NAACL 2019 schedule tools: order-file parser and metadata lookup

    A shallow embedding of [code/orderfile.py] and [code/metadata.py].

    Python strings are modelled as [string]; a character is a code point
    below 256.  Python exceptions are values of [exn]; a function that can
    raise returns [exn + A].  The objects the parser mutates in place
    ([Session.add], [Day.add], ...) are threaded through explicitly: the
    parser never touches an object again once it has been appended to its
    parent, so a tree of values carries the same information as the heap. *)

From Stdlib Require Import String Ascii List Bool Arith NArith Lia.
Import ListNotations.
Open Scope string_scope.
Open Scope list_scope.
Open Scope nat_scope.

(** ** Python exceptions raised by the modelled code *)

Inductive exn : Type :=
| AttributeError      (* attribute access on None *)
| ValueError          (* tuple unpacking of the wrong size, strptime *)
| AssertionError      (* a failed assert *)
| UnboundLocalError   (* a local variable read before assignment *)
| KeyError            (* dict[key] for a missing key *)
| IndexError.         (* str[0] on the empty string *)

Definition result (A : Type) : Type := (exn + A)%type.

Definition ret {A} (a : A) : result A := inr a.
Definition raise {A} (e : exn) : result A := inl e.
Definition bind {A B} (m : result A) (f : A -> result B) : result B :=
  match m with
  | inl e => inl e
  | inr a => f a
  end.

Declare Scope py_scope.
Delimit Scope py_scope with py.
Notation "x <- m ;; k" := (bind m (fun x => k))
  (at level 61, m at next level, right associativity) : py_scope.
Notation "' p <- m ;; k" := (bind m (fun x => match x with p => k end))
  (at level 61, p pattern, m at next level, right associativity) : py_scope.
Open Scope py_scope.

(** ** Characters and strings *)

Module Str.

Definition code (c : ascii) : N := N_of_ascii c.

Definition between (lo hi : N) (c : ascii) : bool :=
  ((lo <=? code c) && (code c <=? hi))%N.

(** [str.isspace] on one character, which is also what [\s] matches in a
    [str] pattern: TAB..CR, FS..US, SPACE, NEL and NBSP. *)
Definition is_space (c : ascii) : bool :=
  between 9 13 c || between 28 32 c || (code c =? 133)%N || (code c =? 160)%N.

Definition is_digit (c : ascii) : bool := between 48 57 c.     (* [0-9] *)
Definition is_lower_az (c : ascii) : bool := between 97 122 c. (* [a-z] *)

Definition is_not (x : ascii) (c : ascii) : bool := negb (Ascii.eqb c x).
Definition not_space (c : ascii) : bool := negb (is_space c).  (* [^\s] *)
Definition newline : ascii := ascii_of_N 10.
Definition dot (c : ascii) : bool := is_not newline c.         (* . *)

(** [str.lower] on one character. *)
Definition lower_char (c : ascii) : ascii :=
  if between 65 90 c then ascii_of_N (code c + 32)
  else if between 192 222 c && negb (code c =? 215)%N
       then ascii_of_N (code c + 32)
  else c.

Fixpoint lower (s : string) : string :=
  match s with
  | EmptyString => EmptyString
  | String c s' => String (lower_char c) (lower s')
  end.

Fixpoint lstrip_by (p : ascii -> bool) (s : string) : string :=
  match s with
  | EmptyString => EmptyString
  | String c s' => if p c then lstrip_by p s' else s
  end.

Fixpoint rev_acc (s acc : string) : string :=
  match s with
  | EmptyString => acc
  | String c s' => rev_acc s' (String c acc)
  end.
Definition rev (s : string) : string := rev_acc s EmptyString.

Definition rstrip_by (p : ascii -> bool) (s : string) : string :=
  rev (lstrip_by p (rev s)).

(** [s.strip()], [s.rstrip()] *)
Definition rstrip (s : string) : string := rstrip_by is_space s.
Definition strip (s : string) : string := rstrip (lstrip_by is_space s).

Fixpoint mem (c : ascii) (chars : string) : bool :=
  match chars with
  | EmptyString => false
  | String d chars' => Ascii.eqb c d || mem c chars'
  end.

(** [s.lstrip(chars)]: drops leading characters that occur in [chars]. *)
Definition lstrip_chars (chars : string) (s : string) : string :=
  lstrip_by (fun c => mem c chars) s.

(** [s.startswith(p)] *)
Definition startswith (p s : string) : bool := String.prefix p s.

(** [c in s] for a one-character [c]. *)
Definition contains_char (c : ascii) (s : string) : bool := mem c s.

(** [s.split(sep)] for a one-character separator: the pieces between the
    occurrences of [sep], of which there is always at least one. *)
Fixpoint split (sep : ascii) (s : string) : list string :=
  match s with
  | EmptyString => [EmptyString]
  | String c s' =>
      if Ascii.eqb c sep then EmptyString :: split sep s'
      else match split sep s' with
           | piece :: pieces => String c piece :: pieces
           | [] => [String c EmptyString]
           end
  end.

(** Every character of [s] satisfies [p]. *)
Fixpoint all (p : ascii -> bool) (s : string) : bool :=
  match s with
  | EmptyString => true
  | String c s' => p c && all p s'
  end.

Definition is_empty (s : string) : bool :=
  match s with EmptyString => true | _ => false end.

(** [sep.join(l)] *)
Fixpoint join (sep : string) (l : list string) : string :=
  match l with
  | [] => EmptyString
  | [x] => x
  | x :: l' => (x ++ sep ++ join sep l')%string
  end.

End Str.

(** ** Regular expressions

    The fragment of Python's [re] the code uses, with the backtracking
    semantics of the library: quantifiers are greedy, alternatives are tried
    left to right, a group that takes no part in the match is [None]. *)

Module Re.

Inductive regex : Type :=
| Eps
| Lit (c : ascii)                                  (* a literal character *)
| LitI (c : ascii)                                 (* the same under re.IGNORECASE *)
| Cls (p : ascii -> bool) (lo : nat) (hi : option nat)  (* [..]{lo,hi}, greedy *)
| Cat (r1 r2 : regex)
| Alt (r1 r2 : regex)                              (* r1|r2 *)
| Opt (r : regex)                                  (* (r)? *)
| Grp (n : nat) (r : regex)                        (* capture group n *)
| Eos.                                             (* $ *)

Definition captures : Type := list (nat * list ascii).

Fixpoint lookup (n : nat) (caps : captures) : option (list ascii) :=
  match caps with
  | [] => None
  | (m, v) :: caps' => if Nat.eqb n m then Some v else lookup n caps'
  end.

(** [m.group(n)]: [None] when the group did not take part in the match. *)
Definition group (n : nat) (caps : captures) : option string :=
  option_map string_of_list_ascii (lookup n caps).

(** Length of the longest prefix of [s] whose characters satisfy [p]. *)
Fixpoint span (p : ascii -> bool) (s : list ascii) : nat :=
  match s with
  | c :: s' => if p c then S (span p s') else 0
  | [] => 0
  end.

Section Matcher.
Context {R : Type}.

(** A continuation receives the text consumed, the rest of the input and
    the groups captured so far. *)
Definition cont : Type := list ascii -> list ascii -> captures -> option R.

(** Greedy repetition: the longest count first, then ever shorter ones,
    down to [lo]. *)
Fixpoint try_down (s : list ascii) (lo n : nat) (caps : captures)
         (k : cont) : option R :=
  match k (firstn n s) (skipn n s) caps with
  | Some v => Some v
  | None =>
      match n with
      | O => None
      | S n' => if Nat.leb lo n' then try_down s lo n' caps k else None
      end
  end.

Definition cap_hi (hi : option nat) (n : nat) : nat :=
  match hi with
  | Some h => Nat.min h n
  | None => n
  end.

Fixpoint rmatch (r : regex) (s : list ascii) (caps : captures)
         (k : cont) : option R :=
  match r with
  | Eps => k [] s caps
  | Lit c =>
      match s with
      | a :: s' => if Ascii.eqb a c then k [a] s' caps else None
      | [] => None
      end
  | LitI c =>
      match s with
      | a :: s' =>
          if Ascii.eqb (Str.lower_char a) (Str.lower_char c)
          then k [a] s' caps else None
      | [] => None
      end
  | Cls p lo hi =>
      let n := cap_hi hi (span p s) in
      if Nat.leb lo n then try_down s lo n caps k else None
  | Cat r1 r2 =>
      rmatch r1 s caps (fun c1 s1 caps1 =>
        rmatch r2 s1 caps1 (fun c2 s2 caps2 => k (c1 ++ c2) s2 caps2))
  | Alt r1 r2 =>
      match rmatch r1 s caps k with
      | Some v => Some v
      | None => rmatch r2 s caps k
      end
  | Opt r1 =>
      match rmatch r1 s caps k with
      | Some v => Some v
      | None => k [] s caps
      end
  | Grp n r1 =>
      rmatch r1 s caps (fun c s' caps' => k c s' ((n, c) :: caps'))
  | Eos =>
      match s with
      | [] => k [] s caps
      | [a] => if Ascii.eqb a Str.newline then k [] s caps else None
      | _ => None
      end
  end.
End Matcher.

(** A match object: the matched text, what follows it, and the groups. *)
Record match_object : Type := MatchObject {
  matched : list ascii;
  rest : list ascii;
  groups : captures
}.

Definition match_list (r : regex) (s : list ascii) : option match_object :=
  rmatch r s [] (fun c s' caps => Some (MatchObject c s' caps)).

(** [r.match(s)] *)
Definition match_ (r : regex) (s : string) : option match_object :=
  match_list r (list_ascii_of_string s).

(** [r.search(s)] as a truth value. *)
Fixpoint search_list (r : regex) (s : list ascii) : bool :=
  match match_list r s with
  | Some _ => true
  | None =>
      match s with
      | [] => false
      | _ :: s' => search_list r s'
      end
  end.
Definition search (r : regex) (s : string) : bool :=
  search_list r (list_ascii_of_string s).

(** [r.findall(s)] for a pattern that cannot match the empty string: the
    scan resumes where the previous match ended; [skip] counts the
    characters of that match still to be passed over. *)
Fixpoint findall_list (r : regex) (skip : nat) (s : list ascii)
  : list captures :=
  match s with
  | [] => []
  | _ :: s' =>
      match skip with
      | S skip' => findall_list r skip' s'
      | O =>
          match match_list r s with
          | Some m => groups m :: findall_list r (pred (length (matched m))) s'
          | None => findall_list r 0 s'
          end
      end
  end.

Fixpoint lits (s : string) : regex :=
  match s with
  | EmptyString => Eps
  | String c EmptyString => Lit c
  | String c s' => Cat (Lit c) (lits s')
  end.

Fixpoint litsI (s : string) : regex :=
  match s with
  | EmptyString => Eps
  | String c EmptyString => LitI c
  | String c s' => Cat (LitI c) (litsI s')
  end.

Fixpoint alts (l : list regex) : regex :=
  match l with
  | [] => Eps
  | [r] => r
  | r :: l' => Alt r (alts l')
  end.

End Re.

Declare Scope re_scope.
Delimit Scope re_scope with re.
Infix ";;;" := Re.Cat (at level 60, right associativity) : re_scope.

(** ** Dictionaries

    A Python [dict] with string keys: keys are unique and keep the order in
    which they were first inserted. *)

Module Dict.

Definition dict (V : Type) : Type := list (string * V).

Fixpoint get {V} (d : dict V) (k : string) : option V :=
  match d with
  | [] => None
  | (k', v) :: d' => if String.eqb k k' then Some v else get d' k
  end.

(** [d[k] = v] *)
Fixpoint set {V} (d : dict V) (k : string) (v : V) : dict V :=
  match d with
  | [] => [(k, v)]
  | (k', v') :: d' =>
      if String.eqb k k' then (k', v) :: d' else (k', v') :: set d' k v
  end.

(** [d.get(k, default)] *)
Definition get_default {V} (d : dict V) (k : string) (default : V) : V :=
  match get d k with
  | Some v => v
  | None => default
  end.

(** [d[k]] *)
Definition getitem {V} (d : dict V) (k : string) : result V :=
  match get d k with
  | Some v => ret v
  | None => raise KeyError
  end.

(** [dict(pairs)] and [d.update(pairs)] *)
Definition update {V} (d : dict V) (pairs : list (string * V)) : dict V :=
  fold_left (fun acc kv => set acc (fst kv) (snd kv)) pairs d.

Definition of_pairs {V} (pairs : list (string * V)) : dict V :=
  update [] pairs.

End Dict.

(** ** [parse_metadata_into_dict] *)

(** [_METADATA_REGEXP = re.compile(r'%([^\s]+)\s+([^%]+)')] *)
Definition _METADATA_REGEXP : Re.regex :=
  (Re.Lit "%" ;;; Re.Grp 1 (Re.Cls Str.not_space 1 None) ;;;
   Re.Cls Str.is_space 1 None ;;; Re.Grp 2 (Re.Cls (Str.is_not "%") 1 None))%re.

(** The text of a group that takes part in every match of its pattern. *)
Definition group_or_empty (n : nat) (caps : Re.captures) : string :=
  match Re.group n caps with
  | Some s => s
  | None => EmptyString
  end.

(** [findall] on a pattern with two groups yields the pairs of group texts. *)
Definition findall_pairs (r : Re.regex) (s : string) : list (string * string) :=
  map (fun caps => (group_or_empty 1 caps, group_or_empty 2 caps))
      (Re.findall_list r 0 (list_ascii_of_string s)).

Definition parse_metadata_into_dict (metadata_string : string)
  : Dict.dict string :=
  let metadata_string := Str.strip metadata_string in
  Dict.of_pairs (findall_pairs _METADATA_REGEXP metadata_string).

(** A value that is either [None] or a [str]. *)
Inductive pyval : Type :=
| PyNone
| PyStr (s : string).

Definition pyval_of_group (g : option string) : pyval :=
  match g with
  | Some s => PyStr s
  | None => PyNone
  end.

(** [x.strip()] and [x.lower()] where [x] may be [None]. *)
Definition py_strip (x : pyval) : result string :=
  match x with
  | PyStr s => ret (Str.strip s)
  | PyNone => raise AttributeError
  end.

Definition py_lower (x : pyval) : result string :=
  match x with
  | PyStr s => ret (Str.lower s)
  | PyNone => raise AttributeError
  end.

(** Truth value of [None] or a string. *)
Definition py_truthy (x : pyval) : bool :=
  match x with
  | PyStr s => negb (Str.is_empty s)
  | PyNone => false
  end.

(** [m.groups()] where [m] is the result of a [match]: fails on [None]. *)
Definition groups_of (m : option Re.match_object) : result Re.captures :=
  match m with
  | Some mo => ret (Re.groups mo)
  | None => raise AttributeError
  end.

Definition grp (n : nat) (caps : Re.captures) : pyval :=
  pyval_of_group (Re.group n caps).

(** [[0-9]{1,2}:[0-9]{2}] *)
Definition time_re : Re.regex :=
  (Re.Cls Str.is_digit 1 (Some 2) ;;; Re.Lit ":" ;;; Re.Cls Str.is_digit 2 (Some 2))%re.

(** ** [datetime.strptime(s, '%A, %B %d, %Y')]

    The behaviour of the standard library for this one format in the C
    locale: the format is turned into a case-insensitive pattern that has to
    match the whole string, and the date has to exist. *)

Module Datetime.

Record t : Type := mk { year : nat; month : nat; day : nat }.

Definition weekdays : list string :=
  ["wednesday"; "thursday"; "saturday"; "tuesday"; "monday"; "friday";
   "sunday"].

Definition months : list string :=
  ["january"; "february"; "march"; "april"; "may"; "june"; "july";
   "august"; "september"; "october"; "november"; "december"].

(** Names are tried longest first. *)
Definition months_re : list string :=
  ["september"; "february"; "november"; "december"; "january"; "october";
   "august"; "march"; "april"; "june"; "july"; "may"].

Definition one (lo hi : N) : Re.regex := Re.Cls (Str.between lo hi) 1 (Some 1).
Definition digit : Re.regex := one 48 57.

(** [3[0-1]|[1-2]\d|0[1-9]|[1-9]| [1-9]] *)
Definition day_re : Re.regex :=
  Re.alts [ (Re.Lit "3" ;;; one 48 49)%re;
            (one 49 50 ;;; digit)%re;
            (Re.Lit "0" ;;; one 49 57)%re;
            one 49 57;
            (Re.Lit " " ;;; one 49 57)%re ].

Definition spaces : Re.regex := Re.Cls Str.is_space 1 None.

Definition format_re : Re.regex :=
  (Re.Grp 1 (Re.alts (map Re.litsI weekdays)) ;;; Re.Lit "," ;;; spaces ;;;
   Re.Grp 2 (Re.alts (map Re.litsI months_re)) ;;; spaces ;;;
   Re.Grp 3 day_re ;;; Re.Lit "," ;;; spaces ;;;
   Re.Grp 4 (digit ;;; digit ;;; digit ;;; digit))%re.

(** [int(s)] for a string of digits, possibly after a space. *)
Fixpoint int_acc (s : string) (acc : nat) : nat :=
  match s with
  | EmptyString => acc
  | String c s' =>
      if Str.is_digit c
      then int_acc s' (10 * acc + (N.to_nat (Str.code c) - 48))
      else int_acc s' acc
  end.
Definition int (s : string) : nat := int_acc s 0.

Fixpoint index_of (x : string) (l : list string) (i : nat) : option nat :=
  match l with
  | [] => None
  | y :: l' => if String.eqb x y then Some i else index_of x l' (S i)
  end.

Definition is_leap (y : nat) : bool :=
  (y mod 4 =? 0) && (negb (y mod 100 =? 0) || (y mod 400 =? 0)).

Definition days_in_month (y m : nat) : nat :=
  match m with
  | 2 => if is_leap y then 29 else 28
  | 4 | 6 | 9 | 11 => 30
  | _ => 31
  end.

Definition strptime (data_string : string) : result t :=
  match Re.match_ format_re data_string with
  | None => raise ValueError
  | Some found =>
      match Re.rest found with
      | _ :: _ => raise ValueError          (* unconverted data remains *)
      | [] =>
          let caps := Re.groups found in
          let y := int (group_or_empty 4 caps) in
          let d := int (group_or_empty 3 caps) in
          match index_of (Str.lower (group_or_empty 2 caps)) months 1 with
          | None => raise ValueError
          | Some m =>
              if (1 <=? y) && (d <=? days_in_month y m)
              then ret (mk y m d)
              else raise ValueError
          end
      end
  end.

End Datetime.

(** ** The entity model *)

(** The [type] attribute of a [Session]. *)
Inductive session_type : Type :=
| plenary | break | paper | poster | tutorial | best_paper.

(** The [type] attribute of an [Item]. *)
Inductive item_type : Type :=
| paper_item | poster_item | tutorial_item.

Definition session_type_eqb (a b : session_type) : bool :=
  match a, b with
  | plenary, plenary | break, break | paper, paper | poster, poster
  | tutorial, tutorial | best_paper, best_paper => true
  | _, _ => false
  end.

(** [type in ['plenary', 'break']] *)
Definition plenary_or_break (ty : session_type) : bool :=
  session_type_eqb ty plenary || session_type_eqb ty break.

Module Item.

(** [Item(id_, type, **kwargs)]: every keyword becomes an attribute.  An
    attribute the constructor call does not pass is [None] here. *)
Record t : Type := mk {
  id_ : string;
  type : item_type;
  title : string;
  authors : string;
  track : string;
  topic : option pyval;        (* posters *)
  location : option string;    (* tutorials *)
  start : option pyval;        (* papers and tutorials *)
  end_ : option pyval
}.

(** [current_item.topic = v] *)
Definition set_topic (i : t) (v : pyval) : t :=
  mk (id_ i) (type i) (title i) (authors i) (track i) (Some v)
     (location i) (start i) (end_ i).

(** [^([0-9]+(-[a-z]+)?)(\s*([0-9]{1,2}:[0-9]{2})--([0-9]{1,2}:[0-9]{2}))?\s+#([^#]{0,})$],
    where the source writes the last quantifier as a star. *)
Definition _regexp : Re.regex :=
  (Re.Grp 1 (Re.Cls Str.is_digit 1 None ;;;
             Re.Opt (Re.Grp 2 (Re.Lit "-" ;;; Re.Cls Str.is_lower_az 1 None))) ;;;
   Re.Opt (Re.Grp 3 (Re.Cls Str.is_space 0 None ;;; Re.Grp 4 time_re ;;;
                     Re.Lit "-" ;;; Re.Lit "-" ;;; Re.Grp 5 time_re)) ;;;
   Re.Cls Str.is_space 1 None ;;; Re.Lit "#" ;;;
   Re.Grp 6 (Re.Cls (Str.is_not "#") 0 None) ;;; Re.Eos)%re.

(** [real_id, id_type = item_id.split('-')] *)
Definition split_id (item_id : string) : result (string * string) :=
  match Str.split "-" item_id with
  | [real_id; id_type] => ret (real_id, id_type)
  | _ => raise ValueError
  end.

(** The function returns [None] when no branch applies. *)
Definition fromstring (item_regex_match_object : Re.captures)
           (containing_session_type : session_type) : result (option t) :=
  let g := item_regex_match_object in
  let item_id := group_or_empty 1 g in
  let start_time := grp 4 g in
  let end_time := grp 5 g in
  let metadata_string := group_or_empty 6 g in
  match containing_session_type with
  | poster =>
      ret (Some (mk item_id poster_item "" "" "main" (Some (PyStr ""))
                    None None None))
  | paper | best_paper =>
      '(item_id, id_type) <-
        (if Str.contains_char "-" item_id
         then split_id item_id
         else ret (item_id, "main")) ;;
      ret (Some (mk item_id paper_item "" "" id_type None None
                    (Some start_time) (Some end_time)))
  | tutorial =>
      '(real_id, id_type) <- split_id item_id ;;
      let metadata_dict := parse_metadata_into_dict metadata_string in
      if String.eqb id_type "tutorial"
      then ret (Some (mk real_id tutorial_item "" "" "main" None
                         (Some (Str.strip (Dict.get_default metadata_dict "room" "")))
                         (Some start_time) (Some end_time)))
      else raise AssertionError
  | plenary | break => ret None
  end.

End Item.

Module Session.

Record t : Type := mk {
  id_ : string;
  title : string;
  type : session_type;
  location : string;
  chair : string;
  start : string;
  end_ : string;
  items : list Item.t
}.

(** [self.items.append(item)] *)
Definition add (self : t) (item : Item.t) : t :=
  mk (id_ self) (title self) (type self) (location self) (chair self)
     (start self) (end_ self) (items self ++ [item]).

Definition not_hash_plus : Re.regex := Re.Cls (Str.is_not "#") 1 None.

(** The common tail [([^#]+)#?([^#]+)?$], with the two groups numbered
    [n] and [n + 1]. *)
Definition title_metadata (n : nat) : Re.regex :=
  (Re.Grp n not_hash_plus ;;; Re.Opt (Re.Lit "#") ;;;
   Re.Opt (Re.Grp (S n) not_hash_plus) ;;; Re.Eos)%re.

(** [! ([0-9]{1,2}:[0-9]{2})--([0-9]{1,2}:[0-9]{2})\s+([^#]+)#?([^#]+)?$] *)
Definition _plenary_regexp : Re.regex :=
  (Re.lits "! " ;;; Re.Grp 1 time_re ;;; Re.lits "--" ;;; Re.Grp 2 time_re ;;;
   Re.Cls Str.is_space 1 None ;;; title_metadata 3)%re.

(** [= Session ([^:]+): ([^#]+)#?([^#]+)?$] *)
Definition _paper_regexp : Re.regex :=
  (Re.lits "= Session " ;;; Re.Grp 1 (Re.Cls (Str.is_not ":") 1 None) ;;;
   Re.lits ": " ;;; title_metadata 2)%re.

(** [= ([^#]+)#?([^#]+)?$] *)
Definition _non_paper_regexp : Re.regex :=
  (Re.lits "= " ;;; title_metadata 1)%re.

(** [parse_metadata_into_dict(metadata) if metadata else {}] *)
Definition metadata_dict_of (metadata : pyval) : Dict.dict string :=
  match metadata with
  | PyStr s => if Str.is_empty s then [] else parse_metadata_into_dict s
  | PyNone => []
  end.

Definition room (d : Dict.dict string) : string :=
  Str.strip (Dict.get_default d "room" "").
Definition chair1 (d : Dict.dict string) : string :=
  Str.strip (Dict.get_default d "chair1" "").

Definition break_re : Re.regex :=
  Re.alts [Re.lits "break"; Re.lits "lunch"; Re.lits "coffee"].

(** The function returns [None] when the string starts with neither sigil. *)
Definition fromstring (session_string : string) : result (option t) :=
  if Str.startswith "!" session_string then
    g <- groups_of (Re.match_ _plenary_regexp session_string) ;;
    let metadata_dict := metadata_dict_of (grp 4 g) in
    lowered <- py_lower (grp 3 g) ;;
    let session_type := if Re.search break_re lowered then break else plenary in
    title <- py_strip (grp 3 g) ;;
    start <- py_strip (grp 1 g) ;;
    end_ <- py_strip (grp 2 g) ;;
    ret (Some (mk "" title session_type (room metadata_dict)
                  (chair1 metadata_dict) start end_ []))
  else if Str.startswith "=" session_string then
    if Str.startswith "= Session" session_string then
      g <- groups_of (Re.match_ _paper_regexp session_string) ;;
      let metadata_dict := metadata_dict_of (grp 3 g) in
      lowered <- py_lower (grp 2 g) ;;
      let session_type :=
        if Re.search (Re.lits "posters") lowered then poster else paper in
      id_ <- py_strip (grp 1 g) ;;
      title <- py_strip (grp 2 g) ;;
      ret (Some (mk id_ title session_type (room metadata_dict)
                    (chair1 metadata_dict) "" "" []))
    else
      g <- groups_of (Re.match_ _non_paper_regexp session_string) ;;
      let metadata_dict := metadata_dict_of (grp 2 g) in
      lowered <- py_lower (grp 1 g) ;;
      let session_type :=
        if Re.search (Re.lits "tutorial") lowered then tutorial else best_paper in
      title <- py_strip (grp 1 g) ;;
      ret (Some (mk "" title session_type (room metadata_dict) "" "" "" []))
  else ret None.

End Session.

Module SessionGroup.

Record t : Type := mk {
  title : string;
  sessions : list Session.t;
  start : string;
  end_ : string
}.

(** [self.sessions.append(session)] *)
Definition add (self : t) (session : Session.t) : t :=
  mk (title self) (sessions self ++ [session]) (start self) (end_ self).

(** [([0-9]{1,2}:[0-9]{2})--([0-9]{1,2}:[0-9]{2})\s+(.{0,})], where the
    source writes the last quantifier as a star. *)
Definition _regexp : Re.regex :=
  (Re.Grp 1 time_re ;;; Re.lits "--" ;;; Re.Grp 2 time_re ;;;
   Re.Cls Str.is_space 1 None ;;; Re.Grp 3 (Re.Cls Str.dot 0 None))%re.

Definition fromstring (session_group_string : string) : result t :=
  let real_session_group_string := Str.lstrip_chars "+ " session_group_string in
  g <- groups_of (Re.match_ _regexp real_session_group_string) ;;
  title <- py_strip (grp 3 g) ;;
  start <- py_strip (grp 1 g) ;;
  end_ <- py_strip (grp 2 g) ;;
  ret (mk title [] start end_).

End SessionGroup.

Module Day.

(** An element of [contents]. *)
Inductive content : Type :=
| OfSession (s : Session.t)
| OfGroup (g : SessionGroup.t).

Record t : Type := mk {
  datetime : Datetime.t;
  contents : list content
}.

(** [self.contents.append(session_or_session_group)] *)
Definition add (self : t) (session_or_session_group : content) : t :=
  mk (datetime self) (contents self ++ [session_or_session_group]).

Definition fromstring (day_string : string) : result t :=
  let real_day_string := Str.rstrip (Str.lstrip_chars "* " day_string) in
  dt <- Datetime.strptime real_day_string ;;
  ret (mk dt []).

End Day.

Module Agenda.

(** [self.days]: [update_states] appends [current_day] as it is, also when
    it is still [None]. *)
Record t : Type := mk { days : list (option Day.t) }.

(** [Agenda()] *)
Definition init : t := mk [].

(** The [(current_day, current_session_group, current_session,
    current_item)] tuple. *)
Definition current_tuple : Type :=
  (option Day.t * option SessionGroup.t * option Session.t * option Item.t)%type.

(** [current_day.add(x)] *)
Definition day_add (current_day : option Day.t) (x : Day.content)
  : result (option Day.t) :=
  match current_day with
  | Some d => ret (Some (Day.add d x))
  | None => raise AttributeError
  end.

(** The method updates the objects of the tuple in place and appends to
    [self.days]; the updated objects and agenda are returned here. *)
Definition update_states (self : t) (tuple : current_tuple)
           (save_session save_group save_day : bool)
  : result (t * current_tuple) :=
  let '(current_day, current_session_group, current_session, current_item) :=
    tuple in
  (* if there is an active item, add it to the active session *)
  let current_session :=
    match current_item, current_session with
    | Some item, Some session => Some (Session.add session item)
    | _, _ => current_session
    end in
  (* if there is an active session, add it to the active session group
     (unless it is a plenary/break session), otherwise to the active day *)
  '(current_day, current_session_group) <-
    match current_session with
    | Some session =>
        if save_session then
          match current_session_group with
          | Some group =>
              if negb (plenary_or_break (Session.type session))
              then ret (current_day, Some (SessionGroup.add group session))
              else
                d <- day_add current_day (Day.OfSession session) ;;
                ret (d, current_session_group)
          | None =>
              d <- day_add current_day (Day.OfSession session) ;;
              ret (d, current_session_group)
          end
        else ret (current_day, current_session_group)
    | None => ret (current_day, current_session_group)
    end ;;
  (* save the active session group, if any, to the active day *)
  current_day <-
    match current_session_group with
    | Some group =>
        if save_group then day_add current_day (Day.OfGroup group)
        else ret current_day
    | None => ret current_day
    end ;;
  (* save the active day to the agenda *)
  let self := if save_day then mk (days self ++ [current_day]) else self in
  ret (self, (current_day, current_session_group, current_session, current_item)).

(** The local variables of [fromfile] together with [self].  The local
    [current_poster_topic] has no value until the first assignment:
    [None] stands for the unbound variable. *)
Record state : Type := mkstate {
  self : t;
  current_day : option Day.t;
  current_session_group : option SessionGroup.t;
  current_session : option Session.t;
  current_item : option Item.t;
  current_poster_topic : option pyval
}.

Definition tuple_of (st : state) : current_tuple :=
  (current_day st, current_session_group st, current_session st,
   current_item st).

Definition item_match (line : string) : option Re.match_object :=
  Re.match_ Item._regexp line.

Definition is_poster (i : Item.t) : bool :=
  match Item.type i with
  | poster_item => true
  | _ => false
  end.

(** [current_session.type] *)
Definition session_type_of (current_session : option Session.t)
  : result session_type :=
  match current_session with
  | Some s => ret (Session.type s)
  | None => raise AttributeError
  end.

(** The body of the loop over the lines of the file. *)
Definition process_line (st : state) (line : string) : result state :=
  let line := Str.strip line in
  if Str.is_empty line then ret st
  else if Str.startswith "* " line then
    (* a new day *)
    '(self, _) <-
      match current_day st with
      | Some _ => update_states (self st) (tuple_of st) true true true
      | None => ret (self st, tuple_of st)
      end ;;
    day <- Day.fromstring line ;;
    ret (mkstate self (Some day) None None None (current_poster_topic st))
  else if Str.startswith "! " line then
    (* a new plenary session *)
    '(self, (day, _, _, _)) <-
      update_states (self st) (tuple_of st) true true false ;;
    session <- Session.fromstring line ;;
    ret (mkstate self day None session None (current_poster_topic st))
  else if Str.startswith "+ " line then
    (* a new session group *)
    '(self, (day, _, _, _)) <-
      update_states (self st) (tuple_of st) true true false ;;
    group <- SessionGroup.fromstring line ;;
    ret (mkstate self day (Some group) None None (current_poster_topic st))
  else if Str.startswith "= " line then
    (* a new paper/poster/tutorial/best-paper session *)
    '(self, (day, group, _, _)) <-
      update_states (self st) (tuple_of st) true false false ;;
    session <- Session.fromstring line ;;
    ret (mkstate self day group session None (current_poster_topic st))
  else if Str.startswith "@ " line then
    (* a poster group topic *)
    '(self, (day, group, session, _)) <-
      update_states (self st) (tuple_of st) false false false ;;
    let topic := Str.rstrip (Str.lstrip_chars "@ " line) in
    ret (mkstate self day group session None (Some (PyStr topic)))
  else
    match item_match line with
    | Some matchobj =>
        (* a presentation item *)
        '(item, topic) <-
          match current_item st with
          | Some item =>
              if is_poster item then
                match current_poster_topic st with
                | Some v => ret (Some (Item.set_topic item v), Some PyNone)
                | None => raise UnboundLocalError
                end
              else ret (current_item st, current_poster_topic st)
          | None => ret (current_item st, current_poster_topic st)
          end ;;
        '(self, (day, group, session, _)) <-
          update_states (self st)
            (current_day st, current_session_group st, current_session st, item)
            false false false ;;
        ty <- session_type_of session ;;
        new_item <- Item.fromstring (Re.groups matchobj) ty ;;
        ret (mkstate self day group session new_item topic)
    | None => ret st
    end.

Fixpoint loop (st : state) (lines : list string) : result state :=
  match lines with
  | [] => ret st
  | line :: lines' =>
      st' <- process_line st line ;;
      loop st' lines'
  end.

(** [fromfile] on the lines of the file at [filepath]. *)
Definition start (self : t) : state := mkstate self None None None None None.

Definition fromfile (self : t) (lines : list string) : result t :=
  st <- loop (start self) lines ;;
  '(self, _) <- update_states (Agenda.self st) (tuple_of st) true true true ;;
  ret self.

End Agenda.

(** ** [code/metadata.py] *)

Module ScheduleMetadata.

Record MetadataTuple : Type := mkTuple {
  title : string;
  authors : string;
  abstract : string;
  anthology_url : string
}.

Record t : Type := mk {
  _order_id_to_metadata_dict : Dict.dict MetadataTuple;
  _order_id_to_anthology_id_dict : Dict.dict string;
  _anthology_id_to_order_id_dict : Dict.dict string
}.

(** [{v: k for k, v in mapping_dict.items()}] *)
Definition invert (mapping_dict : Dict.dict string) : Dict.dict string :=
  Dict.of_pairs (map (fun kv => (snd kv, fst kv)) mapping_dict).

(** [__init__] *)
Definition init (metadata_dict : Dict.dict MetadataTuple)
           (mapping_dict : Dict.dict string) : t :=
  mk metadata_dict mapping_dict (invert mapping_dict).

(** [_parse_id_mapping_file] on the lines of an existing file. *)
Fixpoint parse_mapping_lines (mapping_dict : Dict.dict string)
         (lines : list string) : result (Dict.dict string) :=
  match lines with
  | [] => ret mapping_dict
  | line :: lines' =>
      match Str.split " " (Str.strip line) with
      | [anthology_id; order_id] =>
          parse_mapping_lines (Dict.set mapping_dict order_id anthology_id) lines'
      | _ => raise ValueError
      end
  end.

Definition _parse_id_mapping_file (lines : list string)
  : result (Dict.dict string) :=
  parse_mapping_lines [] lines.

(** What the code reads off the parsed XML: an absent tag or attribute is
    [None]. *)
Record author_tag : Type := mkAuthor {
  first : option string;
  last : option string
}.

Record paper_tag : Type := mkPaper {
  paper_id : option string;          (* paper['id'] *)
  paper_title : option string;       (* paper.title *)
  paper_abstract : option string;    (* paper.abstract *)
  paper_url : option string;         (* paper.url *)
  paper_authors : list author_tag    (* paper.find_all('author') *)
}.

(** [tag.text] *)
Definition text (tag : option string) : result string :=
  match tag with
  | Some s => ret s
  | None => raise AttributeError
  end.

(** ['{} {}'.format(author.first.text, author.last.text)] for each tag *)
Fixpoint author_names (authortags : list author_tag) : result (list string) :=
  match authortags with
  | [] => ret []
  | author :: authortags' =>
      f <- text (first author) ;;
      l <- text (last author) ;;
      names <- author_names authortags' ;;
      ret ((f ++ " " ++ l)%string :: names)
  end.

(** The author string of one paper. *)
Definition authors_of (authortags : list author_tag) : result string :=
  match authortags with
  | [] => ret ""
  | _ :: _ =>
      authorlist <- author_names authortags ;;
      ret (Str.join ", " (removelast authorlist) ++ " and " ++
           List.last authorlist "")%string
  end.

Definition parse_paper (stem : string) (tag : paper_tag)
  : result (string * MetadataTuple) :=
  id <- match paper_id tag with
        | Some i => ret i
        | None => raise KeyError
        end ;;
  let id_ := (stem ++ "-" ++ id)%string in
  title <- text (paper_title tag) ;;
  let abstract :=
    match paper_abstract tag with
    | Some a => a
    | None => ""
    end in
  anthology_url <- text (paper_url tag) ;;
  authors <- authors_of (paper_authors tag) ;;
  ret (id_, mkTuple title authors abstract anthology_url).

Fixpoint parse_papers (stem : string) (anthology_dict : Dict.dict MetadataTuple)
         (papers : list paper_tag) : result (Dict.dict MetadataTuple) :=
  match papers with
  | [] => ret anthology_dict
  | tag :: papers' =>
      '(id_, tuple) <- parse_paper stem tag ;;
      parse_papers stem (Dict.set anthology_dict id_ tuple) papers'
  end.

(** [_parse_anthology_xml] on the [paper] tags of the file named
    [stem].xml. *)
Definition _parse_anthology_xml (xml_file : string * list paper_tag)
  : result (Dict.dict MetadataTuple) :=
  parse_papers (fst xml_file) [] (snd xml_file).

(** [row[key].strip()] for a row of the TSV reader. *)
Definition field (row : Dict.dict pyval) (key : string) : result string :=
  v <- Dict.getitem row key ;;
  py_strip v.

Fixpoint parse_rows (non_anthology_dict : Dict.dict MetadataTuple)
         (rows : list (Dict.dict pyval)) : result (Dict.dict MetadataTuple) :=
  match rows with
  | [] => ret non_anthology_dict
  | row :: rows' =>
      title <- field row "title" ;;
      authors <- field row "authors" ;;
      let value := mkTuple title authors "" "" in
      key <- field row "paper_id" ;;
      parse_rows (Dict.set non_anthology_dict key value) rows'
  end.

Definition _parse_non_anthology_file (rows : list (Dict.dict pyval))
  : result (Dict.dict MetadataTuple) :=
  parse_rows [] rows.

Fixpoint update_mappings (d : Dict.dict string) (mappings : list (list string))
  : result (Dict.dict string) :=
  match mappings with
  | [] => ret d
  | mapping :: mappings' =>
      m <- _parse_id_mapping_file mapping ;;
      update_mappings (Dict.update d m) mappings'
  end.

Fixpoint update_xmls (d : Dict.dict MetadataTuple)
         (xmls : list (string * list paper_tag))
  : result (Dict.dict MetadataTuple) :=
  match xmls with
  | [] => ret d
  | xml :: xmls' =>
      m <- _parse_anthology_xml xml ;;
      update_xmls (Dict.update d m) xmls'
  end.

(** The bridge between the order ids and the anthology metadata. *)
Fixpoint bridge (anthology_metadata_dict : Dict.dict MetadataTuple)
         (order_id_to_metadata_dict : Dict.dict MetadataTuple)
         (items : list (string * string)) : result (Dict.dict MetadataTuple) :=
  match items with
  | [] => ret order_id_to_metadata_dict
  | (order_id, anthology_id) :: items' =>
      tuple <- Dict.getitem anthology_metadata_dict anthology_id ;;
      bridge anthology_metadata_dict
             (Dict.set order_id_to_metadata_dict order_id tuple) items'
  end.

(** [fromfiles], given the contents of the files. *)
Definition fromfiles (xmls : list (string * list paper_tag))
           (mappings : list (list string))
           (non_anthology_tsv : option (list (Dict.dict pyval))) : result t :=
  order_id_to_anthology_id_dict <- update_mappings [] mappings ;;
  anthology_metadata_dict <- update_xmls [] xmls ;;
  order_id_to_metadata_dict <-
    bridge anthology_metadata_dict [] order_id_to_anthology_id_dict ;;
  order_id_to_metadata_dict <-
    match non_anthology_tsv with
    | Some rows =>
        m <- _parse_non_anthology_file rows ;;
        ret (Dict.update order_id_to_metadata_dict m)
    | None => ret order_id_to_metadata_dict
    end ;;
  ret (init order_id_to_metadata_dict order_id_to_anthology_id_dict).

(** [id_[0] in ['N', 'W', 'S']] *)
Definition looks_like_anthology_id (id_ : string) : result bool :=
  match id_ with
  | EmptyString => raise IndexError
  | String c _ => ret (Str.mem c "NWS")
  end.

Definition __getitem__ (self : t) (id_ : string) : result MetadataTuple :=
  b <- looks_like_anthology_id id_ ;;
  order_id <-
    (if b then Dict.getitem (_anthology_id_to_order_id_dict self) id_
     else ret id_) ;;
  Dict.getitem (_order_id_to_metadata_dict self) order_id.

End ScheduleMetadata.

(** ** Vocabulary of the properties *)

(** The five sigils [fromfile] tests a stripped line for, in its order. *)
Definition sigil (line : string) : bool :=
  Str.startswith "* " line || Str.startswith "! " line ||
  Str.startswith "+ " line || Str.startswith "= " line ||
  Str.startswith "@ " line.

(** A line that reaches the presentation-item branch of [fromfile]. *)
Definition is_item_line (raw : string) : bool :=
  let line := Str.strip raw in
  negb (Str.is_empty line) && negb (sigil line) &&
  match Agenda.item_match line with
  | Some _ => true
  | None => false
  end.

(** A non-empty line that no branch of [fromfile] accepts. *)
Definition unrecognized (raw : string) : bool :=
  let line := Str.strip raw in
  negb (Str.is_empty line) && negb (sigil line) &&
  match Agenda.item_match line with
  | Some _ => false
  | None => true
  end.

(** The sessions of a day: those directly in its contents and those inside
    its session groups. *)
Definition in_group_of_day (s : Session.t) (d : Day.t) : Prop :=
  exists g, In (Day.OfGroup g) (Day.contents d) /\ In s (SessionGroup.sessions g).

Definition session_of_day (s : Session.t) (d : Day.t) : Prop :=
  In (Day.OfSession s) (Day.contents d) \/ in_group_of_day s d.

(** What holds of the entities while a file is read: a plenary or break
    session has no items and sits in no session group. *)
Definition opt_ok {A} (P : A -> Prop) (o : option A) : Prop :=
  match o with
  | Some x => P x
  | None => True
  end.

Definition session_ok (s : Session.t) : Prop :=
  plenary_or_break (Session.type s) = true -> Session.items s = [].

Definition group_ok (g : SessionGroup.t) : Prop :=
  forall s, In s (SessionGroup.sessions g) ->
            plenary_or_break (Session.type s) = false.

Definition content_ok (c : Day.content) : Prop :=
  match c with
  | Day.OfSession s => session_ok s
  | Day.OfGroup g => group_ok g
  end.

Definition day_ok (d : Day.t) : Prop := Forall content_ok (Day.contents d).

Definition agenda_ok (a : Agenda.t) : Prop :=
  Forall (opt_ok day_ok) (Agenda.days a).

(** No item is open under a plenary or break session, nor without a
    session. *)
Definition item_slot_ok (session : option Session.t) (item : option Item.t)
  : Prop :=
  match session with
  | Some s => plenary_or_break (Session.type s) = true -> item = None
  | None => item = None
  end.

Definition state_ok (st : Agenda.state) : Prop :=
  agenda_ok (Agenda.self st) /\
  opt_ok day_ok (Agenda.current_day st) /\
  opt_ok group_ok (Agenda.current_session_group st) /\
  opt_ok session_ok (Agenda.current_session st) /\
  item_slot_ok (Agenda.current_session st) (Agenda.current_item st).

(** An open poster item sits under an open poster session. *)
Definition poster_slot_ok (st : Agenda.state) : Prop :=
  forall i, Agenda.current_item st = Some i -> Agenda.is_poster i = true ->
            exists s, Agenda.current_session st = Some s /\
                      Session.type s = poster.

(** The regular expression semantics as a relation: [denote r c s' caps caps']
    says that [r] can consume [c] in front of [s'], taking the groups from
    [caps] to [caps'].  It forgets which of several matches is preferred. *)
Fixpoint denote (r : Re.regex) (c s' : list ascii) (caps caps' : Re.captures)
  : Prop :=
  match r with
  | Re.Eps => c = [] /\ caps' = caps
  | Re.Lit a => c = [a] /\ caps' = caps
  | Re.LitI a =>
      exists b, c = [b] /\ Str.lower_char b = Str.lower_char a /\ caps' = caps
  | Re.Cls p lo hi =>
      forallb p c = true /\ lo <= length c /\
      match hi with Some h => length c <= h | None => True end /\
      caps' = caps
  | Re.Cat r1 r2 =>
      exists c1 c2 mid,
        c = c1 ++ c2 /\ denote r1 c1 (c2 ++ s') caps mid /\ denote r2 c2 s' mid caps'
  | Re.Alt r1 r2 => denote r1 c s' caps caps' \/ denote r2 c s' caps caps'
  | Re.Opt r1 => denote r1 c s' caps caps' \/ (c = [] /\ caps' = caps)
  | Re.Grp n r1 => exists mid, denote r1 c s' caps mid /\ caps' = (n, c) :: mid
  | Re.Eos => c = [] /\ caps' = caps /\ (s' = [] \/ s' = [Str.newline])
  end.

(** Sample values used in the examples below. *)
Definition monday (contents : list Day.content) : Day.t :=
  Day.mk (Datetime.mk 2019 6 3) contents.

Definition a_poster (id_ : string) (topic : pyval) : Item.t :=
  Item.mk id_ poster_item "" "" "main" (Some topic) None None None.

Definition a_paper (id_ track : string) : Item.t :=
  Item.mk id_ paper_item "" "" track None None (Some PyNone) (Some PyNone).

Definition a_session (id_ title : string) (ty : session_type)
           (items : list Item.t) : Session.t :=
  Session.mk id_ title ty "" "" "" "" items.



(** The state of the loop after the lines ["* Monday, June 3, 2019"],
    ["! 9:00--10:00 Keynote"]. *)
Definition keynote : Session.t :=
  Session.mk "" "Keynote" plenary "" "" "9:00" "10:00" [].

Definition keynote_open : Agenda.state :=
  Agenda.mkstate Agenda.init (Some (monday [])) None (Some keynote) None None.

(** ** Vocabulary of the further properties *)

(** A line [fromfile] passes over: nothing is left of it after [strip]. *)
Definition is_blank (raw : string) : bool := Str.is_empty (Str.strip raw).

(** A line that reaches the day branch, and one that reaches the topic
    branch, of [fromfile]. *)
Definition is_day_header (raw : string) : bool :=
  Str.startswith "* " (Str.strip raw).

Definition is_topic_line (raw : string) : bool :=
  Str.startswith "@ " (Str.strip raw).

Definition day_headers (lines : list string) : list string :=
  filter is_day_header lines.

(** A day of the agenda that stems from the day header [raw]: it carries the
    date [Day.fromstring] reads off that line. *)
Definition day_of_header (day : option Day.t) (raw : string) : Prop :=
  exists d d0, day = Some d /\ Day.fromstring (Str.strip raw) = inr d0 /\
               Day.datetime d = Day.datetime d0.

(** The days a state holds: those of the agenda, then the open one. *)
Definition all_days (st : Agenda.state) : list (option Day.t) :=
  Agenda.days (Agenda.self st) ++
  match Agenda.current_day st with
  | Some d => [Some d]
  | None => []
  end.

(** The days held so far stem, one by one, from the day headers read so far;
    no day is open only as long as no header has been read. *)
Definition days_follow (st : Agenda.state) (hs : list string) : Prop :=
  Forall2 day_of_header (all_days st) hs /\
  (Agenda.current_day st = None -> hs = []).

(** The state [st] with the days [before] in front of those of its agenda. *)
Definition with_days_before (before : list (option Day.t)) (st : Agenda.state)
  : Agenda.state :=
  Agenda.mkstate (Agenda.mk (before ++ Agenda.days (Agenda.self st)))
    (Agenda.current_day st) (Agenda.current_session_group st)
    (Agenda.current_session st) (Agenda.current_item st)
    (Agenda.current_poster_topic st).

Definition after_days {A : Type} (before : list (option Day.t))
           (r : result (Agenda.t * A)) : result (Agenda.t * A) :=
  match r with
  | inl e => inl e
  | inr (self, x) => inr (Agenda.mk (before ++ Agenda.days self), x)
  end.

(** The type of item [Item.fromstring] makes under each type of session. *)
Definition item_type_under (ty : session_type) : option item_type :=
  match ty with
  | poster => Some poster_item
  | paper | best_paper => Some paper_item
  | tutorial => Some tutorial_item
  | plenary | break => None
  end.

Definition item_typed (s : Session.t) (i : Item.t) : Prop :=
  item_type_under (Session.type s) = Some (Item.type i).

Definition session_typed (s : Session.t) : Prop :=
  Forall (item_typed s) (Session.items s).

Definition content_typed (c : Day.content) : Prop :=
  match c with
  | Day.OfSession s => session_typed s
  | Day.OfGroup g => Forall session_typed (SessionGroup.sessions g)
  end.

Definition day_typed (d : Day.t) : Prop := Forall content_typed (Day.contents d).

Definition agenda_typed (a : Agenda.t) : Prop :=
  Forall (opt_ok day_typed) (Agenda.days a).

Definition state_typed (st : Agenda.state) : Prop :=
  agenda_typed (Agenda.self st) /\
  opt_ok day_typed (Agenda.current_day st) /\
  opt_ok (fun g => Forall session_typed (SessionGroup.sessions g))
         (Agenda.current_session_group st) /\
  opt_ok session_typed (Agenda.current_session st) /\
  match Agenda.current_item st, Agenda.current_session st with
  | Some i, Some s => item_typed s i
  | _, _ => True
  end.

(** The sessions of an agenda in the order in which they are stored: day
    after day, and within a day the contents one after the other, a session
    group giving its sessions. *)
Definition sessions_of_content (c : Day.content) : list Session.t :=
  match c with
  | Day.OfSession s => [s]
  | Day.OfGroup g => SessionGroup.sessions g
  end.

Definition sessions_of_day (d : Day.t) : list Session.t :=
  flat_map sessions_of_content (Day.contents d).

Definition sessions_of_opt_day (day : option Day.t) : list Session.t :=
  match day with
  | Some d => sessions_of_day d
  | None => []
  end.

Definition sessions_of_agenda (a : Agenda.t) : list Session.t :=
  flat_map sessions_of_opt_day (Agenda.days a).

(** The sessions held by an agenda, an open day, an open session group and
    an open session, in that order. *)
Definition held_sessions (self : Agenda.t) (day : option Day.t)
           (group : option SessionGroup.t) (session : option Session.t)
  : list Session.t :=
  sessions_of_agenda self ++ sessions_of_opt_day day ++
  match group with Some g => SessionGroup.sessions g | None => [] end ++
  match session with Some s => [s] | None => [] end.

(** A session as its header line made it, before any item was added. *)
Definition without_items (s : Session.t) : Session.t :=
  Session.mk (Session.id_ s) (Session.title s) (Session.type s)
    (Session.location s) (Session.chair s) (Session.start s) (Session.end_ s) [].

(** A line that reaches one of the two session branches of [fromfile]. *)
Definition is_session_line (raw : string) : bool :=
  Str.startswith "! " (Str.strip raw) || Str.startswith "= " (Str.strip raw).

Definition session_lines (lines : list string) : list string :=
  filter is_session_line lines.

(** The session [s] stems from the line [raw]. *)
Definition session_of_line (s : Session.t) (raw : string) : Prop :=
  Session.fromstring (Str.strip raw) = inr (Some (without_items s)).

(** The sessions held so far stem, one by one and in order, from the session
    lines read so far; a day is open; and no session group is open while a
    plenary or break session is. *)
Definition sessions_follow (st : Agenda.state) (hs : list string) : Prop :=
  Forall2 session_of_line
    (held_sessions (Agenda.self st) (Agenda.current_day st)
       (Agenda.current_session_group st) (Agenda.current_session st)) hs /\
  Agenda.current_day st <> None /\
  (forall s, Agenda.current_session st = Some s ->
             plenary_or_break (Session.type s) = true ->
             Agenda.current_session_group st = None).

(** A time of day as the patterns take it: one or two digits, a colon, two
    digits. *)
Definition time_shaped (s : string) : Prop :=
  exists h m : list ascii,
    s = string_of_list_ascii (h ++ ":"%char :: m) /\
    forallb Str.is_digit h = true /\ 1 <= length h <= 2 /\
    forallb Str.is_digit m = true /\ length m = 2.

Definition keys {V : Type} (d : Dict.dict V) : list string := map fst d.

(** The anthology id a line of a mapping file gives for [order_id]: the
    first field of the line when its second field is [order_id].  A line
    that does not consist of two fields gives none; [_parse_id_mapping_file]
    fails on such a line. *)
Definition line_anthology_id (line order_id : string) : option string :=
  match Str.split " " (Str.strip line) with
  | [anthology_id; o] =>
      if String.eqb order_id o then Some anthology_id else None
  | _ => None
  end.

(** The anthology id of the last of [lines] that has [order_id] for its
    order id; [found] when there is no such line. *)
Fixpoint last_anthology_id (lines : list string) (order_id : string)
         (found : option string) : option string :=
  match lines with
  | [] => found
  | line :: lines' =>
      last_anthology_id lines' order_id
        match line_anthology_id line order_id with
        | Some anthology_id => Some anthology_id
        | None => found
        end
  end.

(** The anthology id the mapping files finally give for [order_id]: that of
    the last line for it, the files taken in the order they are given. *)
Definition final_anthology_id (mappings : list (list string))
           (order_id : string) : option string :=
  last_anthology_id (concat mappings) order_id None.

(** ** Properties of the regular expression matcher *)

Lemma try_down_eq {R} (s : list ascii) (lo n : nat) (caps : Re.captures)
      (k : @Re.cont R) :
  Re.try_down s lo n caps k =
  match k (firstn n s) (skipn n s) caps with
  | Some v => Some v
  | None =>
      match n with
      | O => None
      | S n' => if Nat.leb lo n' then Re.try_down s lo n' caps k else None
      end
  end.
Proof. destruct n; reflexivity. Qed.

Lemma try_down_sound {R} (s : list ascii) (lo : nat) (caps : Re.captures)
      (k : @Re.cont R) (v : R) :
  forall n, lo <= n -> Re.try_down s lo n caps k = Some v ->
  exists m, lo <= m <= n /\ k (firstn m s) (skipn m s) caps = Some v.
Proof.
  induction n as [|n IH]; intros Hlo H; rewrite try_down_eq in H.
  - destruct (k (firstn 0 s) (skipn 0 s) caps) eqn:E; [|discriminate].
    exists 0. split; [lia|]. rewrite E. exact H.
  - destruct (k (firstn (S n) s) (skipn (S n) s) caps) eqn:E.
    + exists (S n). split; [lia|]. rewrite E. exact H.
    + destruct (Nat.leb lo n) eqn:L; [|discriminate].
      apply Nat.leb_le in L. destruct (IH L H) as [m [Hm Hk]].
      exists m. split; [lia | exact Hk].
Qed.

Lemma span_firstn (p : ascii -> bool) (s : list ascii) :
  forall m, m <= Re.span p s -> forallb p (firstn m s) = true /\ length (firstn m s) = m.
Proof.
  induction s as [|c s IH]; intros m Hm; simpl in *.
  - assert (m = 0) by lia. subst. auto.
  - destruct m as [|m]; [auto|].
    destruct (p c) eqn:E; [|lia].
    destruct (IH m ltac:(lia)) as [H1 H2]. simpl. rewrite E, H1, H2. auto.
Qed.

Lemma rmatch_sound (r : Re.regex) :
  forall {R} (s : list ascii) (caps : Re.captures) (k : @Re.cont R) (v : R),
    Re.rmatch r s caps k = Some v ->
    exists c s' caps',
      s = c ++ s' /\ denote r c s' caps caps' /\ k c s' caps' = Some v.
Proof.
  induction r as [ | a | a | p lo hi | r1 IH1 r2 IH2 | r1 IH1 r2 IH2
                   | r1 IH1 | n r1 IH1 | ]; intros R s caps k v H; simpl in H.
  - exists [], s, caps. simpl. auto.
  - destruct s as [|b s]; [discriminate|].
    destruct (Ascii.eqb b a) eqn:E; [|discriminate].
    apply Ascii.eqb_eq in E. subst. exists [a], s, caps. simpl. auto.
  - destruct s as [|b s]; [discriminate|].
    destruct (Ascii.eqb (Str.lower_char b) (Str.lower_char a)) eqn:E; [|discriminate].
    apply Ascii.eqb_eq in E. exists [b], s, caps. simpl.
    split; [reflexivity|]. split; [exists b; auto | exact H].
  - destruct (Nat.leb lo (Re.cap_hi hi (Re.span p s))) eqn:L; [|discriminate].
    apply Nat.leb_le in L.
    destruct (try_down_sound _ _ _ _ _ _ L H) as [m [Hm Hk]].
    assert (Hspan : m <= Re.span p s).
    { destruct hi as [h|]; simpl in Hm; lia. }
    destruct (span_firstn p s m Hspan) as [Hall Hlen].
    exists (firstn m s), (skipn m s), caps. simpl.
    rewrite firstn_skipn, Hall, Hlen. repeat split; auto; try lia.
    destruct hi as [h|]; simpl in Hm; [lia | exact I].
  - apply IH1 in H. destruct H as [c1 [s1 [caps1 [Hs [H1 Hk]]]]].
    apply IH2 in Hk. destruct Hk as [c2 [s2 [caps2 [Hs2 [H2 Hk2]]]]].
    exists (c1 ++ c2), s2, caps2. subst. rewrite <- app_assoc.
    repeat split; auto. simpl. exists c1, c2, caps1. auto.
  - destruct (Re.rmatch r1 s caps k) eqn:E.
    + inversion H; subst. apply IH1 in E.
      destruct E as [c [s' [caps' [Hs [H1 Hk]]]]].
      exists c, s', caps'. simpl. auto.
    + apply IH2 in H. destruct H as [c [s' [caps' [Hs [H1 Hk]]]]].
      exists c, s', caps'. simpl. auto.
  - destruct (Re.rmatch r1 s caps k) eqn:E.
    + inversion H; subst. apply IH1 in E.
      destruct E as [c [s' [caps' [Hs [H1 Hk]]]]].
      exists c, s', caps'. simpl. auto.
    + exists [], s, caps. simpl. auto.
  - apply IH1 in H. destruct H as [c [s' [caps' [Hs [H1 Hk]]]]].
    exists c, s', ((n, c) :: caps'). simpl. eauto.
  - destruct s as [|b [|b' s]]; try discriminate.
    + exists [], [], caps. simpl. intuition auto.
    + destruct (Ascii.eqb b Str.newline) eqn:E; [|discriminate].
      apply Ascii.eqb_eq in E. subst. exists [], [Str.newline], caps. simpl.
      intuition auto.
Qed.

Lemma match_list_sound (r : Re.regex) (s : list ascii) (mo : Re.match_object) :
  Re.match_list r s = Some mo ->
  s = Re.matched mo ++ Re.rest mo /\
  denote r (Re.matched mo) (Re.rest mo) [] (Re.groups mo).
Proof.
  unfold Re.match_list. intros H. apply rmatch_sound in H.
  destruct H as [c [s' [caps' [Hs [Hd Hk]]]]]. inversion Hk; subst. simpl. auto.
Qed.

(** The shape of the groups of a match of [Item._regexp]. *)
Lemma item_regexp_shape (s : list ascii) (mo : Re.match_object) :
  Re.match_list Item._regexp s = Some mo ->
  exists ds suf meta,
    forallb Str.is_digit ds = true /\ 1 <= length ds /\
    Re.lookup 1 (Re.groups mo) = Some (ds ++ suf) /\
    Re.lookup 6 (Re.groups mo) = Some meta /\
    ((suf = [] /\ Re.lookup 2 (Re.groups mo) = None) \/
     (exists w, suf = "-"%char :: w /\ forallb Str.is_lower_az w = true /\
                1 <= length w /\ Re.lookup 2 (Re.groups mo) = Some suf)).
Proof.
  intros H. apply match_list_sound in H. destruct H as [_ H].
  unfold Item._regexp in H. simpl in H.
  repeat match goal with
         | H : exists _, _ |- _ => destruct H
         | H : _ /\ _ |- _ => destruct H
         | H : _ \/ _ |- _ => destruct H
         end; subst;
  match goal with H : Re.groups mo = _ |- _ => rewrite H end; simpl.
  all: refine (ex_intro _ _ (ex_intro _ _ (ex_intro _ _
         (conj _ (conj _ (conj eq_refl (conj eq_refl _)))))));
    try assumption.
  all: try (left; split; reflexivity).
  all: right; eexists; split; [reflexivity|]; auto.
Qed.

(** ** Strings and lists of characters *)

Lemma string_of_list_app (l1 l2 : list ascii) :
  string_of_list_ascii (l1 ++ l2) =
  (string_of_list_ascii l1 ++ string_of_list_ascii l2)%string.
Proof. induction l1 as [|c l1 IH]; simpl; [reflexivity | now rewrite IH]. Qed.

Lemma all_string_of_list (p : ascii -> bool) (l : list ascii) :
  Str.all p (string_of_list_ascii l) = forallb p l.
Proof. induction l as [|c l IH]; simpl; [reflexivity | now rewrite IH]. Qed.

Lemma nonempty_string_of_list (l : list ascii) :
  1 <= length l -> string_of_list_ascii l <> EmptyString.
Proof. destruct l; simpl; [lia | discriminate]. Qed.

Lemma digit_not_dash (c : ascii) :
  Str.is_digit c = true -> Ascii.eqb c "-" = false.
Proof.
  destruct c as [[] [] [] [] [] [] [] []]; vm_compute; congruence.
Qed.

Lemma lower_not_dash (c : ascii) :
  Str.is_lower_az c = true -> Ascii.eqb c "-" = false.
Proof.
  destruct c as [[] [] [] [] [] [] [] []]; vm_compute; congruence.
Qed.

Lemma no_dash_of (p : ascii -> bool) (l : list ascii) :
  (forall c, p c = true -> Ascii.eqb c "-" = false) ->
  forallb p l = true -> forallb (fun c => negb (Ascii.eqb c "-")) l = true.
Proof.
  intros Hp. induction l as [|c l IH]; simpl; [reflexivity|].
  intros H. apply andb_prop in H. destruct H as [Hc Hl].
  rewrite (Hp c Hc), (IH Hl). reflexivity.
Qed.

Lemma split_no_sep (sep : ascii) (l : list ascii) :
  forallb (fun c => negb (Ascii.eqb c sep)) l = true ->
  Str.split sep (string_of_list_ascii l) = [string_of_list_ascii l].
Proof.
  induction l as [|c l IH]; simpl; [reflexivity|].
  intros H. apply andb_prop in H. destruct H as [Hc Hl].
  apply negb_true_iff in Hc. rewrite Hc, (IH Hl). reflexivity.
Qed.

Lemma split_at_sep (sep : ascii) (l1 l2 : list ascii) :
  forallb (fun c => negb (Ascii.eqb c sep)) l1 = true ->
  Str.split sep (string_of_list_ascii (l1 ++ sep :: l2)) =
  string_of_list_ascii l1 :: Str.split sep (string_of_list_ascii l2).
Proof.
  induction l1 as [|c l1 IH]; simpl.
  - intros _. rewrite Ascii.eqb_refl. reflexivity.
  - intros H. apply andb_prop in H. destruct H as [Hc Hl].
    apply negb_true_iff in Hc. rewrite Hc, (IH Hl). reflexivity.
Qed.

Lemma mem_no_sep (sep : ascii) (l : list ascii) :
  forallb (fun c => negb (Ascii.eqb c sep)) l = true ->
  Str.mem sep (string_of_list_ascii l) = false.
Proof.
  induction l as [|c l IH]; simpl; [reflexivity|].
  intros H. apply andb_prop in H. destruct H as [Hc Hl].
  apply negb_true_iff in Hc. rewrite Ascii.eqb_sym, Hc, (IH Hl). reflexivity.
Qed.

Lemma mem_at_sep (sep : ascii) (l1 l2 : list ascii) :
  Str.mem sep (string_of_list_ascii (l1 ++ sep :: l2)) = true.
Proof.
  induction l1 as [|c l1 IH]; simpl.
  - rewrite Ascii.eqb_refl. reflexivity.
  - rewrite IH. apply orb_true_r.
Qed.

(** ** [Item.fromstring] on what [Item._regexp] lets through *)

(** The id without a suffix. *)
Lemma split_id_plain (ds : list ascii) :
  forallb Str.is_digit ds = true ->
  Item.split_id (string_of_list_ascii ds) = inl ValueError /\
  Str.contains_char "-" (string_of_list_ascii ds) = false.
Proof.
  intros H. apply (no_dash_of _ _ digit_not_dash) in H.
  unfold Item.split_id, Str.contains_char.
  rewrite (split_no_sep _ _ H), (mem_no_sep _ _ H). auto.
Qed.

(** The id with a suffix. *)
Lemma split_id_suffix (ds w : list ascii) :
  forallb Str.is_digit ds = true -> forallb Str.is_lower_az w = true ->
  Item.split_id (string_of_list_ascii (ds ++ "-"%char :: w)) =
  inr (string_of_list_ascii ds, string_of_list_ascii w) /\
  Str.contains_char "-" (string_of_list_ascii (ds ++ "-"%char :: w)) = true.
Proof.
  intros Hd Hw. apply (no_dash_of _ _ digit_not_dash) in Hd.
  apply (no_dash_of _ _ lower_not_dash) in Hw.
  unfold Item.split_id, Str.contains_char.
  rewrite (split_at_sep _ _ _ Hd), (split_no_sep _ _ Hw), mem_at_sep. auto.
Qed.

(** A matched line whose id has a suffix, under each type of session. *)
Lemma fromstring_with_suffix
        (line : string) (mo : Re.match_object) (suffix : string) :
  Re.match_ Item._regexp line = Some mo ->
  Re.group 2 (Re.groups mo) = Some suffix ->
  exists digits letters : string,
    suffix = ("-" ++ letters)%string /\
    Str.all Str.is_lower_az letters = true /\ letters <> EmptyString /\
    Str.all Str.is_digit digits = true /\ digits <> EmptyString /\
    Re.group 1 (Re.groups mo) = Some (digits ++ suffix)%string /\
    let g := Re.groups mo in
    let a_paper :=
      Item.mk digits paper_item "" "" letters None None
              (Some (grp 4 g)) (Some (grp 5 g)) in
    Item.fromstring g paper = inr (Some a_paper) /\
    Item.fromstring g best_paper = inr (Some a_paper) /\
    Item.fromstring g poster =
      inr (Some (Item.mk (digits ++ suffix)%string poster_item "" "" "main"
                         (Some (PyStr "")) None None None)) /\
    Item.fromstring g tutorial =
      (if String.eqb letters "tutorial"
       then inr (Some (Item.mk digits tutorial_item "" "" "main" None
                        (Some (Str.strip (Dict.get_default
                           (parse_metadata_into_dict (group_or_empty 6 g))
                           "room" "")))
                        (Some (grp 4 g)) (Some (grp 5 g))))
       else inl AssertionError) /\
    Item.fromstring g plenary = inr None /\
    Item.fromstring g break = inr None.
Proof.
  intros Hm H2. unfold Re.match_ in Hm. apply item_regexp_shape in Hm.
  destruct Hm as [ds [suf [meta [Hds [Hlen [H1 [H6 Hsuf]]]]]]].
  unfold Re.group in H2.
  destruct Hsuf as [[_ Hnone] | [w [Hw [Hall [Hwlen H2']]]]].
  { rewrite Hnone in H2. discriminate. }
  rewrite H2' in H2. simpl in H2. inversion H2 as [Hsuffix]. subst suf.
  exists (string_of_list_ascii ds), (string_of_list_ascii w).
  destruct (split_id_suffix ds w Hds Hall) as [Hsplit Hcontains].
  assert (Hid : group_or_empty 1 (Re.groups mo) =
                string_of_list_ascii (ds ++ "-"%char :: w)).
  { unfold group_or_empty, Re.group. rewrite H1. reflexivity. }
  split; [reflexivity|].
  split; [rewrite all_string_of_list; exact Hall|].
  split; [apply nonempty_string_of_list; exact Hwlen|].
  split; [rewrite all_string_of_list; exact Hds|].
  split; [apply nonempty_string_of_list; exact Hlen|].
  split.
  { unfold Re.group. rewrite H1. simpl. now rewrite string_of_list_app. }
  cbv zeta. unfold Item.fromstring. rewrite Hid, Hcontains, Hsplit.
  cbn [bind ret]. rewrite <- string_of_list_app.
  repeat split; reflexivity.
Qed.

(** A matched line whose id has no suffix, under a tutorial session. *)
Lemma fromstring_tutorial_without_suffix (line : string) (mo : Re.match_object) :
  Re.match_ Item._regexp line = Some mo ->
  Re.group 2 (Re.groups mo) = None ->
  Item.fromstring (Re.groups mo) tutorial = inl ValueError.
Proof.
  intros Hm H2. unfold Re.match_ in Hm. apply item_regexp_shape in Hm.
  destruct Hm as [ds [suf [meta [Hds [Hlen [H1 [H6 Hsuf]]]]]]].
  unfold Re.group in H2.
  destruct Hsuf as [[Hnil _] | [w [_ [_ [_ H2']]]]].
  - subst suf. rewrite app_nil_r in H1.
    unfold Item.fromstring, group_or_empty, Re.group. rewrite H1. simpl.
    destruct (split_id_plain ds Hds) as [Hsplit _]. rewrite Hsplit. reflexivity.
  - rewrite H2' in H2. discriminate.
Qed.

(** ** The commit step *)

Lemma session_add_type (s : Session.t) (i : Item.t) :
  Session.type (Session.add s i) = Session.type s.
Proof. reflexivity. Qed.

Lemma day_add_ok (d : Day.t) (c : Day.content) :
  day_ok d -> content_ok c -> day_ok (Day.add d c).
Proof.
  unfold day_ok, Day.add. simpl. intros Hd Hc.
  apply Forall_app. split; [exact Hd | constructor; [exact Hc | constructor]].
Qed.

Lemma group_add_ok (g : SessionGroup.t) (s : Session.t) :
  group_ok g -> plenary_or_break (Session.type s) = false ->
  group_ok (SessionGroup.add g s).
Proof.
  unfold group_ok, SessionGroup.add. simpl. intros Hg Hs s' Hin.
  apply in_app_or in Hin. destruct Hin as [Hin | [Heq | []]].
  - apply Hg. exact Hin.
  - subst. exact Hs.
Qed.

Lemma day_add_opt_ok (day day' : option Day.t) (c : Day.content) :
  opt_ok day_ok day -> content_ok c ->
  Agenda.day_add day c = inr day' -> opt_ok day_ok day'.
Proof.
  intros Hd Hc H. destruct day as [d|]; simpl in H; [|discriminate].
  inversion H; subst. simpl. apply day_add_ok; assumption.
Qed.

(** The session after its open item, if any, has been appended. *)
Lemma commit_item_ok (session : option Session.t) (item : option Item.t) :
  opt_ok session_ok session -> item_slot_ok session item ->
  opt_ok session_ok
    match item, session with
    | Some i, Some s => Some (Session.add s i)
    | _, _ => session
    end.
Proof.
  intros Hs Hi. destruct item as [i|], session as [s|]; simpl in *; auto.
  unfold session_ok. simpl. intros Hpb. apply Hi in Hpb. discriminate.
Qed.

Lemma update_states_ok (self self' : Agenda.t)
      (day day' : option Day.t) (group group' : option SessionGroup.t)
      (session session' : option Session.t) (item item' : option Item.t)
      (save_session save_group save_day : bool) :
  agenda_ok self -> opt_ok day_ok day -> opt_ok group_ok group ->
  opt_ok session_ok session -> item_slot_ok session item ->
  Agenda.update_states self (day, group, session, item)
                       save_session save_group save_day =
    inr (self', (day', group', session', item')) ->
  agenda_ok self' /\ opt_ok day_ok day' /\ opt_ok group_ok group' /\
  opt_ok session_ok session' /\ item' = item /\
  session' = match item, session with
             | Some i, Some s => Some (Session.add s i)
             | _, _ => session
             end.
Proof.
  intros Ha Hd Hg Hs Hi H.
  pose proof (commit_item_ok session item Hs Hi) as Hs1.
  unfold Agenda.update_states in H.
  remember (match item, session with
            | Some i, Some s => Some (Session.add s i)
            | _, _ => session
            end) as session1 eqn:Es1.
  destruct session1 as [s1|], save_session; cbn [bind ret] in H.
  2-4: destruct group as [g|], save_group; cbn [bind ret] in H;
       try (destruct (Agenda.day_add day (Day.OfGroup g)) as [e|d2] eqn:E2;
            cbn [bind ret] in H; [discriminate|];
            apply day_add_opt_ok in E2; [|assumption|exact Hg]);
       destruct save_day; inversion H; subst; repeat split; auto;
       unfold agenda_ok in *; simpl;
       try (apply Forall_app; split; [assumption|constructor; [assumption|constructor]]).
  destruct group as [g|].
  - destruct (plenary_or_break (Session.type s1)) eqn:Epb; cbn [negb bind ret] in H.
    + destruct (Agenda.day_add day (Day.OfSession s1)) as [e|d1] eqn:E1;
        cbn [bind ret] in H; [discriminate|].
      apply day_add_opt_ok in E1; [|assumption|exact Hs1].
      destruct save_group; cbn [bind ret] in H;
        try (destruct (Agenda.day_add d1 (Day.OfGroup g)) as [e|d2] eqn:E2;
             cbn [bind ret] in H; [discriminate|];
             apply day_add_opt_ok in E2; [|assumption|exact Hg]);
        destruct save_day; inversion H; subst; repeat split; auto;
        unfold agenda_ok in *; simpl;
        try (apply Forall_app; split; [assumption|constructor; [assumption|constructor]]).
    + assert (Hg' : group_ok (SessionGroup.add g s1)) by (apply group_add_ok; assumption).
      destruct save_group; cbn [bind ret] in H;
        try (destruct (Agenda.day_add day (Day.OfGroup (SessionGroup.add g s1)))
               as [e|d2] eqn:E2;
             cbn [bind ret] in H; [discriminate|];
             apply day_add_opt_ok in E2; [|assumption|exact Hg']);
        destruct save_day; inversion H; subst; repeat split; auto;
        unfold agenda_ok in *; simpl;
        try (apply Forall_app; split; [assumption|constructor; [assumption|constructor]]).
  - destruct (Agenda.day_add day (Day.OfSession s1)) as [e|d1] eqn:E1;
      cbn [bind ret] in H; [discriminate|].
    apply day_add_opt_ok in E1; [|assumption|exact Hs1].
    destruct save_day; inversion H; subst; repeat split; auto;
      unfold agenda_ok in *; simpl;
      try (apply Forall_app; split; [assumption|constructor; [assumption|constructor]]).
Qed.

(** ** The entities a line opens *)

Ltac bind_inv H :=
  repeat match type of H with
         | bind ?m _ = inr _ =>
             let E := fresh "E" in
             destruct m eqn:E; cbn [bind ret] in H; [discriminate|]
         | (if ?b then _ else _) = inr _ => destruct b
         | ret _ = inr _ => unfold ret in H
         end.

Lemma session_fromstring_ok (line : string) (session : option Session.t) :
  Session.fromstring line = inr session -> opt_ok session_ok session.
Proof.
  unfold Session.fromstring. intros H. bind_inv H; inversion H; subst; simpl; auto;
    intros _; reflexivity.
Qed.

Lemma group_fromstring_ok (line : string) (group : SessionGroup.t) :
  SessionGroup.fromstring line = inr group -> group_ok group.
Proof.
  unfold SessionGroup.fromstring. intros H. bind_inv H. inversion H; subst.
  intros x [].
Qed.

Lemma day_fromstring_ok (line : string) (day : Day.t) :
  Day.fromstring line = inr day -> day_ok day.
Proof.
  unfold Day.fromstring. intros H. bind_inv H. inversion H; subst. constructor.
Qed.

Lemma item_fromstring_slot (g : Re.captures) (ty : session_type)
      (item : option Item.t) :
  Item.fromstring g ty = inr item -> plenary_or_break ty = true -> item = None.
Proof.
  intros H Hpb. destruct ty; try discriminate; simpl in H; inversion H; reflexivity.
Qed.

(** ** The invariant of the line loop *)

Ltac commit_inv H :=
  match type of H with
  | context [Agenda.update_states ?a ?t ?x ?y ?z] =>
      let E := fresh "Eu" in
      destruct (Agenda.update_states a t x y z)
        as [?e | [?self' [[[?day' ?group'] ?session'] ?item']]] eqn:E;
      cbn [bind ret] in H; [discriminate|];
      apply update_states_ok in E;
      [destruct E as (?Ha & ?Hd & ?Hg & ?Hs & ?Hi & ?Hs') | try assumption ..]
  end.

Lemma item_slot_any (session : option Session.t) (i j : Item.t) :
  item_slot_ok session (Some i) -> item_slot_ok session (Some j).
Proof.
  destruct session as [s|]; simpl; [|discriminate].
  intros H Hpb. apply H in Hpb. discriminate.
Qed.

(** The end of the presentation-item branch: the new item is created under
    the type of the open session. *)
Lemma new_item_ok (self : Agenda.t) (day : option Day.t)
      (group : option SessionGroup.t) (session : option Session.t)
      (g : Re.captures) (topic : option pyval) (st' : Agenda.state) :
  agenda_ok self -> opt_ok day_ok day -> opt_ok group_ok group ->
  opt_ok session_ok session ->
  (ty <- Agenda.session_type_of session ;;
   new_item <- Item.fromstring g ty ;;
   ret (Agenda.mkstate self day group session new_item topic)) = inr st' ->
  state_ok st'.
Proof.
  intros Ha Hd Hg Hs H. destruct session as [s|]; cbn [Agenda.session_type_of bind ret] in H;
    [|discriminate].
  destruct (Item.fromstring g (Session.type s)) as [e|new_item] eqn:E;
    cbn [bind ret] in H; [discriminate|].
  inversion H; subst. repeat split; simpl; auto.
  intros Hpb. exact (item_fromstring_slot _ _ _ E Hpb).
Qed.

Lemma process_line_ok (st st' : Agenda.state) (raw : string) :
  state_ok st -> Agenda.process_line st raw = inr st' -> state_ok st'.
Proof.
  intros (Ha & Hd & Hg & Hs & Hi) H. unfold Agenda.process_line in H.
  cbv zeta in H. unfold Agenda.tuple_of in H.
  set (line := Str.strip raw) in *. clearbody line.
  destruct (Str.is_empty line).
  { inversion H; subst. repeat split; assumption. }
  destruct (Str.startswith "* " line).
  { destruct (Agenda.current_day st) as [d|] eqn:Ed.
    - commit_inv H.
      destruct (Day.fromstring line) as [e|day] eqn:Eday; cbn [bind ret] in H;
        [discriminate|].
      inversion H; subst. apply day_fromstring_ok in Eday.
      repeat split; simpl; auto.
    - cbn [bind ret] in H.
      destruct (Day.fromstring line) as [e|day] eqn:Eday; cbn [bind ret] in H;
        [discriminate|].
      inversion H; subst. apply day_fromstring_ok in Eday.
      repeat split; simpl; auto. }
  destruct (Str.startswith "! " line).
  { commit_inv H.
    destruct (Session.fromstring line) as [e|session] eqn:Es; cbn [bind ret] in H;
      [discriminate|].
    inversion H; subst. apply session_fromstring_ok in Es.
    repeat split; simpl; auto. destruct session; simpl; auto. }
  destruct (Str.startswith "+ " line).
  { commit_inv H.
    destruct (SessionGroup.fromstring line) as [e|group] eqn:Eg; cbn [bind ret] in H;
      [discriminate|].
    inversion H; subst. apply group_fromstring_ok in Eg.
    repeat split; simpl; auto. }
  destruct (Str.startswith "= " line).
  { commit_inv H.
    destruct (Session.fromstring line) as [e|session] eqn:Es; cbn [bind ret] in H;
      [discriminate|].
    inversion H; subst. apply session_fromstring_ok in Es.
    repeat split; simpl; auto. destruct session; simpl; auto. }
  destruct (Str.startswith "@ " line).
  { commit_inv H. inversion H; subst.
    repeat split; simpl; auto.
    destruct (Agenda.current_item st), (Agenda.current_session st); simpl; auto. }
  destruct (Agenda.item_match line) as [matchobj|].
  2:{ inversion H; subst. repeat split; assumption. }
  destruct (Agenda.current_item st) as [item|] eqn:Ei.
  - destruct (Agenda.is_poster item).
    + destruct (Agenda.current_poster_topic st) as [v|]; cbn [bind ret] in H;
        [|discriminate].
      commit_inv H.
      * eapply new_item_ok; eassumption.
      * exact (item_slot_any _ _ _ Hi).
    + cbn [bind ret] in H. commit_inv H.
      eapply new_item_ok; eassumption.
  - cbn [bind ret] in H. commit_inv H.
    eapply new_item_ok; eassumption.
Qed.

Lemma loop_ok (lines : list string) :
  forall st st', state_ok st -> Agenda.loop st lines = inr st' -> state_ok st'.
Proof.
  induction lines as [|line lines IH]; intros st st' Hok H; simpl in H.
  - inversion H; subst. exact Hok.
  - destruct (Agenda.process_line st line) as [e|st1] eqn:E; cbn [bind] in H;
      [discriminate|].
    apply (IH st1 st'); [|exact H]. exact (process_line_ok _ _ _ Hok E).
Qed.

Lemma start_ok : state_ok (Agenda.start Agenda.init).
Proof. repeat split; simpl; auto. constructor. Qed.

Lemma fromfile_ok (lines : list string) (a : Agenda.t) :
  Agenda.fromfile Agenda.init lines = inr a -> agenda_ok a.
Proof.
  unfold Agenda.fromfile. intros H.
  destruct (Agenda.loop (Agenda.start Agenda.init) lines) as [e|st] eqn:E;
    cbn [bind] in H; [discriminate|].
  apply loop_ok in E; [|exact start_ok].
  destruct E as (Ha & Hd & Hg & Hs & Hi). unfold Agenda.tuple_of in H.
  commit_inv H. inversion H; subst. assumption.
Qed.

(** ** The presentation-item branch *)

Lemma update_states_item_only (self : Agenda.t) (day : option Day.t)
      (group : option SessionGroup.t) (session : option Session.t)
      (item : option Item.t) :
  Agenda.update_states self (day, group, session, item) false false false =
  inr (self, (day, group,
              match item, session with
              | Some i, Some s => Some (Session.add s i)
              | _, _ => session
              end, item)).
Proof. destruct item, session, group; reflexivity. Qed.

Lemma item_line_inv (raw : string) :
  is_item_line raw = true ->
  Str.is_empty (Str.strip raw) = false /\
  Str.startswith "* " (Str.strip raw) = false /\
  Str.startswith "! " (Str.strip raw) = false /\
  Str.startswith "+ " (Str.strip raw) = false /\
  Str.startswith "= " (Str.strip raw) = false /\
  Str.startswith "@ " (Str.strip raw) = false /\
  exists matchobj, Agenda.item_match (Str.strip raw) = Some matchobj.
Proof.
  unfold is_item_line, sigil. cbv zeta. intros H.
  destruct (Agenda.item_match (Str.strip raw)) as [m|];
    [|rewrite andb_false_r in H; discriminate].
  rewrite andb_true_r in H. apply andb_prop in H. destruct H as [H1 H2].
  apply negb_true_iff in H1, H2. repeat (apply orb_false_elim in H2; destruct H2 as [H2 ?]).
  repeat split; try assumption. exists m. reflexivity.
Qed.

Lemma unrecognized_inv (raw : string) :
  unrecognized raw = true ->
  Str.is_empty (Str.strip raw) = false /\
  Str.startswith "* " (Str.strip raw) = false /\
  Str.startswith "! " (Str.strip raw) = false /\
  Str.startswith "+ " (Str.strip raw) = false /\
  Str.startswith "= " (Str.strip raw) = false /\
  Str.startswith "@ " (Str.strip raw) = false /\
  Agenda.item_match (Str.strip raw) = None.
Proof.
  unfold unrecognized, sigil. cbv zeta. intros H.
  destruct (Agenda.item_match (Str.strip raw)) as [m|];
    [rewrite andb_false_r in H; discriminate|].
  rewrite andb_true_r in H. apply andb_prop in H. destruct H as [H1 H2].
  apply negb_true_iff in H1, H2. repeat (apply orb_false_elim in H2; destruct H2 as [H2 ?]).
  repeat split; assumption.
Qed.


Lemma unrecognized_skipped (st : Agenda.state) (raw : string) :
  unrecognized raw = true -> Agenda.process_line st raw = inr st.
Proof.
  intros H. apply unrecognized_inv in H.
  destruct H as (E0 & E1 & E2 & E3 & E4 & E5 & E6).
  unfold Agenda.process_line. cbv zeta.
  rewrite E0, E1, E2, E3, E4, E5, E6. reflexivity.
Qed.

Lemma loop_app (l1 l2 : list string) :
  forall st, Agenda.loop st (l1 ++ l2) = (st1 <- Agenda.loop st l1 ;; Agenda.loop st1 l2).
Proof.
  induction l1 as [|line l1 IH]; intros st; simpl; [reflexivity|].
  destruct (Agenda.process_line st line) as [e|st1]; cbn [bind]; [reflexivity|].
  apply IH.
Qed.

(** What becomes of a poster item is decided by the type of the session
    it is created under. *)
Lemma item_fromstring_poster (g : Re.captures) (ty : session_type) (i : Item.t) :
  Item.fromstring g ty = inr (Some i) -> Agenda.is_poster i = true -> ty = poster.
Proof.
  intros H Hp. unfold Item.fromstring in H. cbv zeta in H.
  destruct ty; try reflexivity; try discriminate.
  - destruct (if Str.contains_char "-" (group_or_empty 1 g)
              then Item.split_id (group_or_empty 1 g)
              else ret (group_or_empty 1 g, "main")) as [e|[a b]];
      cbn [bind ret] in H; [discriminate|].
    inversion H; subst. discriminate.
  - destruct (Item.split_id (group_or_empty 1 g)) as [e|[a b]];
      cbn [bind ret] in H; [discriminate|].
    destruct (String.eqb b "tutorial"); [|discriminate].
    inversion H; subst. discriminate.
  - destruct (if Str.contains_char "-" (group_or_empty 1 g)
              then Item.split_id (group_or_empty 1 g)
              else ret (group_or_empty 1 g, "main")) as [e|[a b]];
      cbn [bind ret] in H; [discriminate|].
    inversion H; subst. discriminate.
Qed.

Ltac skip_commit H :=
  match type of H with
  | context [Agenda.update_states ?a ?t ?x ?y ?z] =>
      destruct (Agenda.update_states a t x y z)
        as [?e | [?self' [[[?day' ?group'] ?session'] ?item']]];
      cbn [bind ret] in H; [discriminate|]
  end.

Lemma process_line_poster_slot (st st' : Agenda.state) (raw : string) :
  poster_slot_ok st -> Agenda.process_line st raw = inr st' -> poster_slot_ok st'.
Proof.
  intros Hok H. unfold Agenda.process_line in H. cbv zeta in H.
  unfold Agenda.tuple_of in H.
  set (line := Str.strip raw) in *. clearbody line.
  destruct (Str.is_empty line); [inversion H; subst; exact Hok|].
  destruct (Str.startswith "* " line).
  { destruct (Agenda.current_day st); [skip_commit H | cbn [bind ret] in H];
      bind_inv H; inversion H; subst; intros i Hi; discriminate. }
  destruct (Str.startswith "! " line);
    [skip_commit H; bind_inv H; inversion H; subst; intros i Hi; discriminate|].
  destruct (Str.startswith "+ " line);
    [skip_commit H; bind_inv H; inversion H; subst; intros i Hi; discriminate|].
  destruct (Str.startswith "= " line);
    [skip_commit H; bind_inv H; inversion H; subst; intros i Hi; discriminate|].
  destruct (Str.startswith "@ " line);
    [skip_commit H; inversion H; subst; intros i Hi; discriminate|].
  destruct (Agenda.item_match line) as [matchobj|];
    [|inversion H; subst; exact Hok].
  destruct (match Agenda.current_item st with
            | Some item =>
                if Agenda.is_poster item
                then match Agenda.current_poster_topic st with
                     | Some v => ret (Some (Item.set_topic item v), Some PyNone)
                     | None => raise UnboundLocalError
                     end
                else ret (Agenda.current_item st, Agenda.current_poster_topic st)
            | None => ret (Agenda.current_item st, Agenda.current_poster_topic st)
            end) as [e | [item topic]]; cbn [bind ret] in H; [discriminate|].
  rewrite update_states_item_only in H. cbn [bind ret] in H.
  remember (match item, Agenda.current_session st with
            | Some i, Some s => Some (Session.add s i)
            | _, _ => Agenda.current_session st
            end) as session' eqn:Es.
  destruct session' as [s'|]; cbn [Agenda.session_type_of bind ret] in H;
    [|discriminate].
  destruct (Item.fromstring (Re.groups matchobj) (Session.type s'))
    as [e|new_item] eqn:Ef; cbn [bind ret] in H; [discriminate|].
  inversion H; subst. intros i Hi Hp. simpl in Hi. subst new_item.
  exists s'. split; [reflexivity|]. exact (item_fromstring_poster _ _ _ Ef Hp).
Qed.

Lemma loop_poster_slot (lines : list string) :
  forall st st', poster_slot_ok st -> Agenda.loop st lines = inr st' ->
                 poster_slot_ok st'.
Proof.
  induction lines as [|line lines IH]; intros st st' Hok H; simpl in H.
  - inversion H; subst. exact Hok.
  - destruct (Agenda.process_line st line) as [e|st1] eqn:E; cbn [bind] in H;
      [discriminate|].
    apply (IH st1 st'); [|exact H]. exact (process_line_poster_slot _ _ _ Hok E).
Qed.

Lemma start_poster_slot : poster_slot_ok (Agenda.start Agenda.init).
Proof. intros i Hi. discriminate. Qed.

(** Under an open tutorial session, an item line commits the open item and
    creates the new one with [Item.fromstring]. *)
Lemma item_line_under_tutorial (st : Agenda.state) (session : Session.t)
      (raw : string) (mo : Re.match_object) :
  poster_slot_ok st ->
  Agenda.current_session st = Some session -> Session.type session = tutorial ->
  is_item_line raw = true -> Agenda.item_match (Str.strip raw) = Some mo ->
  Agenda.process_line st raw =
  (new_item <- Item.fromstring (Re.groups mo) tutorial ;;
   ret (Agenda.mkstate (Agenda.self st) (Agenda.current_day st)
          (Agenda.current_session_group st)
          match Agenda.current_item st with
          | Some i => Some (Session.add session i)
          | None => Some session
          end
          new_item (Agenda.current_poster_topic st))).
Proof.
  intros Hok Hs Hty Hline Hmo. apply item_line_inv in Hline.
  destruct Hline as (E0 & E1 & E2 & E3 & E4 & E5 & _).
  unfold Agenda.process_line. cbv zeta.
  rewrite E0, E1, E2, E3, E4, E5, Hmo. unfold Agenda.tuple_of.
  assert (Hnp : forall i, Agenda.current_item st = Some i ->
                          Agenda.is_poster i = false).
  { intros i Hi. destruct (Agenda.is_poster i) eqn:Ep; [|reflexivity].
    destruct (Hok i Hi Ep) as [s [Hs' Hposter]].
    rewrite Hs in Hs'. inversion Hs'; subst. rewrite Hty in Hposter.
    discriminate. }
  destruct (Agenda.current_item st) as [i|] eqn:Ei.
  - rewrite (Hnp i eq_refl). cbn [bind ret].
    rewrite update_states_item_only, Hs. cbn [bind ret Agenda.session_type_of].
    rewrite session_add_type, Hty. reflexivity.
  - cbn [bind ret]. rewrite update_states_item_only, Hs.
    cbn [bind ret Agenda.session_type_of]. rewrite Hty. reflexivity.
Qed.

(** * The claims *)

(** C1: the pending topic is not given to the next poster when that poster
    is created.  It is written into the open item when the following item
    line is read.  A topic marker followed by a single poster therefore
    leaves that poster with the empty topic (first equation), and a topic
    left over from a paper session is written into the first poster of a
    later session (second equation). *)
Theorem C1_topic_is_attached_by_the_following_item_line :
  Agenda.fromfile Agenda.init
    ["* Monday, June 3, 2019"; "= Session 1A: Posters";
     "@ Machine Translation"; "501 #"] =
  inr (Agenda.mk
         [Some (monday [Day.OfSession
            (a_session "1A" "Posters" poster [a_poster "501" (PyStr "")])])])
  /\
  Agenda.fromfile Agenda.init
    ["* Monday, June 3, 2019"; "= Session 1A: Speech"; "@ Parsing"; "10 #";
     "= Session 1B: Posters"; "501 #"; "502 #"] =
  inr (Agenda.mk
         [Some (monday
            [Day.OfSession (a_session "1A" "Speech" paper [a_paper "10" "main"]);
             Day.OfSession (a_session "1B" "Posters" poster
                [a_poster "501" (PyStr "Parsing"); a_poster "502" (PyStr "")])])]).
Proof. split; vm_compute; reflexivity. Qed.

(** C7: on the example of the function's own docstring the value of [room]
    keeps its trailing space: the values are not trimmed. *)
Theorem C7_values_are_not_trimmed :
  parse_metadata_into_dict "# %room FOO %chair1 BAR BAZ" =
  [("room", "FOO "); ("chair1", "BAR BAZ")].
Proof. vm_compute. reflexivity. Qed.




(** C3 (amended): a line that is non-empty after trimming and matches none
    of the recognized categories is skipped.  No error is raised, the state
    of the parser is unchanged, and the file parses exactly as it does
    without the line. *)
Theorem C3_unrecognized_line_is_skipped (raw : string) :
  unrecognized raw = true ->
  (forall st, Agenda.process_line st raw = inr st) /\
  (forall self before after,
      Agenda.fromfile self (before ++ raw :: after) =
      Agenda.fromfile self (before ++ after)).
Proof.
  intros H. split.
  - intros st. apply unrecognized_skipped. exact H.
  - intros self before after. unfold Agenda.fromfile.
    rewrite !loop_app. simpl.
    destruct (Agenda.loop (Agenda.start self) before) as [e|st]; cbn [bind];
      [reflexivity|].
    rewrite (unrecognized_skipped st raw H). reflexivity.
Qed.

Lemma C3_counterexample :
  unrecognized "hello world" = true /\
  Agenda.fromfile Agenda.init ["* Monday, June 3, 2019"; "hello world"] =
  inr (Agenda.mk [Some (monday [])]).
Proof. split; vm_compute; reflexivity. Qed.

Lemma C3_witness :
  unrecognized "hello world" = true /\
  (forall st, Agenda.process_line st "hello world" = inr st) /\
  (forall self before after,
      Agenda.fromfile self (before ++ "hello world" :: after) =
      Agenda.fromfile self (before ++ after)).
Proof.
  assert (H : unrecognized "hello world" = true) by (vm_compute; reflexivity).
  split; [exact H|].
  exact (C3_unrecognized_line_is_skipped "hello world" H).
Defined.

(** C4: while a file is read and the open session has type [tutorial], an
    item line whose id has no suffix makes parsing fail (the unpacking of
    [split] raises [ValueError]), one whose suffix is not exactly
    [-tutorial] makes parsing fail (the assertion raises [AssertionError]),
    and for the suffix [-tutorial] parsing goes on with a new open item whose
    id is the digits and whose location is the stripped [room] value of the
    metadata blob.  The two exceptions are the failure the specification
    calls [MalformedItemError]. *)
Theorem C4_tutorial_item_needs_the_tutorial_suffix
        (lines : list string) (st : Agenda.state) (session : Session.t)
        (raw : string) :
  Agenda.loop (Agenda.start Agenda.init) lines = inr st ->
  Agenda.current_session st = Some session ->
  Session.type session = tutorial ->
  is_item_line raw = true ->
  exists mo,
    Agenda.item_match (Str.strip raw) = Some mo /\
    let g := Re.groups mo in
    match Re.group 2 g with
    | None => Agenda.process_line st raw = inl ValueError
    | Some suffix =>
        exists digits : string,
          Str.all Str.is_digit digits = true /\
          Re.group 1 g = Some (digits ++ suffix)%string /\
          if String.eqb suffix "-tutorial"
          then exists st',
              Agenda.process_line st raw = inr st' /\
              Agenda.current_item st' =
                Some (Item.mk digits tutorial_item "" "" "main" None
                        (Some (Str.strip (Dict.get_default
                           (parse_metadata_into_dict (group_or_empty 6 g))
                           "room" "")))
                        (Some (grp 4 g)) (Some (grp 5 g)))
          else Agenda.process_line st raw = inl AssertionError
    end.
Proof.
  intros Hloop Hs Hty Hline.
  apply loop_poster_slot in Hloop; [|exact start_poster_slot].
  destruct (item_line_inv raw Hline) as (_ & _ & _ & _ & _ & _ & mo & Hmo).
  exists mo. split; [exact Hmo|]. cbv zeta.
  rewrite (item_line_under_tutorial st session raw mo Hloop Hs Hty Hline Hmo).
  destruct (Re.group 2 (Re.groups mo)) as [suffix|] eqn:E2.
  - destruct (fromstring_with_suffix _ mo suffix Hmo E2)
      as (digits & letters & Hsuf & _ & _ & Hd & _ & H1 & Hf).
    cbv zeta in Hf. destruct Hf as (_ & _ & _ & Ht & _).
    exists digits. split; [exact Hd|]. split; [exact H1|].
    rewrite Ht, Hsuf.
    change (String.eqb ("-" ++ letters) "-tutorial")
      with (String.eqb letters "tutorial").
    destruct (String.eqb letters "tutorial"); cbn [bind ret]; [|reflexivity].
    eexists. split; reflexivity.
  - rewrite (fromstring_tutorial_without_suffix _ mo Hmo E2). reflexivity.
Qed.

Lemma C4_witness :
  let lines := ["* Monday, June 3, 2019"; "= Tutorials"] in
  let tutorials := Session.mk "" "Tutorials" tutorial "" "" "" "" [] in
  let st := Agenda.mkstate Agenda.init (Some (monday [])) None (Some tutorials)
              None None in
  Agenda.loop (Agenda.start Agenda.init) lines = inr st /\
  is_item_line "28-tutorial 9:00--12:30 # %room Greenway" = true /\
  (exists (st' : Agenda.state) (digits : string),
      Some "28-tutorial" = Some (digits ++ "-tutorial")%string /\
      Agenda.process_line st "28-tutorial 9:00--12:30 # %room Greenway" = inr st' /\
      Agenda.current_item st' =
        Some (Item.mk digits tutorial_item "" "" "main" None (Some "Greenway")
                (Some (PyStr "9:00")) (Some (PyStr "12:30")))) /\
  is_item_line "28 9:00--12:30 # %room Greenway" = true /\
  Agenda.process_line st "28 9:00--12:30 # %room Greenway" = inl ValueError.
Proof.
  intros lines tutorials st.
  assert (H1 : Agenda.loop (Agenda.start Agenda.init) lines = inr st)
    by (vm_compute; reflexivity).
  assert (H2 : is_item_line "28-tutorial 9:00--12:30 # %room Greenway" = true)
    by (vm_compute; reflexivity).
  assert (H3 : is_item_line "28 9:00--12:30 # %room Greenway" = true)
    by (vm_compute; reflexivity).
  split; [exact H1|]. split; [exact H2|]. split; [|split; [exact H3|]].
  - destruct (C4_tutorial_item_needs_the_tutorial_suffix
                lines st tutorials _ H1 eq_refl eq_refl H2) as (mo & Hmo & H).
    vm_compute in Hmo. injection Hmo as Hmo. subst mo. cbv zeta in H.
    destruct H as (digits & _ & Hg1 & st' & Hp & Hi).
    exists st', digits. split; [exact Hg1|]. split; [exact Hp|].
    rewrite Hi. reflexivity.
  - destruct (C4_tutorial_item_needs_the_tutorial_suffix
                lines st tutorials _ H1 eq_refl eq_refl H3) as (mo & Hmo & H).
    vm_compute in Hmo. injection Hmo as Hmo. subst mo. exact H.
Defined.

(** C8 (amended): the pattern takes any non-empty word of lowercase letters
    as the suffix of an item id, not only [demos], [srw], [industry] and
    [tutorial].  For a matched line with a suffix, the id is a run of digits
    followed by ["-"] and the word; under a [paper] or [best_paper] session
    the word becomes the track as it is and the digits the id; under a
    [poster] session the track is ["main"] and the id keeps the suffix; under
    a [tutorial] session the track is ["main"] and any word but [tutorial]
    fails the assertion; under a [plenary] or [break] session there is no
    item. *)
Theorem C8_track_suffix_is_any_lowercase_word
        (line : string) (mo : Re.match_object) (suffix : string) :
  Re.match_ Item._regexp line = Some mo ->
  Re.group 2 (Re.groups mo) = Some suffix ->
  exists digits letters : string,
    suffix = ("-" ++ letters)%string /\
    Str.all Str.is_lower_az letters = true /\ letters <> EmptyString /\
    Str.all Str.is_digit digits = true /\ digits <> EmptyString /\
    Re.group 1 (Re.groups mo) = Some (digits ++ suffix)%string /\
    let g := Re.groups mo in
    let a_paper :=
      Item.mk digits paper_item "" "" letters None None
              (Some (grp 4 g)) (Some (grp 5 g)) in
    Item.fromstring g paper = inr (Some a_paper) /\
    Item.fromstring g best_paper = inr (Some a_paper) /\
    Item.fromstring g poster =
      inr (Some (Item.mk (digits ++ suffix)%string poster_item "" "" "main"
                         (Some (PyStr "")) None None None)) /\
    Item.fromstring g tutorial =
      (if String.eqb letters "tutorial"
       then inr (Some (Item.mk digits tutorial_item "" "" "main" None
                        (Some (Str.strip (Dict.get_default
                           (parse_metadata_into_dict (group_or_empty 6 g))
                           "room" "")))
                        (Some (grp 4 g)) (Some (grp 5 g))))
       else inl AssertionError) /\
    Item.fromstring g plenary = inr None /\
    Item.fromstring g break = inr None.
Proof. exact (fromstring_with_suffix line mo suffix). Qed.

Lemma C8_counterexample :
  is_item_line "12-foo #" = true /\
  Agenda.fromfile Agenda.init
    ["* Monday, June 3, 2019"; "= Session 1A: Speech"; "12-foo #"] =
  inr (Agenda.mk
         [Some (monday [Day.OfSession
            (a_session "1A" "Speech" paper [a_paper "12" "foo"])])]).
Proof. split; vm_compute; reflexivity. Qed.

Lemma C8_witness :
  exists mo,
    Re.match_ Item._regexp "12-foo #" = Some mo /\
    Re.group 2 (Re.groups mo) = Some "-foo" /\
    exists digits letters : string,
      "-foo" = ("-" ++ letters)%string /\
      Re.group 1 (Re.groups mo) = Some (digits ++ "-foo")%string /\
      Item.fromstring (Re.groups mo) paper =
        inr (Some (Item.mk digits paper_item "" "" letters None None
                     (Some PyNone) (Some PyNone))).
Proof.
  eassert (H : Re.match_ Item._regexp "12-foo #" = Some _)
    by (vm_compute; reflexivity).
  eexists. split; [exact H|]. split; [reflexivity|].
  destruct (C8_track_suffix_is_any_lowercase_word _ _ "-foo" H eq_refl)
    as (digits & letters & Hsuf & _ & _ & _ & _ & H1 & Hf).
  cbv zeta in Hf. destruct Hf as (Hp & _).
  exists digits, letters. split; [exact Hsuf|]. split; [exact H1|]. exact Hp.
Defined.

(** C5 (amended): while a file is read, an item line met with no open
    session fails, with [AttributeError]; an item line met under an open
    plenary or break session does not fail: no item is created and the state
    of the parser is left as it was.  In every agenda produced, a plenary or
    break session has no items. *)
Theorem C5_item_line_outside_an_item_session
        (lines : list string) (st : Agenda.state) (raw : string) :
  Agenda.loop (Agenda.start Agenda.init) lines = inr st ->
  is_item_line raw = true ->
  match Agenda.current_session st with
  | None => Agenda.process_line st raw = inl AttributeError
  | Some session =>
      plenary_or_break (Session.type session) = true ->
      Agenda.process_line st raw = inr st /\ Session.items session = []
  end /\
  (forall (a : Agenda.t) (d : Day.t) (s : Session.t),
      Agenda.fromfile Agenda.init lines = inr a ->
      In (Some d) (Agenda.days a) -> session_of_day s d ->
      plenary_or_break (Session.type s) = true -> Session.items s = []).
Proof.
  intros Hloop Hline. split.
  - apply loop_ok in Hloop; [|exact start_ok].
    destruct Hloop as (_ & _ & _ & Hs & Hi).
    apply item_line_inv in Hline.
    destruct Hline as (E0 & E1 & E2 & E3 & E4 & E5 & matchobj & E6).
    unfold Agenda.process_line. cbv zeta.
    rewrite E0, E1, E2, E3, E4, E5, E6. unfold Agenda.tuple_of.
    destruct (Agenda.current_session st) as [session|] eqn:Es; simpl in Hi.
    + intros Hpb. specialize (Hi Hpb). rewrite Hi. cbn [bind ret].
      rewrite update_states_item_only. cbn [bind ret Agenda.session_type_of].
      assert (Hnone : Item.fromstring (Re.groups matchobj) (Session.type session)
                      = inr None).
      { destruct (Session.type session); try discriminate; reflexivity. }
      rewrite Hnone. cbn [bind ret]. split; [|exact (Hs Hpb)].
      destruct st; simpl in *. subst. reflexivity.
    + rewrite Hi. cbn [bind ret]. rewrite update_states_item_only. reflexivity.
  - intros a d s Ha Hd Hsd Hpb. apply fromfile_ok in Ha.
    unfold agenda_ok in Ha. rewrite Forall_forall in Ha.
    specialize (Ha (Some d) Hd). simpl in Ha. unfold day_ok in Ha.
    rewrite Forall_forall in Ha.
    destruct Hsd as [Hin | [g [Hg Hin]]].
    + exact (Ha _ Hin Hpb).
    + specialize (Ha _ Hg s Hin). rewrite Ha in Hpb. discriminate.
Qed.

Lemma C5_counterexample :
  is_item_line "12 #" = true /\
  Agenda.fromfile Agenda.init
    ["* Monday, June 3, 2019"; "! 9:00--10:00 Keynote"; "12 #"] =
  inr (Agenda.mk [Some (monday [Day.OfSession keynote])]).
Proof. split; vm_compute; reflexivity. Qed.

Lemma C5_witness :
  Agenda.loop (Agenda.start Agenda.init)
    ["* Monday, June 3, 2019"; "! 9:00--10:00 Keynote"] = inr keynote_open /\
  is_item_line "12 #" = true /\
  (plenary_or_break plenary = true ->
   Agenda.process_line keynote_open "12 #" = inr keynote_open /\
   Session.items keynote = []).
Proof.
  assert (H1 : Agenda.loop (Agenda.start Agenda.init)
                 ["* Monday, June 3, 2019"; "! 9:00--10:00 Keynote"]
               = inr keynote_open) by (vm_compute; reflexivity).
  assert (H2 : is_item_line "12 #" = true) by (vm_compute; reflexivity).
  split; [exact H1|]. split; [exact H2|].
  exact (proj1 (C5_item_line_outside_an_item_session _ keynote_open "12 #" H1 H2)).
Defined.

(** C6: in every agenda produced by parsing, no session of type [plenary] or
    [break] is in a session group; and when [update_states] commits such a
    session it appends it to the open day and leaves the session group as it
    is, also when a session group is open. *)
Theorem C6_plenary_and_break_sessions_join_no_group
        (lines : list string) (a : Agenda.t) :
  Agenda.fromfile Agenda.init lines = inr a ->
  (forall (d : Day.t) (g : SessionGroup.t) (s : Session.t),
      In (Some d) (Agenda.days a) -> In (Day.OfGroup g) (Day.contents d) ->
      In s (SessionGroup.sessions g) ->
      Session.type s <> plenary /\ Session.type s <> break) /\
  (forall (self : Agenda.t) (day : Day.t) (group : option SessionGroup.t)
          (session : Session.t) (item : option Item.t) (save_group save_day : bool),
      plenary_or_break (Session.type session) = true ->
      let session' := match item with
                      | Some i => Session.add session i
                      | None => session
                      end in
      let day' := Day.mk (Day.datetime day)
                    (Day.contents day ++ Day.OfSession session' ::
                     match group with
                     | Some g => if save_group then [Day.OfGroup g] else []
                     | None => []
                     end) in
      Agenda.update_states self (Some day, group, Some session, item)
                           true save_group save_day =
      inr (if save_day then Agenda.mk (Agenda.days self ++ [Some day']) else self,
           (Some day', group, Some session', item))).
Proof.
  intros Ha. split.
  - intros d g s Hd Hg Hs. apply fromfile_ok in Ha.
    unfold agenda_ok in Ha. rewrite Forall_forall in Ha.
    specialize (Ha (Some d) Hd). simpl in Ha. unfold day_ok in Ha.
    rewrite Forall_forall in Ha. specialize (Ha _ Hg s Hs).
    destruct (Session.type s); try discriminate; split; discriminate.
  - intros self day group session item save_group save_day Hpb. cbv zeta.
    unfold Agenda.update_states.
    assert (Hpb' : plenary_or_break
                     (Session.type match item with
                                   | Some i => Session.add session i
                                   | None => session
                                   end) = true)
      by (destruct item; exact Hpb).
    destruct item as [i|], group as [g|], save_group, save_day;
      cbn [bind ret Agenda.day_add negb];
      try rewrite Hpb'; try rewrite Hpb; cbn [bind ret Agenda.day_add negb];
      unfold Day.add; cbn [Day.datetime Day.contents];
      rewrite <- ?app_assoc; reflexivity.
Qed.

Lemma C6_witness :
  exists a,
    Agenda.fromfile Agenda.init
      ["* Monday, June 3, 2019"; "+ 11:00--12:30 Oral Sessions";
       "= Session 1A: Speech"; "! 12:30--14:00 Lunch Break"] = inr a /\
    forall (d : Day.t) (g : SessionGroup.t) (s : Session.t),
      In (Some d) (Agenda.days a) -> In (Day.OfGroup g) (Day.contents d) ->
      In s (SessionGroup.sessions g) ->
      Session.type s <> plenary /\ Session.type s <> break.
Proof.
  eassert (H : Agenda.fromfile Agenda.init
                 ["* Monday, June 3, 2019"; "+ 11:00--12:30 Oral Sessions";
                  "= Session 1A: Speech"; "! 12:30--14:00 Lunch Break"] = inr _)
    by (vm_compute; reflexivity).
  eexists. split; [exact H|].
  exact (proj1 (C6_plenary_and_break_sessions_join_no_group _ _ H)).
Defined.

(** ** Dictionaries *)

Lemma get_set {V} (d : Dict.dict V) (k k' : string) (v : V) :
  Dict.get (Dict.set d k v) k' =
  if String.eqb k' k then Some v else Dict.get d k'.
Proof.
  induction d as [|[k0 v0] d IH]; simpl.
  - reflexivity.
  - destruct (String.eqb k k0) eqn:E; simpl.
    + apply String.eqb_eq in E. subst k0.
      destruct (String.eqb k' k); reflexivity.
    + rewrite IH. destruct (String.eqb k' k0) eqn:E0; [|reflexivity].
      apply String.eqb_eq in E0. subst k0.
      rewrite String.eqb_sym, E. reflexivity.
Qed.

(** A key stays a key when the dictionary is updated. *)
Lemma get_set_keeps {V} (d : Dict.dict V) (k k' : string) (v : V) :
  Dict.get d k' <> None -> Dict.get (Dict.set d k v) k' <> None.
Proof.
  rewrite get_set. destruct (String.eqb k' k); [discriminate | auto].
Qed.

Lemma get_update_keeps {V} (pairs : list (string * V)) :
  forall (d : Dict.dict V) (k : string),
    Dict.get d k <> None -> Dict.get (Dict.update d pairs) k <> None.
Proof.
  unfold Dict.update.
  induction pairs as [|[k0 v0] pairs IH]; intros d k H; simpl; [exact H|].
  apply IH. apply get_set_keeps. exact H.
Qed.

(** A value found after an update was found before or is among the pairs. *)
Lemma get_update_from {V} (pairs : list (string * V)) :
  forall (d : Dict.dict V) (k : string) (v : V),
    Dict.get (Dict.update d pairs) k = Some v ->
    Dict.get d k = Some v \/ In (k, v) pairs.
Proof.
  unfold Dict.update.
  induction pairs as [|[k0 v0] pairs IH]; intros d k v H; simpl in *; [auto|].
  apply IH in H. destruct H as [H | H]; [|auto].
  rewrite get_set in H. destruct (String.eqb k k0) eqn:E; [|auto].
  apply String.eqb_eq in E. inversion H; subst. auto.
Qed.

Lemma get_in {V} (d : Dict.dict V) (k : string) (v : V) :
  Dict.get d k = Some v -> In (k, v) d.
Proof.
  induction d as [|[k0 v0] d IH]; simpl; [discriminate|].
  destruct (String.eqb k k0) eqn:E.
  - apply String.eqb_eq in E. intros H. inversion H; subst. auto.
  - auto.
Qed.

(** ** The metadata object built by [fromfiles] *)

Lemma bridge_keys (anthology : Dict.dict ScheduleMetadata.MetadataTuple)
      (items : list (string * string)) :
  forall d d',
    ScheduleMetadata.bridge anthology d items = inr d' ->
    (forall k, Dict.get d k <> None -> Dict.get d' k <> None) /\
    (forall order_id anthology_id,
        In (order_id, anthology_id) items -> Dict.get d' order_id <> None).
Proof.
  induction items as [|[o a] items IH]; intros d d' H; simpl in H.
  - inversion H; subst. split; [auto | intros ? ? []].
  - destruct (Dict.getitem anthology a) as [e|tuple]; cbn [bind] in H;
      [discriminate|].
    apply IH in H. destruct H as [Hkeep Hitems]. split.
    + intros k Hk. apply Hkeep. apply get_set_keeps. exact Hk.
    + intros o' a' [Heq | Hin].
      * inversion Heq; subst. apply Hkeep. rewrite get_set, String.eqb_refl.
        discriminate.
      * exact (Hitems o' a' Hin).
Qed.

(** Every order id an anthology id is mapped to has metadata. *)
Lemma fromfiles_mapped (xmls : list (string * list ScheduleMetadata.paper_tag))
      (mappings : list (list string))
      (tsv : option (list (Dict.dict pyval))) (md : ScheduleMetadata.t)
      (anthology_id order_id : string) :
  ScheduleMetadata.fromfiles xmls mappings tsv = inr md ->
  Dict.get (ScheduleMetadata._anthology_id_to_order_id_dict md) anthology_id
    = Some order_id ->
  Dict.get (ScheduleMetadata._order_id_to_metadata_dict md) order_id <> None.
Proof.
  unfold ScheduleMetadata.fromfiles. intros H Hget.
  destruct (ScheduleMetadata.update_mappings [] mappings) as [e|mapping];
    cbn [bind] in H; [discriminate|].
  destruct (ScheduleMetadata.update_xmls [] xmls) as [e|anthology];
    cbn [bind] in H; [discriminate|].
  destruct (ScheduleMetadata.bridge anthology [] mapping) as [e|bridged] eqn:Eb;
    cbn [bind] in H; [discriminate|].
  apply bridge_keys in Eb. destruct Eb as [_ Hitems].
  assert (Hin : In (order_id, anthology_id) mapping).
  { destruct tsv as [rows|];
      [destruct (ScheduleMetadata._parse_non_anthology_file rows);
       cbn [bind ret] in H; [discriminate|]|cbn [bind ret] in H];
      inversion H; subst; simpl in Hget;
      unfold ScheduleMetadata.invert, Dict.of_pairs in Hget;
      apply get_update_from in Hget;
      (destruct Hget as [Hget | Hget]; [discriminate|]);
      apply in_map_iff in Hget; destruct Hget as [[o a] [Heq Hin]];
      simpl in Heq; inversion Heq; subst; exact Hin. }
  specialize (Hitems _ _ Hin).
  destruct tsv as [rows|].
  - destruct (ScheduleMetadata._parse_non_anthology_file rows) as [e|m];
      cbn [bind ret] in H; [discriminate|].
    inversion H; subst. simpl. apply get_update_keeps. exact Hitems.
  - cbn [bind ret] in H. inversion H; subst. simpl. exact Hitems.
Qed.

(** * Further properties of the order-file parser *)

(** ** Blank lines *)

Lemma blank_skipped (st : Agenda.state) (raw : string) :
  is_blank raw = true -> Agenda.process_line st raw = inr st.
Proof.
  unfold is_blank, Agenda.process_line. cbv zeta. intros H. rewrite H. reflexivity.
Qed.

(** X1: a line with nothing but whitespace changes nothing: the state of the
    parser stays as it is, and a file parses as it does without the line. *)
Theorem X1_blank_lines_are_ignored (raw : string) :
  is_blank raw = true ->
  (forall st, Agenda.process_line st raw = inr st) /\
  (forall self before after,
      Agenda.fromfile self (before ++ raw :: after) =
      Agenda.fromfile self (before ++ after)).
Proof.
  intros H. split.
  - intros st. exact (blank_skipped st raw H).
  - intros self before after. unfold Agenda.fromfile.
    rewrite !loop_app. simpl.
    destruct (Agenda.loop (Agenda.start self) before) as [e|st]; cbn [bind];
      [reflexivity|].
    rewrite (blank_skipped st raw H). reflexivity.
Qed.

Lemma X1_witness :
  let raw := String " " (String (ascii_of_N 9) (String Str.newline EmptyString)) in
  is_blank raw = true /\
  (forall st, Agenda.process_line st raw = inr st) /\
  (forall self before after,
      Agenda.fromfile self (before ++ raw :: after) =
      Agenda.fromfile self (before ++ after)).
Proof.
  intros raw.
  assert (H : is_blank raw = true) by (vm_compute; reflexivity).
  split; [exact H|]. exact (X1_blank_lines_are_ignored raw H).
Defined.

(** ** The days of the agenda *)

(** What [update_states] does to the day and to the agenda: the day keeps its
    date, and the agenda gains the day when [save_day] is set. *)
Lemma update_states_days (self self' : Agenda.t)
      (day day' : option Day.t) (group group' : option SessionGroup.t)
      (session session' : option Session.t) (item item' : option Item.t)
      (save_session save_group save_day : bool) :
  Agenda.update_states self (day, group, session, item)
                       save_session save_group save_day =
    inr (self', (day', group', session', item')) ->
  option_map Day.datetime day' = option_map Day.datetime day /\
  Agenda.days self' =
    Agenda.days self ++ (if save_day then [day'] else []).
Proof.
  unfold Agenda.update_states. intros H.
  destruct day as [d|], item as [i|], session as [s|], save_session,
    group as [g|], save_group, save_day;
    cbn [bind ret Agenda.day_add negb] in H;
    repeat match type of H with
           | context [plenary_or_break ?t] =>
               destruct (plenary_or_break t); cbn [bind ret Agenda.day_add negb] in H
           end;
    try discriminate; inversion H; subst; simpl; rewrite ?app_nil_r; auto.
Qed.

Lemma day_of_header_same_date (d d' : Day.t) (raw : string) :
  Day.datetime d' = Day.datetime d ->
  day_of_header (Some d) raw -> day_of_header (Some d') raw.
Proof.
  intros Hd (x & d0 & Hx & Hf & Hdt). inversion Hx; subst x.
  exists d', d0. repeat split; [exact Hf | congruence].
Qed.

Lemma Forall2_last {A B} (P : A -> B -> Prop) (l : list A) (x y : A)
      (hs : list B) :
  (forall h, P x h -> P y h) ->
  Forall2 P (l ++ [x]) hs -> Forall2 P (l ++ [y]) hs.
Proof.
  intros Hxy H. apply Forall2_app_inv_l in H.
  destruct H as (h1 & h2 & H1 & H2 & Hhs). subst hs.
  apply Forall2_app; [exact H1|].
  inversion H2 as [|? h ? t Hp Ht]; subst. inversion Ht; subst.
  constructor; [exact (Hxy h Hp) | constructor].
Qed.


Lemma days_follow_keep (st st' : Agenda.state) (hs : list string) :
  days_follow st hs ->
  Agenda.days (Agenda.self st') = Agenda.days (Agenda.self st) ->
  option_map Day.datetime (Agenda.current_day st') =
    option_map Day.datetime (Agenda.current_day st) ->
  days_follow st' hs.
Proof.
  unfold days_follow, all_days. intros [HF Hnone] Hdays Hdt. rewrite Hdays.
  destruct (Agenda.current_day st) as [d|], (Agenda.current_day st') as [d'|];
    simpl in Hdt; try discriminate.
  - split; [|discriminate]. inversion Hdt as [Hd].
    apply (Forall2_last _ _ (Some d) (Some d')); [|exact HF].
    intros h. apply day_of_header_same_date. exact Hd.
  - split; [exact HF | exact Hnone].
Qed.

Lemma days_follow_new (st : Agenda.state) (hs : list string)
      (self' : Agenda.t) (committed : option Day.t) (line raw : string)
      (day : Day.t) (rest : Agenda.state) :
  days_follow st hs ->
  line = Str.strip raw ->
  Day.fromstring line = inr day ->
  Agenda.self rest = self' -> Agenda.current_day rest = Some day ->
  match Agenda.current_day st with
  | Some _ =>
      Agenda.days self' = Agenda.days (Agenda.self st) ++ [committed] /\
      option_map Day.datetime committed =
        option_map Day.datetime (Agenda.current_day st)
  | None => self' = Agenda.self st
  end ->
  days_follow rest (hs ++ [raw]).
Proof.
  unfold days_follow, all_days. intros [HF Hnone] Hline Hday Hself Hcur Hcommit.
  rewrite Hself, Hcur. split.
  2:{ discriminate. }
  assert (Hnew : Forall2 day_of_header [Some day] [raw]).
  { constructor; [|constructor]. exists day, day. subst line. auto. }
  destruct (Agenda.current_day st) as [d|].
  - destruct Hcommit as [Hdays Hdt]. rewrite Hdays.
    destruct committed as [d'|]; simpl in Hdt; [|discriminate].
    inversion Hdt as [Hd].
    apply Forall2_app; [|exact Hnew].
    apply (Forall2_last _ _ (Some d) (Some d')); [|exact HF].
    intros h. apply day_of_header_same_date. exact Hd.
  - rewrite Hcommit. rewrite app_nil_r in HF.
    apply Forall2_app; [exact HF | exact Hnew].
Qed.

Ltac commit_days H :=
  match type of H with
  | context [Agenda.update_states ?a ?t ?x ?y ?z] =>
      let E := fresh "Eu" in
      destruct (Agenda.update_states a t x y z)
        as [?e | [?self' [[[?day' ?group'] ?session'] ?item']]] eqn:E;
      cbn [bind ret] in H; [discriminate|];
      apply update_states_days in E; destruct E as [?Hdt ?Hdays]
  end.

Lemma startswith_empty (p : string) :
  p <> EmptyString -> Str.startswith p EmptyString = false.
Proof. destruct p; [congruence | reflexivity]. Qed.

Lemma process_line_days (st st' : Agenda.state) (raw : string) (hs : list string) :
  days_follow st hs -> Agenda.process_line st raw = inr st' ->
  days_follow st' (hs ++ if is_day_header raw then [raw] else []).
Proof.
  intros Hinv H. unfold Agenda.process_line in H. cbv zeta in H.
  unfold Agenda.tuple_of in H. unfold is_day_header.
  remember (Str.strip raw) as line eqn:Hline.
  destruct (Str.is_empty line) eqn:Eempty.
  { destruct line; [|discriminate]. inversion H; subst st'.
    rewrite startswith_empty by discriminate. rewrite app_nil_r. exact Hinv. }
  destruct (Str.startswith "* " line).
  { destruct (Agenda.current_day st) as [d|] eqn:Ed.
    - commit_days H.
      destruct (Day.fromstring line) as [e|day] eqn:Eday; cbn [bind ret] in H;
        [discriminate|].
      inversion H; subst st'.
      apply (days_follow_new st hs self' day' line raw day); auto.
      rewrite Ed. split; [rewrite Hdays; reflexivity | exact Hdt].
    - cbn [bind ret] in H.
      destruct (Day.fromstring line) as [e|day] eqn:Eday; cbn [bind ret] in H;
        [discriminate|].
      inversion H; subst st'.
      apply (days_follow_new st hs (Agenda.self st) None line raw day); auto.
      rewrite Ed. reflexivity. }
  rewrite app_nil_r.
  destruct (Str.startswith "! " line).
  { commit_days H. bind_inv H. inversion H; subst st'.
    apply (days_follow_keep st); [exact Hinv | | ]; simpl;
      [rewrite Hdays, app_nil_r; reflexivity | exact Hdt]. }
  destruct (Str.startswith "+ " line).
  { commit_days H. bind_inv H. inversion H; subst st'.
    apply (days_follow_keep st); [exact Hinv | | ]; simpl;
      [rewrite Hdays, app_nil_r; reflexivity | exact Hdt]. }
  destruct (Str.startswith "= " line).
  { commit_days H. bind_inv H. inversion H; subst st'.
    apply (days_follow_keep st); [exact Hinv | | ]; simpl;
      [rewrite Hdays, app_nil_r; reflexivity | exact Hdt]. }
  destruct (Str.startswith "@ " line).
  { commit_days H. inversion H; subst st'.
    apply (days_follow_keep st); [exact Hinv | | ]; simpl;
      [rewrite Hdays, app_nil_r; reflexivity | exact Hdt]. }
  destruct (Agenda.item_match line) as [matchobj|];
    [|inversion H; subst; exact Hinv].
  destruct (match Agenda.current_item st with
            | Some item =>
                if Agenda.is_poster item
                then match Agenda.current_poster_topic st with
                     | Some v => ret (Some (Item.set_topic item v), Some PyNone)
                     | None => raise UnboundLocalError
                     end
                else ret (Agenda.current_item st, Agenda.current_poster_topic st)
            | None => ret (Agenda.current_item st, Agenda.current_poster_topic st)
            end) as [e | [item topic]]; cbn [bind ret] in H; [discriminate|].
  commit_days H. bind_inv H. inversion H; subst st'.
  apply (days_follow_keep st); [exact Hinv | | ]; simpl;
    [rewrite Hdays, app_nil_r; reflexivity | exact Hdt].
Qed.

Lemma loop_days (lines : list string) :
  forall st st' hs,
    days_follow st hs -> Agenda.loop st lines = inr st' ->
    days_follow st' (hs ++ day_headers lines).
Proof.
  induction lines as [|line lines IH]; intros st st' hs Hinv H; simpl in H.
  - inversion H; subst. simpl. rewrite app_nil_r. exact Hinv.
  - destruct (Agenda.process_line st line) as [e|st1] eqn:E; cbn [bind] in H;
      [discriminate|].
    apply (process_line_days _ _ _ hs Hinv) in E.
    apply (IH _ _ _ E) in H. rewrite <- app_assoc in H.
    unfold day_headers. simpl. destruct (is_day_header line); exact H.
Qed.

Lemma fromfile_days (lines : list string) (a : Agenda.t) :
  Agenda.fromfile Agenda.init lines = inr a ->
  match day_headers lines with
  | [] => Agenda.days a = [None]
  | _ :: _ => Forall2 day_of_header (Agenda.days a) (day_headers lines)
  end.
Proof.
  unfold Agenda.fromfile. intros H.
  destruct (Agenda.loop (Agenda.start Agenda.init) lines) as [e|st] eqn:E;
    cbn [bind] in H; [discriminate|].
  apply (loop_days lines _ _ []) in E.
  2:{ split; [constructor | reflexivity]. }
  simpl in E. unfold Agenda.tuple_of in H. commit_days H.
  inversion H; subst a. destruct E as [HF Hnone]. unfold all_days in HF.
  destruct (Agenda.current_day st) as [d|].
  - destruct day' as [d'|]; simpl in Hdt; [|discriminate]. inversion Hdt as [Hd].
    assert (HF' : Forall2 day_of_header (Agenda.days self') (day_headers lines)).
    { rewrite Hdays. apply (Forall2_last _ _ (Some d) (Some d')); [|exact HF].
      intros h. apply day_of_header_same_date. exact Hd. }
    destruct (day_headers lines); [|exact HF'].
    rewrite Hdays in HF'. inversion HF' as [Hnil|]. destruct (Agenda.days (Agenda.self st)); discriminate.
  - rewrite (Hnone eq_refl) in *. rewrite app_nil_r in HF. inversion HF as [Hnil|].
    destruct day' as [d'|]; simpl in Hdt; [discriminate|].
    rewrite Hdays, <- Hnil. reflexivity.
Qed.

(** X2: an agenda parsed from a file with day headers has exactly one day
    for each day header, in the order of the file, each with the date read
    off its header. *)
Theorem X2_one_day_per_day_header (lines : list string) (a : Agenda.t) :
  Agenda.fromfile Agenda.init lines = inr a ->
  day_headers lines <> [] ->
  Forall2 day_of_header (Agenda.days a) (day_headers lines).
Proof.
  intros H Hne. apply fromfile_days in H.
  destruct (day_headers lines); [congruence | exact H].
Qed.

Lemma X2_witness :
  exists a,
    Agenda.fromfile Agenda.init
      ["* Monday, June 3, 2019"; "! 9:00--10:00 Keynote";
       "* Tuesday, June 4, 2019"] = inr a /\
    Forall2 day_of_header (Agenda.days a)
      ["* Monday, June 3, 2019"; "* Tuesday, June 4, 2019"].
Proof.
  eassert (H : Agenda.fromfile Agenda.init
                 ["* Monday, June 3, 2019"; "! 9:00--10:00 Keynote";
                  "* Tuesday, June 4, 2019"] = inr _) by (vm_compute; reflexivity).
  eexists. split; [exact H|].
  refine (X2_one_day_per_day_header _ _ H _). vm_compute. discriminate.
Defined.

(** X3: when a file without any day header parses, the agenda consists of a
    single entry, and that entry is [None], not a day. *)
Theorem X3_no_day_header_gives_none (lines : list string) (a : Agenda.t) :
  Agenda.fromfile Agenda.init lines = inr a ->
  day_headers lines = [] ->
  Agenda.days a = [None].
Proof.
  intros H Hnil. apply fromfile_days in H. rewrite Hnil in H. exact H.
Qed.

Lemma X3_witness :
  Agenda.fromfile Agenda.init ["@ Parsing"; ""] = inr (Agenda.mk [None]) /\
  day_headers ["@ Parsing"; ""] = [] /\
  Agenda.days (Agenda.mk [None]) = [None].
Proof.
  assert (H1 : Agenda.fromfile Agenda.init ["@ Parsing"; ""] = inr (Agenda.mk [None]))
    by (vm_compute; reflexivity).
  assert (H2 : day_headers ["@ Parsing"; ""] = []) by (vm_compute; reflexivity).
  split; [exact H1|]. split; [exact H2|].
  exact (X3_no_day_header_gives_none _ _ H1 H2).
Defined.

(** ** Parsing into an agenda that already has days *)

Lemma update_states_after (before : list (option Day.t)) (self : Agenda.t)
      (tuple : Agenda.current_tuple) (save_session save_group save_day : bool) :
  Agenda.update_states (Agenda.mk (before ++ Agenda.days self)) tuple
                       save_session save_group save_day =
  after_days before
    (Agenda.update_states self tuple save_session save_group save_day).
Proof.
  destruct tuple as [[[day group] session] item]. unfold Agenda.update_states.
  destruct day as [d|], item as [i|], session as [s|], save_session,
    group as [g|], save_group, save_day;
    cbn [bind ret Agenda.day_add negb];
    repeat match goal with
           | |- context [plenary_or_break ?t] =>
               destruct (plenary_or_break t); cbn [bind ret Agenda.day_add negb]
           end;
    simpl; rewrite ?app_assoc; reflexivity.
Qed.

Ltac split_commit :=
  rewrite update_states_after;
  match goal with
  | |- context [Agenda.update_states ?a ?t ?x ?y ?z] =>
      destruct (Agenda.update_states a t x y z)
        as [?e | [?self' [[[?d ?g] ?s] ?i]]];
      cbn [after_days bind ret]; [reflexivity|]
  end.

Lemma process_line_after (before : list (option Day.t)) (st : Agenda.state)
      (raw : string) :
  Agenda.process_line (with_days_before before st) raw =
  match Agenda.process_line st raw with
  | inl e => inl e
  | inr st' => inr (with_days_before before st')
  end.
Proof.
  unfold Agenda.process_line. cbv zeta.
  change (Agenda.tuple_of (with_days_before before st)) with (Agenda.tuple_of st).
  cbn [with_days_before Agenda.self Agenda.current_day
       Agenda.current_session_group Agenda.current_session Agenda.current_item
       Agenda.current_poster_topic].
  set (line := Str.strip raw). clearbody line.
  destruct (Str.is_empty line); [reflexivity|].
  destruct (Str.startswith "* " line).
  { destruct (Agenda.current_day st) as [d0|].
    - split_commit. destruct (Day.fromstring line); reflexivity.
    - cbn [bind ret]. destruct (Day.fromstring line); reflexivity. }
  destruct (Str.startswith "! " line).
  { split_commit. destruct (Session.fromstring line); reflexivity. }
  destruct (Str.startswith "+ " line).
  { split_commit. destruct (SessionGroup.fromstring line); reflexivity. }
  destruct (Str.startswith "= " line).
  { split_commit. destruct (Session.fromstring line); reflexivity. }
  destruct (Str.startswith "@ " line).
  { split_commit. reflexivity. }
  destruct (Agenda.item_match line) as [matchobj|]; [|reflexivity].
  destruct (match Agenda.current_item st with
            | Some item =>
                if Agenda.is_poster item
                then match Agenda.current_poster_topic st with
                     | Some v => ret (Some (Item.set_topic item v), Some PyNone)
                     | None => raise UnboundLocalError
                     end
                else ret (Agenda.current_item st, Agenda.current_poster_topic st)
            | None => ret (Agenda.current_item st, Agenda.current_poster_topic st)
            end) as [e | [item topic]]; cbn [bind ret]; [reflexivity|].
  split_commit.
  destruct (Agenda.session_type_of s) as [e|ty]; cbn [bind ret]; [reflexivity|].
  destruct (Item.fromstring (Re.groups matchobj) ty); reflexivity.
Qed.

Lemma loop_after (before : list (option Day.t)) (lines : list string) :
  forall st,
    Agenda.loop (with_days_before before st) lines =
    match Agenda.loop st lines with
    | inl e => inl e
    | inr st' => inr (with_days_before before st')
    end.
Proof.
  induction lines as [|line lines IH]; intros st; simpl; [reflexivity|].
  rewrite process_line_after.
  destruct (Agenda.process_line st line) as [e|st1]; cbn [bind]; [reflexivity|].
  apply IH.
Qed.

(** X4: parsing a file into an agenda that already has days leaves those
    days as they are and puts after them exactly the days the file gives on
    a fresh agenda; it fails exactly when parsing into a fresh agenda
    fails, with the same exception. *)
Theorem X4_fromfile_appends_to_the_agenda (self : Agenda.t) (lines : list string) :
  Agenda.fromfile self lines =
  match Agenda.fromfile Agenda.init lines with
  | inl e => inl e
  | inr a => inr (Agenda.mk (Agenda.days self ++ Agenda.days a))
  end.
Proof.
  unfold Agenda.fromfile.
  assert (Hstart : Agenda.start self =
                   with_days_before (Agenda.days self) (Agenda.start Agenda.init)).
  { destruct self as [ds]. unfold with_days_before, Agenda.start. simpl.
    rewrite app_nil_r. reflexivity. }
  rewrite Hstart, loop_after.
  destruct (Agenda.loop (Agenda.start Agenda.init) lines) as [e|st];
    cbn [bind]; [reflexivity|].
  change (Agenda.tuple_of (with_days_before (Agenda.days self) st))
    with (Agenda.tuple_of st).
  cbn [with_days_before Agenda.self].
  rewrite update_states_after.
  destruct (Agenda.update_states (Agenda.self st) (Agenda.tuple_of st)
              true true true) as [e | [self' t]]; reflexivity.
Qed.

(** ** The type of an item and the type of its session *)

Lemma session_add_typed (s : Session.t) (i : Item.t) :
  session_typed s -> item_typed s i -> session_typed (Session.add s i).
Proof.
  unfold session_typed, item_typed, Session.add. simpl. intros Hs Hi.
  apply Forall_app. split; [exact Hs | constructor; [exact Hi | constructor]].
Qed.

Lemma day_add_typed (day day' : option Day.t) (c : Day.content) :
  opt_ok day_typed day -> content_typed c ->
  Agenda.day_add day c = inr day' -> opt_ok day_typed day'.
Proof.
  intros Hd Hc H. destruct day as [d|]; simpl in H; [|discriminate].
  inversion H; subst. simpl. unfold day_typed, Day.add. simpl.
  apply Forall_app. split; [exact Hd | constructor; [exact Hc | constructor]].
Qed.

Lemma group_add_typed (g : SessionGroup.t) (s : Session.t) :
  Forall session_typed (SessionGroup.sessions g) -> session_typed s ->
  Forall session_typed (SessionGroup.sessions (SessionGroup.add g s)).
Proof.
  unfold SessionGroup.add. simpl. intros Hg Hs.
  apply Forall_app. split; [exact Hg | constructor; [exact Hs | constructor]].
Qed.

Lemma commit_item_typed (session : option Session.t) (item : option Item.t) :
  opt_ok session_typed session ->
  match item, session with
  | Some i, Some s => item_typed s i
  | _, _ => True
  end ->
  opt_ok session_typed
    match item, session with
    | Some i, Some s => Some (Session.add s i)
    | _, _ => session
    end.
Proof.
  intros Hs Hi. destruct item as [i|], session as [s|]; simpl in *; auto.
  apply session_add_typed; assumption.
Qed.

Lemma update_states_typed (self self' : Agenda.t)
      (day day' : option Day.t) (group group' : option SessionGroup.t)
      (session session' : option Session.t) (item item' : option Item.t)
      (save_session save_group save_day : bool) :
  agenda_typed self -> opt_ok day_typed day ->
  opt_ok (fun g => Forall session_typed (SessionGroup.sessions g)) group ->
  opt_ok session_typed session ->
  match item, session with
  | Some i, Some s => item_typed s i
  | _, _ => True
  end ->
  Agenda.update_states self (day, group, session, item)
                       save_session save_group save_day =
    inr (self', (day', group', session', item')) ->
  agenda_typed self' /\ opt_ok day_typed day' /\
  opt_ok (fun g => Forall session_typed (SessionGroup.sessions g)) group' /\
  opt_ok session_typed session' /\
  session' = match item, session with
             | Some i, Some s => Some (Session.add s i)
             | _, _ => session
             end.
Proof.
  intros Ha Hd Hg Hs Hi H.
  pose proof (commit_item_typed session item Hs Hi) as Hs1.
  unfold Agenda.update_states in H.
  remember (match item, session with
            | Some i, Some s => Some (Session.add s i)
            | _, _ => session
            end) as session1 eqn:Es1.
  assert (Hfin : forall (d1 : option Day.t) (g1 : option SessionGroup.t),
             opt_ok day_typed d1 ->
             opt_ok (fun g => Forall session_typed (SessionGroup.sessions g)) g1 ->
             (d2 <- match g1 with
                    | Some g => if save_group
                                then Agenda.day_add d1 (Day.OfGroup g)
                                else ret d1
                    | None => ret d1
                    end ;;
              ret (if save_day then Agenda.mk (Agenda.days self ++ [d2]) else self,
                   (d2, g1, session1, item))) =
             inr (self', (day', group', session', item')) ->
             agenda_typed self' /\ opt_ok day_typed day' /\
             opt_ok (fun g => Forall session_typed (SessionGroup.sessions g)) group' /\
             opt_ok session_typed session' /\ session' = session1).
  { intros d1 g1 Hd1 Hg1 H1.
    assert (Hd2 : forall d2,
               match g1 with
               | Some g => if save_group
                           then Agenda.day_add d1 (Day.OfGroup g)
                           else ret d1
               | None => ret d1
               end = inr d2 -> opt_ok day_typed d2).
    { intros d2 E. destruct g1 as [g|]; [destruct save_group|];
        try (inversion E; subst; exact Hd1).
      exact (day_add_typed d1 d2 (Day.OfGroup g) Hd1 Hg1 E). }
    destruct (match g1 with
              | Some g => if save_group
                          then Agenda.day_add d1 (Day.OfGroup g)
                          else ret d1
              | None => ret d1
              end) as [e|d2]; cbn [bind ret] in H1; [discriminate|].
    specialize (Hd2 d2 eq_refl).
    destruct save_day; inversion H1; subst; repeat split; auto.
    unfold agenda_typed in *. simpl.
    apply Forall_app. split; [exact Ha | constructor; [exact Hd2 | constructor]]. }
  destruct session1 as [s1|]; [destruct save_session|]; cbn [bind ret] in H.
  - destruct group as [g|].
    + destruct (plenary_or_break (Session.type s1)); cbn [negb bind ret] in H.
      * destruct (Agenda.day_add day (Day.OfSession s1)) as [e|d1] eqn:E1;
          cbn [bind ret] in H; [discriminate|].
        apply (Hfin d1 (Some g)); [|exact Hg|exact H].
        exact (day_add_typed day d1 (Day.OfSession s1) Hd Hs1 E1).
      * apply (Hfin day (Some (SessionGroup.add g s1))); [exact Hd| |exact H].
        exact (group_add_typed g s1 Hg Hs1).
    + destruct (Agenda.day_add day (Day.OfSession s1)) as [e|d1] eqn:E1;
        cbn [bind ret] in H; [discriminate|].
      apply (Hfin d1 None); [|exact I|exact H].
      exact (day_add_typed day d1 (Day.OfSession s1) Hd Hs1 E1).
  - apply (Hfin day group); assumption.
  - apply (Hfin day group); assumption.
Qed.

Lemma session_fromstring_items (line : string) (s : Session.t) :
  Session.fromstring line = inr (Some s) -> Session.items s = [].
Proof.
  unfold Session.fromstring. intros H.
  bind_inv H; inversion H; subst; reflexivity.
Qed.

Lemma item_fromstring_typed (g : Re.captures) (ty : session_type) (i : Item.t) :
  Item.fromstring g ty = inr (Some i) -> item_type_under ty = Some (Item.type i).
Proof.
  intros H. unfold Item.fromstring in H. cbv zeta in H.
  destruct ty; try discriminate.
  - destruct (if Str.contains_char "-" (group_or_empty 1 g)
              then Item.split_id (group_or_empty 1 g)
              else ret (group_or_empty 1 g, "main")) as [e|[a b]];
      cbn [bind ret] in H; [discriminate|].
    inversion H; subst. reflexivity.
  - inversion H; subst. reflexivity.
  - destruct (Item.split_id (group_or_empty 1 g)) as [e|[a b]];
      cbn [bind ret] in H; [discriminate|].
    destruct (String.eqb b "tutorial"); [|discriminate].
    inversion H; subst. reflexivity.
  - destruct (if Str.contains_char "-" (group_or_empty 1 g)
              then Item.split_id (group_or_empty 1 g)
              else ret (group_or_empty 1 g, "main")) as [e|[a b]];
      cbn [bind ret] in H; [discriminate|].
    inversion H; subst. reflexivity.
Qed.

Ltac commit_typed H :=
  match type of H with
  | context [Agenda.update_states ?a ?t ?x ?y ?z] =>
      let E := fresh "Eu" in
      destruct (Agenda.update_states a t x y z)
        as [?e | [?self' [[[?day' ?group'] ?session'] ?item']]] eqn:E;
      cbn [bind ret] in H; [discriminate|];
      apply update_states_typed in E;
      [destruct E as (?Ha & ?Hd & ?Hg & ?Hs & ?Hs') | try assumption ..]
  end.

Lemma opt_session_typed_new (line : string) (session : option Session.t) :
  Session.fromstring line = inr session -> opt_ok session_typed session.
Proof.
  intros H. destruct session as [s|]; simpl; [|exact I].
  unfold session_typed. rewrite (session_fromstring_items _ _ H). constructor.
Qed.

Lemma day_fromstring_contents (line : string) (day : Day.t) :
  Day.fromstring line = inr day -> Day.contents day = [].
Proof.
  unfold Day.fromstring. intros H. bind_inv H. inversion H; subst. reflexivity.
Qed.

Lemma group_fromstring_sessions (line : string) (group : SessionGroup.t) :
  SessionGroup.fromstring line = inr group -> SessionGroup.sessions group = [].
Proof.
  unfold SessionGroup.fromstring. intros H. bind_inv H. inversion H; subst.
  reflexivity.
Qed.

Lemma process_line_typed (st st' : Agenda.state) (raw : string) :
  state_typed st -> Agenda.process_line st raw = inr st' -> state_typed st'.
Proof.
  intros (Ha & Hd & Hg & Hs & Hi) H. unfold Agenda.process_line in H.
  cbv zeta in H. unfold Agenda.tuple_of in H.
  set (line := Str.strip raw) in *. clearbody line.
  destruct (Str.is_empty line).
  { inversion H; subst. repeat split; assumption. }
  destruct (Str.startswith "* " line).
  { assert (Hnew : forall self' day,
               agenda_typed self' -> Day.fromstring line = inr day ->
               state_typed (Agenda.mkstate self' (Some day) None None None
                              (Agenda.current_poster_topic st))).
    { intros self' day Ha' Eday. repeat split; simpl; auto.
      unfold day_typed. rewrite (day_fromstring_contents _ _ Eday). constructor. }
    destruct (Agenda.current_day st) as [d|] eqn:Ed.
    - commit_typed H.
      destruct (Day.fromstring line) as [e|day] eqn:Eday; cbn [bind ret] in H;
        [discriminate|].
      inversion H; subst. apply Hnew; [assumption | reflexivity].
    - cbn [bind ret] in H.
      destruct (Day.fromstring line) as [e|day] eqn:Eday; cbn [bind ret] in H;
        [discriminate|].
      inversion H; subst. apply Hnew; [assumption | reflexivity]. }
  destruct (Str.startswith "! " line).
  { commit_typed H.
    destruct (Session.fromstring line) as [e|session] eqn:Es; cbn [bind ret] in H;
      [discriminate|].
    inversion H; subst. apply opt_session_typed_new in Es.
    repeat split; simpl; auto; destruct session; exact I. }
  destruct (Str.startswith "+ " line).
  { commit_typed H.
    destruct (SessionGroup.fromstring line) as [e|group] eqn:Eg; cbn [bind ret] in H;
      [discriminate|].
    inversion H; subst. repeat split; simpl; auto.
    rewrite (group_fromstring_sessions _ _ Eg). constructor. }
  destruct (Str.startswith "= " line).
  { commit_typed H.
    destruct (Session.fromstring line) as [e|session] eqn:Es; cbn [bind ret] in H;
      [discriminate|].
    inversion H; subst. apply opt_session_typed_new in Es.
    repeat split; simpl; auto; destruct session; exact I. }
  destruct (Str.startswith "@ " line).
  { commit_typed H. inversion H; subst. repeat split; simpl; auto. }
  destruct (Agenda.item_match line) as [matchobj|].
  2:{ inversion H; subst. repeat split; assumption. }
  assert (Htail : forall self' day' group' session' topic,
             agenda_typed self' -> opt_ok day_typed day' ->
             opt_ok (fun g => Forall session_typed (SessionGroup.sessions g)) group' ->
             opt_ok session_typed session' ->
             (ty <- Agenda.session_type_of session' ;;
              new_item <- Item.fromstring (Re.groups matchobj) ty ;;
              ret (Agenda.mkstate self' day' group' session' new_item topic))
             = inr st' -> state_typed st').
  { intros self' day' group' session' topic Ha' Hd' Hg' Hs' H'.
    destruct session' as [s'|]; cbn [Agenda.session_type_of bind ret] in H';
      [|discriminate].
    destruct (Item.fromstring (Re.groups matchobj) (Session.type s'))
      as [e|new_item] eqn:Ef; cbn [bind ret] in H'; [discriminate|].
    inversion H'; subst. repeat split; simpl; auto.
    destruct new_item as [i|]; [|exact I].
    exact (item_fromstring_typed _ _ _ Ef). }
  destruct (Agenda.current_item st) as [item|] eqn:Ei.
  - destruct (Agenda.is_poster item).
    + destruct (Agenda.current_poster_topic st) as [v|]; cbn [bind ret] in H;
        [|discriminate].
      commit_typed H. eapply Htail; eassumption.
    + cbn [bind ret] in H. commit_typed H. eapply Htail; eassumption.
  - cbn [bind ret] in H. commit_typed H. eapply Htail; eassumption.
Qed.

Lemma loop_typed (lines : list string) :
  forall st st', state_typed st -> Agenda.loop st lines = inr st' -> state_typed st'.
Proof.
  induction lines as [|line lines IH]; intros st st' Hok H; simpl in H.
  - inversion H; subst. exact Hok.
  - destruct (Agenda.process_line st line) as [e|st1] eqn:E; cbn [bind] in H;
      [discriminate|].
    apply (IH st1 st'); [|exact H]. exact (process_line_typed _ _ _ Hok E).
Qed.

(** X5: in every agenda produced by parsing, the items of a session have the
    type that goes with the type of the session: posters in a poster
    session, papers in a paper or best-paper session, tutorials in a
    tutorial session. *)
Theorem X5_items_have_the_type_of_their_session
        (lines : list string) (a : Agenda.t)
        (d : Day.t) (s : Session.t) (i : Item.t) :
  Agenda.fromfile Agenda.init lines = inr a ->
  In (Some d) (Agenda.days a) -> session_of_day s d -> In i (Session.items s) ->
  item_type_under (Session.type s) = Some (Item.type i).
Proof.
  unfold Agenda.fromfile. intros H Hd Hsd Hi.
  destruct (Agenda.loop (Agenda.start Agenda.init) lines) as [e|st] eqn:E;
    cbn [bind] in H; [discriminate|].
  apply loop_typed in E.
  2:{ repeat split; simpl; auto. constructor. }
  destruct E as (Ha & Hday & Hg & Hs & Hit). unfold Agenda.tuple_of in H.
  commit_typed H. inversion H; subst a.
  unfold agenda_typed in Ha0. rewrite Forall_forall in Ha0.
  specialize (Ha0 (Some d) Hd). simpl in Ha0. unfold day_typed in Ha0.
  rewrite Forall_forall in Ha0.
  assert (Hst : session_typed s).
  { destruct Hsd as [Hin | [g [Hg' Hin]]].
    - exact (Ha0 _ Hin).
    - specialize (Ha0 _ Hg'). simpl in Ha0. rewrite Forall_forall in Ha0.
      exact (Ha0 _ Hin). }
  unfold session_typed in Hst. rewrite Forall_forall in Hst. exact (Hst i Hi).
Qed.

Lemma X5_witness :
  let lines := ["* Monday, June 3, 2019"; "= Session 1A: Posters";
                "@ Parsing"; "501 #"; "502 #"] in
  let s := a_session "1A" "Posters" poster
             [a_poster "501" (PyStr "Parsing"); a_poster "502" (PyStr "")] in
  let d := monday [Day.OfSession s] in
  Agenda.fromfile Agenda.init lines = inr (Agenda.mk [Some d]) /\
  item_type_under poster = Some poster_item.
Proof.
  intros lines s d.
  assert (H : Agenda.fromfile Agenda.init lines = inr (Agenda.mk [Some d]))
    by (vm_compute; reflexivity).
  split; [exact H|].
  refine (X5_items_have_the_type_of_their_session lines _ d s
            (a_poster "502" (PyStr "")) H _ _ _).
  - left. reflexivity.
  - left. left. reflexivity.
  - right. left. reflexivity.
Defined.

(** ** The pending topic before the first topic marker *)

Lemma process_line_topic_unbound (st st' : Agenda.state) (raw : string) :
  Agenda.process_line st raw = inr st' ->
  is_topic_line raw = false ->
  Agenda.current_poster_topic st = None ->
  Agenda.current_poster_topic st' = None.
Proof.
  intros H Hraw Htopic. unfold Agenda.process_line in H. cbv zeta in H.
  unfold is_topic_line in Hraw.
  set (line := Str.strip raw) in *. clearbody line.
  destruct (Str.is_empty line); [inversion H; subst; exact Htopic|].
  destruct (Str.startswith "* " line).
  { destruct (Agenda.current_day st); [skip_commit H | cbn [bind ret] in H];
      bind_inv H; inversion H; subst; exact Htopic. }
  destruct (Str.startswith "! " line);
    [skip_commit H; bind_inv H; inversion H; subst; exact Htopic|].
  destruct (Str.startswith "+ " line);
    [skip_commit H; bind_inv H; inversion H; subst; exact Htopic|].
  destruct (Str.startswith "= " line);
    [skip_commit H; bind_inv H; inversion H; subst; exact Htopic|].
  rewrite Hraw in H.
  destruct (Agenda.item_match line) as [matchobj|];
    [|inversion H; subst; exact Htopic].
  rewrite Htopic in H.
  destruct (Agenda.current_item st) as [item|].
  - destruct (Agenda.is_poster item); cbn [bind ret raise] in H; [discriminate|].
    skip_commit H. bind_inv H. inversion H; subst. reflexivity.
  - cbn [bind ret] in H. skip_commit H. bind_inv H. inversion H; subst.
    reflexivity.
Qed.

Lemma loop_topic_unbound (lines : list string) :
  forall st st',
    Agenda.loop st lines = inr st' ->
    forallb (fun l => negb (is_topic_line l)) lines = true ->
    Agenda.current_poster_topic st = None ->
    Agenda.current_poster_topic st' = None.
Proof.
  induction lines as [|line lines IH]; intros st st' H Hall Htopic; simpl in *.
  - inversion H; subst. exact Htopic.
  - apply andb_prop in Hall. destruct Hall as [Hl Hall].
    apply negb_true_iff in Hl.
    destruct (Agenda.process_line st line) as [e|st1] eqn:E; cbn [bind] in H;
      [discriminate|].
    apply (IH st1 st' H Hall).
    exact (process_line_topic_unbound _ _ _ E Hl Htopic).
Qed.

(** X6: as long as the file has had no topic marker, an item line that
    follows an open poster item raises [UnboundLocalError]: the pending
    topic is read before it was ever assigned.  The file then fails to
    parse, whatever follows. *)
Theorem X6_second_poster_without_topic_marker_fails
        (lines : list string) (st : Agenda.state) (i : Item.t) (raw : string) :
  Agenda.loop (Agenda.start Agenda.init) lines = inr st ->
  forallb (fun l => negb (is_topic_line l)) lines = true ->
  Agenda.current_item st = Some i -> Agenda.is_poster i = true ->
  is_item_line raw = true ->
  Agenda.process_line st raw = inl UnboundLocalError /\
  forall after,
    Agenda.fromfile Agenda.init (lines ++ raw :: after) = inl UnboundLocalError.
Proof.
  intros Hloop Hall Hi Hp Hline.
  pose proof (loop_topic_unbound _ _ _ Hloop Hall eq_refl) as Htopic.
  assert (H : Agenda.process_line st raw = inl UnboundLocalError).
  { apply item_line_inv in Hline.
    destruct Hline as (E0 & E1 & E2 & E3 & E4 & E5 & matchobj & E6).
    unfold Agenda.process_line. cbv zeta.
    rewrite E0, E1, E2, E3, E4, E5, E6, Hi, Hp, Htopic. reflexivity. }
  split; [exact H|]. intros after. unfold Agenda.fromfile.
  rewrite loop_app, Hloop. cbn [bind]. simpl. rewrite H. reflexivity.
Qed.

Lemma X6_witness :
  let lines := ["* Monday, June 3, 2019"; "= Session 1A: Posters"; "501 #"] in
  let st := Agenda.mkstate Agenda.init (Some (monday [])) None
              (Some (a_session "1A" "Posters" poster []))
              (Some (a_poster "501" (PyStr ""))) None in
  Agenda.loop (Agenda.start Agenda.init) lines = inr st /\
  is_item_line "502 #" = true /\
  Agenda.process_line st "502 #" = inl UnboundLocalError /\
  forall after,
    Agenda.fromfile Agenda.init (lines ++ "502 #" :: after) = inl UnboundLocalError.
Proof.
  intros lines st.
  assert (H1 : Agenda.loop (Agenda.start Agenda.init) lines = inr st)
    by (vm_compute; reflexivity).
  assert (H2 : is_item_line "502 #" = true) by (vm_compute; reflexivity).
  split; [exact H1|]. split; [exact H2|].
  exact (X6_second_poster_without_topic_marker_fails lines st
           (a_poster "501" (PyStr "")) "502 #" H1 eq_refl eq_refl eq_refl H2).
Defined.

(** ** Lines that match the item pattern *)

Lemma digit_starts_no_sigil (c : ascii) (s : string) :
  Str.is_digit c = true -> sigil (String c s) = false.
Proof.
  intros H. destruct c as [[] [] [] [] [] [] [] []]; vm_compute in H;
    try discriminate; reflexivity.
Qed.

Lemma item_regexp_starts_with_digit (s : list ascii) (mo : Re.match_object) :
  Re.match_list Item._regexp s = Some mo ->
  exists c s', s = c :: s' /\ Str.is_digit c = true.
Proof.
  intros H. apply match_list_sound in H. destruct H as [Hs H].
  unfold Item._regexp in H. simpl in H.
  destruct H as (c1 & c2 & mid & Hm & (mid0 & (c3 & c4 & mid1 & Hc1 & Hd & _) & _) & _).
  destruct Hd as (Hall & Hlen & _). subst c1. rewrite Hm in Hs.
  destruct c3 as [|c c3]; [simpl in Hlen; lia|].
  simpl in Hall. apply andb_prop in Hall. destruct Hall as [Hc _].
  exists c. eexists. split; [|exact Hc]. rewrite Hs. simpl. reflexivity.
Qed.

(** X7: a line that the item pattern matches after [strip] is never empty
    and never starts with a sigil, so it always reaches the item branch of
    [fromfile]. *)
Theorem X7_matching_lines_reach_the_item_branch (raw : string) :
  Agenda.item_match (Str.strip raw) <> None <-> is_item_line raw = true.
Proof.
  split.
  - intros H. unfold is_item_line. cbv zeta.
    destruct (Agenda.item_match (Str.strip raw)) as [mo|] eqn:E; [|congruence].
    unfold Agenda.item_match, Re.match_ in E.
    apply item_regexp_starts_with_digit in E.
    destruct E as (c & s' & Hs & Hc).
    destruct (Str.strip raw) as [|c0 rest]; [discriminate|].
    simpl in Hs. inversion Hs; subst c0.
    rewrite (digit_starts_no_sigil c rest Hc). reflexivity.
  - intros H. apply item_line_inv in H.
    destruct H as (_ & _ & _ & _ & _ & _ & mo & E). rewrite E. discriminate.
Qed.

(** ** The times of an item *)

Lemma item_regexp_times (s : list ascii) (mo : Re.match_object) :
  Re.match_list Item._regexp s = Some mo ->
  (Re.lookup 4 (Re.groups mo) = None /\ Re.lookup 5 (Re.groups mo) = None) \/
  (exists h1 m1 h2 m2 : list ascii,
      Re.lookup 4 (Re.groups mo) = Some (h1 ++ ":"%char :: m1) /\
      Re.lookup 5 (Re.groups mo) = Some (h2 ++ ":"%char :: m2) /\
      (forallb Str.is_digit h1 = true /\ 1 <= length h1 <= 2 /\
       forallb Str.is_digit m1 = true /\ length m1 = 2) /\
      (forallb Str.is_digit h2 = true /\ 1 <= length h2 <= 2 /\
       forallb Str.is_digit m2 = true /\ length m2 = 2)).
Proof.
  intros H. apply match_list_sound in H. destruct H as [_ H].
  unfold Item._regexp, time_re in H. simpl in H.
  repeat match goal with
         | H : exists _, _ |- _ => destruct H
         | H : _ /\ _ |- _ => destruct H
         | H : _ \/ _ |- _ => destruct H
         end; subst;
  match goal with H : Re.groups mo = _ |- _ => rewrite H end; simpl.
  all: try (left; split; reflexivity).
  all: right; do 4 eexists; split; [reflexivity|]; split; [reflexivity|];
    repeat split; auto; lia.
Qed.

(** X8: the start and the end of an item go together.  A paper or tutorial
    item made from a matched line has both a start and an end time, each of
    the shape of a time of day, or has [None] for both; a poster item has
    neither attribute, whatever times are on its line. *)
Theorem X8_item_times_go_together
        (line : string) (mo : Re.match_object) (ty : session_type) (i : Item.t) :
  Re.match_ Item._regexp line = Some mo ->
  Item.fromstring (Re.groups mo) ty = inr (Some i) ->
  match ty with
  | poster => Item.start i = None /\ Item.end_ i = None
  | _ =>
      (Item.start i = Some PyNone /\ Item.end_ i = Some PyNone) \/
      (exists a b : string,
          Item.start i = Some (PyStr a) /\ Item.end_ i = Some (PyStr b) /\
          time_shaped a /\ time_shaped b)
  end.
Proof.
  intros Hm Hf. unfold Re.match_ in Hm. apply item_regexp_times in Hm.
  assert (Hg : (grp 4 (Re.groups mo) = PyNone /\ grp 5 (Re.groups mo) = PyNone) \/
               (exists a b, grp 4 (Re.groups mo) = PyStr a /\
                            grp 5 (Re.groups mo) = PyStr b /\
                            time_shaped a /\ time_shaped b)).
  { unfold grp, Re.group.
    destruct Hm as [[H4 H5] | (h1 & m1 & h2 & m2 & H4 & H5 & S1 & S2)];
      rewrite H4, H5; simpl; [left; auto|].
    right. do 2 eexists. split; [reflexivity|]. split; [reflexivity|].
    split; [exists h1, m1 | exists h2, m2]; tauto. }
  assert (Hse : ty <> poster -> ty <> plenary -> ty <> break ->
                Item.start i = Some (grp 4 (Re.groups mo)) /\
                Item.end_ i = Some (grp 5 (Re.groups mo))).
  { intros N1 N2 N3. unfold Item.fromstring in Hf. cbv zeta in Hf.
    destruct ty; try congruence.
    - destruct (if Str.contains_char "-" (group_or_empty 1 (Re.groups mo))
                then Item.split_id (group_or_empty 1 (Re.groups mo))
                else ret (group_or_empty 1 (Re.groups mo), "main")) as [e|[a b]];
        cbn [bind ret] in Hf; [discriminate|].
      inversion Hf; subst. auto.
    - destruct (Item.split_id (group_or_empty 1 (Re.groups mo))) as [e|[a b]];
        cbn [bind ret] in Hf; [discriminate|].
      destruct (String.eqb b "tutorial"); [|discriminate].
      inversion Hf; subst. auto.
    - destruct (if Str.contains_char "-" (group_or_empty 1 (Re.groups mo))
                then Item.split_id (group_or_empty 1 (Re.groups mo))
                else ret (group_or_empty 1 (Re.groups mo), "main")) as [e|[a b]];
        cbn [bind ret] in Hf; [discriminate|].
      inversion Hf; subst. auto. }
  destruct ty; try discriminate.
  - destruct Hse as [Hs He]; try discriminate. rewrite Hs, He.
    destruct Hg as [[H4 H5] | (a & b & H4 & H5 & Sa & Sb)]; rewrite H4, H5;
      [left; auto | right; exists a, b; auto].
  - inversion Hf; subst. auto.
  - destruct Hse as [Hs He]; try discriminate. rewrite Hs, He.
    destruct Hg as [[H4 H5] | (a & b & H4 & H5 & Sa & Sb)]; rewrite H4, H5;
      [left; auto | right; exists a, b; auto].
  - destruct Hse as [Hs He]; try discriminate. rewrite Hs, He.
    destruct Hg as [[H4 H5] | (a & b & H4 & H5 & Sa & Sb)]; rewrite H4, H5;
      [left; auto | right; exists a, b; auto].
Qed.

Lemma X8_witness :
  exists mo i,
    Re.match_ Item._regexp "737 15:30--15:45 #" = Some mo /\
    Item.fromstring (Re.groups mo) paper = inr (Some i) /\
    ((Item.start i = Some PyNone /\ Item.end_ i = Some PyNone) \/
     (exists a b : string,
         Item.start i = Some (PyStr a) /\ Item.end_ i = Some (PyStr b) /\
         time_shaped a /\ time_shaped b)).
Proof.
  eassert (Hm : Re.match_ Item._regexp "737 15:30--15:45 #" = Some _)
    by (vm_compute; reflexivity).
  match type of Hm with
  | _ = Some ?m =>
      eassert (Hf : Item.fromstring (Re.groups m) paper = inr (Some _))
        by (vm_compute; reflexivity)
  end.
  do 2 eexists. split; [exact Hm|]. split; [exact Hf|].
  exact (X8_item_times_go_together _ _ paper _ Hm Hf).
Defined.

(** * Further properties of the metadata blob parser *)

Lemma mem_rev_acc (c : ascii) (s acc : string) :
  Str.mem c (Str.rev_acc s acc) = Str.mem c s || Str.mem c acc.
Proof.
  revert acc. induction s as [|a s IH]; intros acc; simpl; [reflexivity|].
  rewrite IH. simpl.
  destruct (Ascii.eqb c a), (Str.mem c s), (Str.mem c acc); reflexivity.
Qed.

Lemma mem_rev (c : ascii) (s : string) : Str.mem c (Str.rev s) = Str.mem c s.
Proof. unfold Str.rev. rewrite mem_rev_acc. simpl. apply orb_false_r. Qed.

Lemma mem_lstrip_by (c : ascii) (p : ascii -> bool) (s : string) :
  Str.mem c s = false -> Str.mem c (Str.lstrip_by p s) = false.
Proof.
  induction s as [|a s IH]; simpl; [auto|]. intros H.
  apply orb_false_elim in H. destruct H as [Ha Hs].
  destruct (p a); [exact (IH Hs)|]. simpl. rewrite Ha, Hs. reflexivity.
Qed.

Lemma mem_strip (c : ascii) (s : string) :
  Str.mem c s = false -> Str.mem c (Str.strip s) = false.
Proof.
  intros H. unfold Str.strip, Str.rstrip, Str.rstrip_by.
  rewrite mem_rev. apply mem_lstrip_by. rewrite mem_rev.
  apply mem_lstrip_by. exact H.
Qed.

Lemma metadata_regexp_needs_percent (c : ascii) (l : list ascii) :
  Ascii.eqb c "%" = false -> Re.match_list _METADATA_REGEXP (c :: l) = None.
Proof.
  intros H. unfold Re.match_list, _METADATA_REGEXP. simpl. rewrite H. reflexivity.
Qed.

Lemma findall_without_percent (s : string) :
  Str.mem "%" s = false ->
  forall skip, Re.findall_list _METADATA_REGEXP skip (list_ascii_of_string s) = [].
Proof.
  induction s as [|c s IH]; intros H skip; simpl; [reflexivity|].
  simpl in H. apply orb_false_elim in H. destruct H as [Hc Hs].
  destruct skip as [|skip]; [|exact (IH Hs skip)].
  rewrite metadata_regexp_needs_percent by (rewrite Ascii.eqb_sym; exact Hc).
  exact (IH Hs 0).
Qed.

(** X9: a metadata string without any [%] gives the empty dictionary; it
    is not an error. *)
Theorem X9_metadata_without_percent_is_empty (metadata_string : string) :
  Str.contains_char "%" metadata_string = false ->
  parse_metadata_into_dict metadata_string = [].
Proof.
  intros H. unfold parse_metadata_into_dict, findall_pairs. cbv zeta.
  rewrite findall_without_percent; [reflexivity|].
  apply mem_strip. exact H.
Qed.

Lemma X9_witness :
  Str.contains_char "%" "room Greenway" = false /\
  parse_metadata_into_dict "room Greenway" = [].
Proof.
  assert (H : Str.contains_char "%" "room Greenway" = false)
    by (vm_compute; reflexivity).
  split; [exact H|]. exact (X9_metadata_without_percent_is_empty _ H).
Defined.

Lemma findall_in (r : Re.regex) (caps : Re.captures) (l : list ascii) :
  forall skip,
    In caps (Re.findall_list r skip l) ->
    exists l' mo, Re.match_list r l' = Some mo /\ caps = Re.groups mo.
Proof.
  induction l as [|c l IH]; intros skip H; simpl in H; [contradiction|].
  destruct skip as [|skip]; [|exact (IH skip H)].
  destruct (Re.match_list r (c :: l)) as [mo|] eqn:E.
  - destruct H as [H | H]; [|exact (IH _ H)].
    exists (c :: l), mo. auto.
  - exact (IH 0 H).
Qed.

Lemma metadata_regexp_groups (l : list ascii) (mo : Re.match_object) :
  Re.match_list _METADATA_REGEXP l = Some mo ->
  exists k v : list ascii,
    Re.groups mo = [(2, v); (1, k)] /\
    forallb Str.not_space k = true /\ 1 <= length k /\
    forallb (Str.is_not "%") v = true /\ 1 <= length v.
Proof.
  intros H. apply match_list_sound in H. destruct H as [_ H].
  unfold _METADATA_REGEXP in H. simpl in H.
  repeat match goal with
         | H : exists _, _ |- _ => destruct H
         | H : _ /\ _ |- _ => destruct H
         end; subst.
  do 2 eexists. split; [eassumption|]. auto.
Qed.

(** X10: in the dictionary made from a metadata string, a key is never empty
    and has no whitespace in it, and a value is never empty and has no [%]
    in it. *)
Theorem X10_metadata_keys_and_values
        (metadata_string key value : string) :
  Dict.get (parse_metadata_into_dict metadata_string) key = Some value ->
  key <> EmptyString /\ Str.all Str.not_space key = true /\
  value <> EmptyString /\ Str.all (Str.is_not "%") value = true.
Proof.
  unfold parse_metadata_into_dict, Dict.of_pairs, findall_pairs. cbv zeta.
  intros H. apply get_update_from in H. destruct H as [H | H]; [discriminate|].
  apply in_map_iff in H. destruct H as (caps & Hkv & Hin).
  apply findall_in in Hin. destruct Hin as (l' & mo & Hm & Hcaps).
  apply metadata_regexp_groups in Hm.
  destruct Hm as (k & v & Hg & Hk & Hklen & Hv & Hvlen).
  subst caps. rewrite Hg in Hkv. unfold group_or_empty, Re.group in Hkv.
  simpl in Hkv. inversion Hkv; subst.
  repeat split.
  - apply nonempty_string_of_list. exact Hklen.
  - rewrite all_string_of_list. exact Hk.
  - apply nonempty_string_of_list. exact Hvlen.
  - rewrite all_string_of_list. exact Hv.
Qed.

Lemma X10_witness :
  Dict.get (parse_metadata_into_dict "# %room FOO %chair1 BAR BAZ") "room"
    = Some "FOO " /\
  "room" <> EmptyString /\ Str.all Str.not_space "room" = true /\
  "FOO " <> EmptyString /\ Str.all (Str.is_not "%") "FOO " = true.
Proof.
  assert (H : Dict.get (parse_metadata_into_dict "# %room FOO %chair1 BAR BAZ")
                "room" = Some "FOO ") by (vm_compute; reflexivity).
  split; [exact H|]. exact (X10_metadata_keys_and_values _ _ _ H).
Defined.

(** * Further properties of the metadata lookup *)

(** ** Keys of a dictionary *)

Lemma get_none_not_key {V} (d : Dict.dict V) (k : string) :
  Dict.get d k = None <-> ~ In k (keys d).
Proof.
  induction d as [|[k0 v0] d IH]; simpl; [tauto|].
  destruct (String.eqb k k0) eqn:E.
  - apply String.eqb_eq in E. subst. split; [discriminate | tauto].
  - apply String.eqb_neq in E. rewrite IH. split.
    + intros H [Heq | Hin]; [congruence | exact (H Hin)].
    + intros H Hin. apply H. auto.
Qed.

Lemma keys_set {V} (d : Dict.dict V) (k : string) (v : V) :
  keys (Dict.set d k v) =
  match Dict.get d k with
  | Some _ => keys d
  | None => keys d ++ [k]
  end.
Proof.
  induction d as [|[k0 v0] d IH]; simpl; [reflexivity|].
  destruct (String.eqb k k0) eqn:E; simpl; [reflexivity|].
  rewrite IH. destruct (Dict.get d k); reflexivity.
Qed.

Lemma set_nodup {V} (d : Dict.dict V) (k : string) (v : V) :
  NoDup (keys d) -> NoDup (keys (Dict.set d k v)).
Proof.
  intros H. rewrite keys_set. destruct (Dict.get d k) eqn:E; [exact H|].
  apply get_none_not_key in E.
  apply NoDup_app; [exact H | constructor; [intros [] | constructor] |].
  intros x Hx [Heq | []]. subst. exact (E Hx).
Qed.

Lemma update_nodup {V} (pairs : list (string * V)) :
  forall d : Dict.dict V, NoDup (keys d) -> NoDup (keys (Dict.update d pairs)).
Proof.
  unfold Dict.update.
  induction pairs as [|[k v] pairs IH]; intros d H; simpl; [exact H|].
  apply IH. apply set_nodup. exact H.
Qed.

Lemma in_get_nodup {V} (d : Dict.dict V) (k : string) (v : V) :
  NoDup (keys d) -> In (k, v) d -> Dict.get d k = Some v.
Proof.
  induction d as [|[k0 v0] d IH]; simpl; [contradiction|].
  intros Hnd [Heq | Hin].
  - inversion Heq; subst. rewrite String.eqb_refl. reflexivity.
  - inversion Hnd as [|? ? Hnot Hnd']; subst.
    destruct (String.eqb k k0) eqn:E; [|exact (IH Hnd' Hin)].
    apply String.eqb_eq in E. subst k0. exfalso. apply Hnot.
    change k with (fst (k, v)). apply in_map. exact Hin.
Qed.

(** After an update with the items of a dictionary, the items win. *)
Lemma get_update {V} (pairs : Dict.dict V) :
  NoDup (keys pairs) ->
  forall (d : Dict.dict V) (k : string),
    Dict.get (Dict.update d pairs) k =
    match Dict.get pairs k with
    | Some v => Some v
    | None => Dict.get d k
    end.
Proof.
  unfold Dict.update.
  induction pairs as [|[k0 v0] pairs IH]; intros Hnd d k; simpl; [reflexivity|].
  inversion Hnd as [|? ? Hnot Hnd']; subst.
  rewrite (IH Hnd'). rewrite get_set.
  destruct (String.eqb k k0) eqn:E; [|reflexivity].
  apply String.eqb_eq in E. subst k0.
  apply get_none_not_key in Hnot. rewrite Hnot. reflexivity.
Qed.

(** ** The id mapping file *)

Lemma parse_mapping_lines_bad (line : string) (lines : list string) :
  In line lines ->
  (forall anthology_id order_id,
      Str.split " " (Str.strip line) <> [anthology_id; order_id]) ->
  forall d, ScheduleMetadata.parse_mapping_lines d lines = inl ValueError.
Proof.
  intros Hin Hbad. induction lines as [|l lines IH]; [contradiction|].
  intros d. simpl.
  destruct (Str.split " " (Str.strip l)) as [|a [|o [|x rest]]] eqn:E;
    try reflexivity.
  destruct Hin as [Heq | Hin]; [|exact (IH Hin _)].
  subst l. exfalso. exact (Hbad a o E).
Qed.

(** X11: a mapping file with a line that does not consist of exactly two
    fields separated by one space, such as an empty line, cannot be read:
    [_parse_id_mapping_file] raises [ValueError]. *)
Theorem X11_mapping_line_needs_two_fields (line : string) (lines : list string) :
  In line lines ->
  (forall anthology_id order_id,
      Str.split " " (Str.strip line) <> [anthology_id; order_id]) ->
  ScheduleMetadata._parse_id_mapping_file lines = inl ValueError.
Proof.
  intros Hin Hbad. exact (parse_mapping_lines_bad line lines Hin Hbad []).
Qed.

Lemma X11_witness :
  In "" ["N19-1001 12"; ""] /\
  (forall anthology_id order_id,
      Str.split " " (Str.strip "") <> [anthology_id; order_id]) /\
  ScheduleMetadata._parse_id_mapping_file ["N19-1001 12"; ""] = inl ValueError.
Proof.
  assert (H1 : In "" ["N19-1001 12"; ""]) by (right; left; reflexivity).
  assert (H2 : forall anthology_id order_id,
             Str.split " " (Str.strip "") <> [anthology_id; order_id])
    by (intros a o; vm_compute; discriminate).
  split; [exact H1|]. split; [exact H2|].
  exact (X11_mapping_line_needs_two_fields "" _ H1 H2).
Defined.

Lemma parse_mapping_lines_from (lines : list string) :
  forall d d' order_id anthology_id,
    ScheduleMetadata.parse_mapping_lines d lines = inr d' ->
    Dict.get d' order_id = Some anthology_id ->
    Dict.get d order_id = Some anthology_id \/
    exists line, In line lines /\
                 Str.split " " (Str.strip line) = [anthology_id; order_id].
Proof.
  induction lines as [|l lines IH]; intros d d' o a H Hget; simpl in H.
  - inversion H; subst. auto.
  - destruct (Str.split " " (Str.strip l)) as [|a0 [|o0 [|x rest]]] eqn:E;
      try discriminate.
    destruct (IH _ _ _ _ H Hget) as [Hd | (line & Hin & Hl)].
    + rewrite get_set in Hd. destruct (String.eqb o o0) eqn:Eo; [|auto].
      apply String.eqb_eq in Eo. inversion Hd; subst.
      right. exists l. split; [left; reflexivity | exact E].
    + right. exists line. split; [right; exact Hin | exact Hl].
Qed.

Lemma parse_mapping_lines_nodup (lines : list string) :
  forall d d',
    ScheduleMetadata.parse_mapping_lines d lines = inr d' ->
    NoDup (keys d) -> NoDup (keys d').
Proof.
  induction lines as [|l lines IH]; intros d d' H Hnd; simpl in H.
  - inversion H; subst. exact Hnd.
  - destruct (Str.split " " (Str.strip l)) as [|a0 [|o0 [|x rest]]];
      try discriminate.
    apply (IH _ _ H). apply set_nodup. exact Hnd.
Qed.

(** X12: every entry of the dictionary read from a mapping file stems from
    a line of the file: the order id is the second field of that line and
    the anthology id the first. *)
Theorem X12_mapping_entries_come_from_lines
        (lines : list string) (d : Dict.dict string)
        (order_id anthology_id : string) :
  ScheduleMetadata._parse_id_mapping_file lines = inr d ->
  Dict.get d order_id = Some anthology_id ->
  exists line, In line lines /\
               Str.split " " (Str.strip line) = [anthology_id; order_id].
Proof.
  intros H Hget.
  destruct (parse_mapping_lines_from lines [] d order_id anthology_id H Hget)
    as [Hd | Hl]; [discriminate | exact Hl].
Qed.

Lemma X12_witness :
  ScheduleMetadata._parse_id_mapping_file ["N19-1001 12"; "N19-1002 15"] =
    inr [("12", "N19-1001"); ("15", "N19-1002")] /\
  exists line, In line ["N19-1001 12"; "N19-1002 15"] /\
               Str.split " " (Str.strip line) = ["N19-1002"; "15"].
Proof.
  assert (H : ScheduleMetadata._parse_id_mapping_file
                ["N19-1001 12"; "N19-1002 15"] =
              inr [("12", "N19-1001"); ("15", "N19-1002")])
    by (vm_compute; reflexivity).
  split; [exact H|].
  exact (X12_mapping_entries_come_from_lines _ _ "15" "N19-1002" H eq_refl).
Defined.

(** ** The non-anthology supplement *)

Lemma parse_rows_from (rows : list (Dict.dict pyval)) :
  forall d d' key tuple,
    ScheduleMetadata.parse_rows d rows = inr d' ->
    Dict.get d' key = Some tuple ->
    Dict.get d key = Some tuple \/
    exists row title authors,
      In row rows /\
      ScheduleMetadata.field row "paper_id" = inr key /\
      ScheduleMetadata.field row "title" = inr title /\
      ScheduleMetadata.field row "authors" = inr authors /\
      tuple = ScheduleMetadata.mkTuple title authors "" "".
Proof.
  induction rows as [|row rows IH]; intros d d' key tuple H Hget; simpl in H.
  - inversion H; subst. auto.
  - destruct (ScheduleMetadata.field row "title") as [e|title] eqn:Et;
      cbn [bind] in H; [discriminate|].
    destruct (ScheduleMetadata.field row "authors") as [e|authors] eqn:Ea;
      cbn [bind] in H; [discriminate|].
    destruct (ScheduleMetadata.field row "paper_id") as [e|k] eqn:Ek;
      cbn [bind] in H; [discriminate|].
    destruct (IH _ _ _ _ H Hget) as [Hd | (r & t & a & Hin & Hr)].
    + rewrite get_set in Hd. destruct (String.eqb key k) eqn:E; [|auto].
      apply String.eqb_eq in E. inversion Hd; subst.
      right. exists row, title, authors.
      split; [left; reflexivity|]. auto.
    + right. exists r, t, a. split; [right; exact Hin | exact Hr].
Qed.

Lemma parse_rows_nodup (rows : list (Dict.dict pyval)) :
  forall d d',
    ScheduleMetadata.parse_rows d rows = inr d' ->
    NoDup (keys d) -> NoDup (keys d').
Proof.
  induction rows as [|row rows IH]; intros d d' H Hnd; simpl in H.
  - inversion H; subst. exact Hnd.
  - bind_inv H. apply (IH _ _ H). apply set_nodup. exact Hnd.
Qed.

(** X13: every entry read from the non-anthology file stems from a row of
    the file: its key is the stripped [paper_id] of the row, its title and
    authors are the stripped fields of that row, and its abstract and its
    anthology link are empty. *)
Theorem X13_supplement_entries_come_from_rows
        (rows : list (Dict.dict pyval))
        (d : Dict.dict ScheduleMetadata.MetadataTuple)
        (key : string) (tuple : ScheduleMetadata.MetadataTuple) :
  ScheduleMetadata._parse_non_anthology_file rows = inr d ->
  Dict.get d key = Some tuple ->
  exists row title authors,
    In row rows /\
    ScheduleMetadata.field row "paper_id" = inr key /\
    ScheduleMetadata.field row "title" = inr title /\
    ScheduleMetadata.field row "authors" = inr authors /\
    tuple = ScheduleMetadata.mkTuple title authors "" "".
Proof.
  intros H Hget.
  destruct (parse_rows_from rows [] d key tuple H Hget) as [Hd | Hr];
    [discriminate | exact Hr].
Qed.

Lemma X13_witness :
  let row := [("paper_id", PyStr " 77 "); ("title", PyStr " A Talk ");
              ("authors", PyStr "Ada Lovelace")] in
  let tuple := ScheduleMetadata.mkTuple "A Talk" "Ada Lovelace" "" "" in
  ScheduleMetadata._parse_non_anthology_file [row] = inr [("77", tuple)] /\
  exists r title authors,
    In r [row] /\
    ScheduleMetadata.field r "paper_id" = inr "77" /\
    ScheduleMetadata.field r "title" = inr title /\
    ScheduleMetadata.field r "authors" = inr authors /\
    tuple = ScheduleMetadata.mkTuple title authors "" "".
Proof.
  intros row tuple.
  assert (H : ScheduleMetadata._parse_non_anthology_file [row]
              = inr [("77", tuple)]) by (vm_compute; reflexivity).
  split; [exact H|].
  exact (X13_supplement_entries_come_from_rows [row] _ "77" tuple H eq_refl).
Defined.

(** ** The metadata object as a whole *)

Lemma update_mappings_nodup (mappings : list (list string)) :
  forall d d',
    ScheduleMetadata.update_mappings d mappings = inr d' ->
    NoDup (keys d) -> NoDup (keys d').
Proof.
  induction mappings as [|m mappings IH]; intros d d' H Hnd; simpl in H.
  - inversion H; subst. exact Hnd.
  - destruct (ScheduleMetadata._parse_id_mapping_file m) as [e|pairs];
      cbn [bind] in H; [discriminate|].
    apply (IH _ _ H). apply update_nodup. exact Hnd.
Qed.

(** The parts [fromfiles] puts together. *)
Lemma fromfiles_parts (xmls : list (string * list ScheduleMetadata.paper_tag))
      (mappings : list (list string))
      (tsv : option (list (Dict.dict pyval))) (md : ScheduleMetadata.t) :
  ScheduleMetadata.fromfiles xmls mappings tsv = inr md ->
  exists mapping anthology bridged,
    ScheduleMetadata.update_mappings [] mappings = inr mapping /\
    ScheduleMetadata.update_xmls [] xmls = inr anthology /\
    ScheduleMetadata.bridge anthology [] mapping = inr bridged /\
    NoDup (keys mapping) /\
    ScheduleMetadata._order_id_to_anthology_id_dict md = mapping /\
    ScheduleMetadata._anthology_id_to_order_id_dict md =
      ScheduleMetadata.invert mapping /\
    match tsv with
    | Some rows =>
        exists m, ScheduleMetadata._parse_non_anthology_file rows = inr m /\
                  NoDup (keys m) /\
                  ScheduleMetadata._order_id_to_metadata_dict md =
                    Dict.update bridged m
    | None => ScheduleMetadata._order_id_to_metadata_dict md = bridged
    end.
Proof.
  unfold ScheduleMetadata.fromfiles. intros H.
  destruct (ScheduleMetadata.update_mappings [] mappings) as [e|mapping] eqn:Em;
    cbn [bind] in H; [discriminate|].
  destruct (ScheduleMetadata.update_xmls [] xmls) as [e|anthology] eqn:Ex;
    cbn [bind] in H; [discriminate|].
  destruct (ScheduleMetadata.bridge anthology [] mapping) as [e|bridged] eqn:Eb;
    cbn [bind] in H; [discriminate|].
  exists mapping, anthology, bridged.
  assert (Hnd : NoDup (keys mapping)).
  { apply (update_mappings_nodup _ _ _ Em). constructor. }
  destruct tsv as [rows|].
  - destruct (ScheduleMetadata._parse_non_anthology_file rows) as [e|m] eqn:Er;
      cbn [bind ret] in H; [discriminate|].
    inversion H; subst. simpl. repeat split; auto.
    exists m. repeat split; auto.
    apply (parse_rows_nodup _ _ _ Er). constructor.
  - cbn [bind ret] in H. inversion H; subst. simpl. repeat split; auto.
Qed.


(** X14: when a non-anthology file is given, its entries take precedence:
    an order id of that file is looked up with the tuple of that file, even
    when a mapping file leads from the same order id to anthology
    metadata. *)
Theorem X14_supplement_takes_precedence
        (xmls : list (string * list ScheduleMetadata.paper_tag))
        (mappings : list (list string)) (rows : list (Dict.dict pyval))
        (md : ScheduleMetadata.t) :
  ScheduleMetadata.fromfiles xmls mappings (Some rows) = inr md ->
  exists m,
    ScheduleMetadata._parse_non_anthology_file rows = inr m /\
    forall key tuple,
      Dict.get m key = Some tuple ->
      Dict.get (ScheduleMetadata._order_id_to_metadata_dict md) key = Some tuple.
Proof.
  intros H. apply fromfiles_parts in H.
  destruct H as (mapping & anthology & bridged & _ & _ & _ & _ & _ & _ &
                 m & Hm & Hnd & Hmeta).
  exists m. split; [exact Hm|]. intros key tuple Hget.
  rewrite Hmeta, (get_update m Hnd), Hget. reflexivity.
Qed.

Lemma X14_witness :
  let tag := ScheduleMetadata.mkPaper (Some "1001") (Some "A Title")
               (Some "An abstract.")
               (Some "https://aclweb.org/anthology/N19-1001") [] in
  let row := [("paper_id", PyStr "12"); ("title", PyStr "Another Title");
              ("authors", PyStr "Ada Lovelace")] in
  let tuple := ScheduleMetadata.mkTuple "Another Title" "Ada Lovelace" "" "" in
  exists md,
    ScheduleMetadata.fromfiles [("N19", [tag])] [["N19-1001 12"]] (Some [row])
      = inr md /\
    exists m,
      ScheduleMetadata._parse_non_anthology_file [row] = inr m /\
      forall key t,
        Dict.get m key = Some t ->
        Dict.get (ScheduleMetadata._order_id_to_metadata_dict md) key = Some t.
Proof.
  intros tag row tuple.
  eassert (H : ScheduleMetadata.fromfiles [("N19", [tag])] [["N19-1001 12"]]
                 (Some [row]) = inr _) by (vm_compute; reflexivity).
  eexists. split; [exact H|].
  exact (X14_supplement_takes_precedence _ _ _ _ H).
Defined.

(** X15: the two id dictionaries of a metadata object agree: when the
    anthology id [a] leads to the order id [o], the order id [o] leads back
    to [a]; and looking up [a] gives what the metadata dictionary has for
    [o]. *)
Theorem X15_anthology_id_leads_to_its_order_id
        (xmls : list (string * list ScheduleMetadata.paper_tag))
        (mappings : list (list string))
        (tsv : option (list (Dict.dict pyval))) (md : ScheduleMetadata.t)
        (anthology_id order_id : string) :
  ScheduleMetadata.fromfiles xmls mappings tsv = inr md ->
  Dict.get (ScheduleMetadata._anthology_id_to_order_id_dict md) anthology_id
    = Some order_id ->
  Dict.get (ScheduleMetadata._order_id_to_anthology_id_dict md) order_id
    = Some anthology_id /\
  (ScheduleMetadata.looks_like_anthology_id anthology_id = inr true ->
   ScheduleMetadata.__getitem__ md anthology_id =
   Dict.getitem (ScheduleMetadata._order_id_to_metadata_dict md) order_id).
Proof.
  intros H Hget. pose proof (fromfiles_parts _ _ _ _ H) as Hparts.
  destruct Hparts as (mapping & anthology & bridged & _ & _ & _ & Hnd &
                      Hmap & Hinv & _).
  split.
  - rewrite Hinv in Hget. unfold ScheduleMetadata.invert, Dict.of_pairs in Hget.
    apply get_update_from in Hget. destruct Hget as [Hget | Hin]; [discriminate|].
    apply in_map_iff in Hin. destruct Hin as [[o a] [Heq Hin]].
    simpl in Heq. inversion Heq; subst o a.
    rewrite Hmap. exact (in_get_nodup mapping _ _ Hnd Hin).
  - intros Hlooks. unfold ScheduleMetadata.__getitem__. rewrite Hlooks.
    cbn [bind]. unfold Dict.getitem at 1. rewrite Hget. reflexivity.
Qed.

Lemma X15_witness :
  let tag := ScheduleMetadata.mkPaper (Some "1001") (Some "A Title") None
               (Some "https://aclweb.org/anthology/N19-1001") [] in
  let tuple := ScheduleMetadata.mkTuple "A Title" "" ""
                 "https://aclweb.org/anthology/N19-1001" in
  let md := ScheduleMetadata.mk [("12", tuple)] [("12", "N19-1001")]
              [("N19-1001", "12")] in
  ScheduleMetadata.fromfiles [("N19", [tag])] [["N19-1001 12"]] None = inr md /\
  Dict.get (ScheduleMetadata._order_id_to_anthology_id_dict md) "12"
    = Some "N19-1001" /\
  (ScheduleMetadata.looks_like_anthology_id "N19-1001" = inr true ->
   ScheduleMetadata.__getitem__ md "N19-1001" =
   Dict.getitem (ScheduleMetadata._order_id_to_metadata_dict md) "12").
Proof.
  intros tag tuple md.
  assert (H : ScheduleMetadata.fromfiles [("N19", [tag])] [["N19-1001 12"]] None
              = inr md) by (vm_compute; reflexivity).
  split; [exact H|].
  exact (X15_anthology_id_leads_to_its_order_id _ _ _ md "N19-1001" "12" H eq_refl).
Defined.



(** * Further properties of the entities *)

(** ** Strings without whitespace *)

Lemma all_rev_acc (p : ascii -> bool) (s acc : string) :
  Str.all p (Str.rev_acc s acc) = Str.all p s && Str.all p acc.
Proof.
  revert acc. induction s as [|a s IH]; intros acc; simpl; [reflexivity|].
  rewrite IH. simpl.
  destruct (p a), (Str.all p s), (Str.all p acc); reflexivity.
Qed.

Lemma rev_acc_rev_acc (s : string) :
  forall acc b, Str.rev_acc (Str.rev_acc s acc) b = Str.rev_acc acc (s ++ b)%string.
Proof.
  induction s as [|a s IH]; intros acc b; simpl; [reflexivity|].
  rewrite IH. reflexivity.
Qed.

Lemma rev_rev (s : string) : Str.rev (Str.rev s) = s.
Proof.
  unfold Str.rev. rewrite rev_acc_rev_acc. simpl.
  induction s as [|a s IH]; simpl; [reflexivity | now rewrite IH].
Qed.

Lemma lstrip_no_space (s : string) :
  Str.all Str.not_space s = true -> Str.lstrip_by Str.is_space s = s.
Proof.
  destruct s as [|c s]; simpl; [reflexivity|]. intros H.
  apply andb_prop in H. destruct H as [Hc _].
  unfold Str.not_space in Hc. apply negb_true_iff in Hc. rewrite Hc. reflexivity.
Qed.

Lemma strip_no_space (s : string) :
  Str.all Str.not_space s = true -> Str.strip s = s.
Proof.
  intros H. unfold Str.strip, Str.rstrip, Str.rstrip_by.
  rewrite (lstrip_no_space s H).
  rewrite lstrip_no_space; [apply rev_rev|].
  unfold Str.rev. rewrite all_rev_acc, H. reflexivity.
Qed.

Lemma digit_not_space (c : ascii) :
  Str.is_digit c = true -> Str.not_space c = true.
Proof.
  destruct c as [[] [] [] [] [] [] [] []]; vm_compute; congruence.
Qed.

Lemma time_no_space (h m : list ascii) :
  forallb Str.is_digit h = true -> forallb Str.is_digit m = true ->
  Str.all Str.not_space (string_of_list_ascii (h ++ ":"%char :: m)) = true.
Proof.
  intros Hh Hm. rewrite all_string_of_list, forallb_app. simpl.
  assert (Hall : forall l, forallb Str.is_digit l = true ->
                           forallb Str.not_space l = true).
  { induction l as [|c l IH]; simpl; [reflexivity|]. intros H.
    apply andb_prop in H. destruct H as [Hc Hl].
    rewrite (digit_not_space c Hc), (IH Hl). reflexivity. }
  rewrite (Hall h Hh), (Hall m Hm). reflexivity.
Qed.

(** The text of a time group, stripped, is the text itself. *)
Lemma strip_time (h m : list ascii) :
  forallb Str.is_digit h = true -> 1 <= length h <= 2 ->
  forallb Str.is_digit m = true -> length m = 2 ->
  Str.strip (string_of_list_ascii (h ++ ":"%char :: m)) =
    string_of_list_ascii (h ++ ":"%char :: m) /\
  time_shaped (string_of_list_ascii (h ++ ":"%char :: m)).
Proof.
  intros Hh Hhl Hm Hml. split.
  - apply strip_no_space. apply time_no_space; assumption.
  - exists h, m. auto.
Qed.

(** ** Sessions *)

Lemma plenary_regexp_times (l : list ascii) (mo : Re.match_object) :
  Re.match_list Session._plenary_regexp l = Some mo ->
  exists h1 m1 h2 m2 : list ascii,
    Re.lookup 1 (Re.groups mo) = Some (h1 ++ ":"%char :: m1) /\
    Re.lookup 2 (Re.groups mo) = Some (h2 ++ ":"%char :: m2) /\
    (forallb Str.is_digit h1 = true /\ 1 <= length h1 <= 2 /\
     forallb Str.is_digit m1 = true /\ length m1 = 2) /\
    (forallb Str.is_digit h2 = true /\ 1 <= length h2 <= 2 /\
     forallb Str.is_digit m2 = true /\ length m2 = 2).
Proof.
  intros H. apply match_list_sound in H. destruct H as [_ H].
  unfold Session._plenary_regexp, Session.title_metadata, Session.not_hash_plus,
    time_re in H. simpl in H.
  repeat match goal with
         | H : exists _, _ |- _ => destruct H
         | H : _ /\ _ |- _ => destruct H
         | H : _ \/ _ |- _ => destruct H
         end; subst;
  match goal with H : Re.groups mo = _ |- _ => rewrite H end; simpl.
  all: do 4 eexists; split; [reflexivity|]; split; [reflexivity|];
    repeat split; auto; lia.
Qed.

Lemma startswith_char (c d : ascii) (line : string) :
  Str.startswith (String c (String d EmptyString)) line = true ->
  Str.startswith (String c EmptyString) line = true.
Proof.
  unfold Str.startswith. destruct line as [|a line]; simpl; [discriminate|].
  destruct (ascii_dec c a); [|discriminate]. intros _.
  destruct line; reflexivity.
Qed.

Lemma startswith_other (c c' d : ascii) (line : string) :
  c <> c' ->
  Str.startswith (String c (String d EmptyString)) line = true ->
  Str.startswith (String c' EmptyString) line = false.
Proof.
  unfold Str.startswith. intros Hne. destruct line as [|a line]; simpl;
    [discriminate|].
  destruct (ascii_dec c a); [|discriminate]. subst a. intros _.
  destruct (ascii_dec c' c); [congruence | reflexivity].
Qed.

(** X17: only plenary and break sessions carry times.  A session made from
    a line that starts with [!] has type [plenary] or [break], no id, and a
    start and an end of the shape of a time of day; a session made from a
    line that starts with [=] has one of the other four types and an empty
    start and end.  Either way it has no items yet. *)
Theorem X17_session_times_and_types (line : string) (s : Session.t) :
  Session.fromstring line = inr (Some s) ->
  Session.items s = [] /\
  if Str.startswith "!" line
  then plenary_or_break (Session.type s) = true /\ Session.id_ s = "" /\
       time_shaped (Session.start s) /\ time_shaped (Session.end_ s)
  else plenary_or_break (Session.type s) = false /\
       Session.start s = "" /\ Session.end_ s = "".
Proof.
  intros H. split; [exact (session_fromstring_items line s H)|].
  unfold Session.fromstring in H.
  destruct (Str.startswith "!" line).
  - destruct (Re.match_ Session._plenary_regexp line) as [mo|] eqn:Em;
      cbn [groups_of bind ret raise] in H; [|discriminate].
    unfold Re.match_ in Em. apply plenary_regexp_times in Em.
    destruct Em as (h1 & m1 & h2 & m2 & H1 & H2 & (A1 & A2 & A3 & A4) &
                    (B1 & B2 & B3 & B4)).
    destruct (strip_time h1 m1 A1 A2 A3 A4) as [S1 T1].
    destruct (strip_time h2 m2 B1 B2 B3 B4) as [S2 T2].
    assert (G1 : grp 1 (Re.groups mo) =
                 PyStr (string_of_list_ascii (h1 ++ ":"%char :: m1)))
      by (unfold grp, Re.group; rewrite H1; reflexivity).
    assert (G2 : grp 2 (Re.groups mo) =
                 PyStr (string_of_list_ascii (h2 ++ ":"%char :: m2)))
      by (unfold grp, Re.group; rewrite H2; reflexivity).
    rewrite G1, G2 in H.
    destruct (py_lower (grp 3 (Re.groups mo))) as [e|lowered];
      cbn [bind ret] in H; [discriminate|].
    destruct (py_strip (grp 3 (Re.groups mo))) as [e|title];
      cbn [bind ret py_strip] in H; [discriminate|].
    rewrite S1, S2 in H. inversion H; subst. simpl.
    repeat split; try assumption.
    destruct (Re.search Session.break_re lowered); reflexivity.
  - destruct (Str.startswith "=" line); [|discriminate].
    destruct (Str.startswith "= Session" line).
    + bind_inv H; inversion H; subst; cbn [Session.type Session.start Session.end_];
        split; [|auto];
        match goal with |- context [if ?b then _ else _] => destruct b end;
        reflexivity.
    + bind_inv H; inversion H; subst; cbn [Session.type Session.start Session.end_];
        split; [|auto];
        match goal with |- context [if ?b then _ else _] => destruct b end;
        reflexivity.
Qed.

Lemma X17_witness :
  Session.fromstring "! 12:30--14:00 Lunch Break" =
    inr (Some (Session.mk "" "Lunch Break" break "" "" "12:30" "14:00" [])) /\
  plenary_or_break break = true /\
  time_shaped "12:30" /\ time_shaped "14:00".
Proof.
  assert (H : Session.fromstring "! 12:30--14:00 Lunch Break" =
              inr (Some (Session.mk "" "Lunch Break" break "" "" "12:30" "14:00" [])))
    by (vm_compute; reflexivity).
  split; [exact H|].
  destruct (X17_session_times_and_types _ _ H) as [_ (Hpb & _ & T1 & T2)].
  auto.
Defined.

(** ** Session groups *)

Lemma group_regexp_times (l : list ascii) (mo : Re.match_object) :
  Re.match_list SessionGroup._regexp l = Some mo ->
  exists h1 m1 h2 m2 : list ascii,
    Re.lookup 1 (Re.groups mo) = Some (h1 ++ ":"%char :: m1) /\
    Re.lookup 2 (Re.groups mo) = Some (h2 ++ ":"%char :: m2) /\
    (forallb Str.is_digit h1 = true /\ 1 <= length h1 <= 2 /\
     forallb Str.is_digit m1 = true /\ length m1 = 2) /\
    (forallb Str.is_digit h2 = true /\ 1 <= length h2 <= 2 /\
     forallb Str.is_digit m2 = true /\ length m2 = 2).
Proof.
  intros H. apply match_list_sound in H. destruct H as [_ H].
  unfold SessionGroup._regexp, time_re in H. simpl in H.
  repeat match goal with
         | H : exists _, _ |- _ => destruct H
         | H : _ /\ _ |- _ => destruct H
         end; subst;
  match goal with H : Re.groups mo = _ |- _ => rewrite H end; simpl.
  do 4 eexists; split; [reflexivity|]; split; [reflexivity|];
    repeat split; auto; lia.
Qed.

(** X18: a session group made from a line has no sessions yet, and its
    start and its end have the shape of a time of day. *)
Theorem X18_session_group_times (line : string) (g : SessionGroup.t) :
  SessionGroup.fromstring line = inr g ->
  SessionGroup.sessions g = [] /\
  time_shaped (SessionGroup.start g) /\ time_shaped (SessionGroup.end_ g).
Proof.
  intros H. split; [exact (group_fromstring_sessions line g H)|].
  unfold SessionGroup.fromstring in H. cbv zeta in H.
  destruct (Re.match_ SessionGroup._regexp (Str.lstrip_chars "+ " line))
    as [mo|] eqn:Em; cbn [groups_of bind ret raise] in H; [|discriminate].
  unfold Re.match_ in Em. apply group_regexp_times in Em.
  destruct Em as (h1 & m1 & h2 & m2 & H1 & H2 & (A1 & A2 & A3 & A4) &
                  (B1 & B2 & B3 & B4)).
  destruct (strip_time h1 m1 A1 A2 A3 A4) as [S1 T1].
  destruct (strip_time h2 m2 B1 B2 B3 B4) as [S2 T2].
  assert (G1 : grp 1 (Re.groups mo) =
               PyStr (string_of_list_ascii (h1 ++ ":"%char :: m1)))
    by (unfold grp, Re.group; rewrite H1; reflexivity).
  assert (G2 : grp 2 (Re.groups mo) =
               PyStr (string_of_list_ascii (h2 ++ ":"%char :: m2)))
    by (unfold grp, Re.group; rewrite H2; reflexivity).
  rewrite G1, G2 in H.
  destruct (py_strip (grp 3 (Re.groups mo))) as [e|title];
    cbn [bind ret py_strip] in H; [discriminate|].
  rewrite S1, S2 in H. inversion H; subst. simpl. auto.
Qed.

Lemma X18_witness :
  SessionGroup.fromstring "+ 11:00--12:30 Oral Sessions" =
    inr (SessionGroup.mk "Oral Sessions" [] "11:00" "12:30") /\
  time_shaped "11:00" /\ time_shaped "12:30".
Proof.
  assert (H : SessionGroup.fromstring "+ 11:00--12:30 Oral Sessions" =
              inr (SessionGroup.mk "Oral Sessions" [] "11:00" "12:30"))
    by (vm_compute; reflexivity).
  split; [exact H|].
  destruct (X18_session_group_times _ _ H) as [_ [T1 T2]]. auto.
Defined.

(** ** When the commit step fails *)

(** X19: [update_states] fails only for want of an open day: every failure
    is an [AttributeError] and happens with [current_day] still [None];
    with an open day the call always succeeds. *)
Theorem X19_update_states_fails_only_without_a_day
        (self : Agenda.t) (day : option Day.t) (group : option SessionGroup.t)
        (session : option Session.t) (item : option Item.t)
        (save_session save_group save_day : bool) (e : exn) :
  Agenda.update_states self (day, group, session, item)
                       save_session save_group save_day = inl e ->
  e = AttributeError /\ day = None.
Proof.
  unfold Agenda.update_states. intros H.
  destruct day as [d|], item as [i|], session as [s|], save_session,
    group as [g|], save_group, save_day;
    cbn [bind ret raise Agenda.day_add negb] in H;
    repeat match type of H with
           | context [plenary_or_break ?t] =>
               destruct (plenary_or_break t);
               cbn [bind ret raise Agenda.day_add negb] in H
           end;
    try discriminate; inversion H; auto.
Qed.

Lemma X19_witness :
  Agenda.update_states Agenda.init (None, None, Some keynote, None)
                       true true true = inl AttributeError /\
  AttributeError = AttributeError /\ @None Day.t = None.
Proof.
  assert (H : Agenda.update_states Agenda.init (None, None, Some keynote, None)
                true true true = inl AttributeError) by reflexivity.
  split; [exact H|].
  exact (X19_update_states_fails_only_without_a_day _ _ _ _ _ _ _ _ _ H).
Defined.

(** * The sessions of the agenda and the session lines of the file *)

Lemma session_of_line_same (l l' : list Session.t) (hs : list string) :
  map without_items l' = map without_items l ->
  Forall2 session_of_line l hs -> Forall2 session_of_line l' hs.
Proof.
  intros Hmap H. revert l' Hmap.
  induction H as [|s raw l hs Hs Hl IH]; intros l' Hmap.
  - destruct l'; [constructor | discriminate].
  - destruct l' as [|s' l']; [discriminate|]. simpl in Hmap.
    unfold session_of_line in *.
    remember (without_items s') as w' eqn:Ew'.
    remember (without_items s) as w eqn:Ew.
    inversion Hmap as [[Hhead Htail]].
    constructor; [|exact (IH l' Htail)].
    rewrite <- Ew', Hhead. exact Hs.
Qed.

(** What [update_states] does to the sessions held: none is lost, none is
    doubled, and they keep their order, as long as no session group is open
    together with a plenary or break session.  What was saved is then held by
    its parent. *)
Lemma update_states_held (self self' : Agenda.t) (d : Day.t)
      (day' : option Day.t) (group group' : option SessionGroup.t)
      (session session' : option Session.t) (item item' : option Item.t)
      (save_session save_group save_day : bool) :
  Agenda.update_states self (Some d, group, session, item)
                       save_session save_group save_day =
    inr (self', (day', group', session', item')) ->
  (forall s, session = Some s -> plenary_or_break (Session.type s) = true ->
             group = None) ->
  map without_items
    (held_sessions self'
       (if save_day then None else day')
       (if save_group then None else group')
       (if save_session then None else session')) =
  map without_items (held_sessions self (Some d) group session).
Proof.
  unfold Agenda.update_states. intros H Hpb.
  destruct item as [i|], session as [s|], save_session,
    group as [g|], save_group, save_day;
    cbn [bind ret Agenda.day_add negb] in H;
    repeat match type of H with
           | context [plenary_or_break ?t] =>
               let E := fresh "E" in
               destruct (plenary_or_break t) eqn:E;
               cbn [bind ret Agenda.day_add negb] in H
           end;
    try discriminate;
    try (specialize (Hpb _ eq_refl); simpl in *;
         match goal with
         | Hx : True -> _ |- _ => idtac
         | _ => idtac
         end);
    try (exfalso;
         match goal with
         | E : plenary_or_break _ = true |- _ =>
             simpl in E; specialize (Hpb E); discriminate
         end);
    inversion H; subst;
    unfold held_sessions, sessions_of_agenda, sessions_of_opt_day,
      sessions_of_day, Day.add, SessionGroup.add, Session.add;
    repeat first [ rewrite flat_map_app | rewrite map_app | rewrite app_nil_r
                 | rewrite <- app_assoc | progress simpl ];
    reflexivity.
Qed.

Lemma startswith2_other (c c' d d' : ascii) (line : string) :
  c <> c' ->
  Str.startswith (String c (String d EmptyString)) line = true ->
  Str.startswith (String c' (String d' EmptyString)) line = false.
Proof.
  unfold Str.startswith. intros Hne. destruct line as [|a line]; simpl;
    [discriminate|].
  destruct (ascii_dec c a); [|discriminate]. subst a. intros _.
  destruct (ascii_dec c' c); [congruence | reflexivity].
Qed.

Lemma startswith2_nonempty (c d : ascii) (line : string) :
  Str.startswith (String c (String d EmptyString)) line = true ->
  Str.is_empty line = false.
Proof. destruct line; [discriminate | reflexivity]. Qed.

(** On a line with one of the two session sigils [Session.fromstring] gives
    a session, with no items. *)
Lemma session_fromstring_some (line : string) (session : option Session.t) :
  Session.fromstring line = inr session ->
  Str.startswith "!" line = true \/ Str.startswith "=" line = true ->
  exists s, session = Some s /\ without_items s = s.
Proof.
  intros H Hsig.
  assert (Hsome : exists s, session = Some s).
  { unfold Session.fromstring in H.
    destruct (Str.startswith "!" line).
    - bind_inv H; inversion H; eauto.
    - destruct (Str.startswith "=" line); [|destruct Hsig; discriminate].
      destruct (Str.startswith "= Session" line); bind_inv H; inversion H; eauto. }
  destruct Hsome as [s Hs]. subst session. exists s. split; [reflexivity|].
  pose proof (session_fromstring_items line s H) as Hitems.
  destruct s; simpl in *. subst. reflexivity.
Qed.

Lemma session_fromstring_not_plenary (line : string) (s : Session.t) :
  Session.fromstring line = inr (Some s) ->
  Str.startswith "!" line = false ->
  plenary_or_break (Session.type s) = false.
Proof.
  unfold Session.fromstring. intros H Hbang. rewrite Hbang in H.
  destruct (Str.startswith "=" line); [|discriminate].
  destruct (Str.startswith "= Session" line); bind_inv H; inversion H; subst;
    cbn [Session.type];
    match goal with |- context [if ?b then _ else _] => destruct b end;
    reflexivity.
Qed.

Lemma update_states_keeps_day (self self' : Agenda.t) (d : Day.t)
      (day' : option Day.t) (group group' : option SessionGroup.t)
      (session session' : option Session.t) (item item' : option Item.t)
      (save_session save_group save_day : bool) :
  Agenda.update_states self (Some d, group, session, item)
                       save_session save_group save_day =
    inr (self', (day', group', session', item')) ->
  day' <> None.
Proof.
  intros H. apply update_states_days in H. destruct H as [H _].
  destruct day'; [discriminate | simpl in H; discriminate].
Qed.

Ltac commit_held H Hpb :=
  match type of H with
  | context [Agenda.update_states ?a ?t ?x ?y ?z] =>
      let E := fresh "Eu" in
      destruct (Agenda.update_states a t x y z)
        as [?e | [?self' [[[?day' ?group'] ?session'] ?item']]] eqn:E;
      cbn [bind ret] in H; [discriminate|];
      pose proof (update_states_keeps_day _ _ _ _ _ _ _ _ _ _ _ _ _ E) as ?Hday;
      apply update_states_held in E; [|exact Hpb]
  end.

Lemma sessions_follow_add (held held' : list Session.t) (hs : list string)
      (line raw : string) (session : option Session.t) :
  Forall2 session_of_line held hs ->
  map without_items held' = map without_items held ->
  line = Str.strip raw ->
  Session.fromstring line = inr session ->
  Str.startswith "!" line = true \/ Str.startswith "=" line = true ->
  Forall2 session_of_line
    (held' ++ match session with Some s => [s] | None => [] end) (hs ++ [raw]).
Proof.
  intros HF Hmap Hline Hs Hsig.
  destruct (session_fromstring_some line session Hs Hsig) as (s & Hsome & Hw).
  subst session. apply Forall2_app.
  - exact (session_of_line_same held held' hs Hmap HF).
  - constructor; [|constructor]. unfold session_of_line.
    rewrite Hw, <- Hline. exact Hs.
Qed.

Lemma held_sessions_last (self : Agenda.t) (day : option Day.t)
      (group : option SessionGroup.t) (session : option Session.t) :
  held_sessions self day group session =
  held_sessions self day group None ++
  match session with Some s => [s] | None => [] end.
Proof.
  unfold held_sessions. rewrite app_nil_r, <- !app_assoc. reflexivity.
Qed.

Ltac open_follow :=
  unfold sessions_follow;
  cbn [Agenda.self Agenda.current_day Agenda.current_session_group
       Agenda.current_session];
  split; [|split].

Lemma process_line_sessions (st st' : Agenda.state) (raw : string)
      (hs : list string) :
  sessions_follow st hs -> Agenda.process_line st raw = inr st' ->
  sessions_follow st' (hs ++ if is_session_line raw then [raw] else []).
Proof.
  intros (HF & Hday & Hpb) H. unfold Agenda.process_line in H. cbv zeta in H.
  unfold Agenda.tuple_of in H. unfold is_session_line.
  remember (Str.strip raw) as line eqn:Hline.
  destruct (Agenda.current_day st) as [d|] eqn:Ed; [clear Hday|congruence].
  destruct (Str.is_empty line) eqn:Eempty.
  { destruct line; [|discriminate]. inversion H; subst st'. simpl.
    rewrite app_nil_r. unfold sessions_follow. rewrite Ed.
    repeat split; [exact HF | discriminate | exact Hpb]. }
  destruct (Str.startswith "* " line) eqn:Estar.
  { rewrite (startswith2_other "*" "!" " " " " line) by (discriminate || exact Estar).
    rewrite (startswith2_other "*" "=" " " " " line) by (discriminate || exact Estar).
    simpl. rewrite app_nil_r.
    commit_held H Hpb.
    destruct (Day.fromstring line) as [e|day] eqn:Eday; cbn [bind ret] in H;
      [discriminate|].
    inversion H; subst st'. open_follow; [|discriminate|discriminate].
    apply (session_of_line_same _ _ hs) with (2 := HF).
    rewrite <- Eu. unfold held_sessions. simpl.
    unfold sessions_of_day. rewrite (day_fromstring_contents _ _ Eday). simpl.
    rewrite !app_nil_r. reflexivity. }
  destruct (Str.startswith "! " line) eqn:Ebang.
  { simpl. commit_held H Hpb.
    destruct (Session.fromstring line) as [e|session] eqn:Es; cbn [bind ret] in H;
      [discriminate|].
    inversion H; subst st'. open_follow; [|assumption|reflexivity].
    rewrite held_sessions_last.
    apply (sessions_follow_add _ _ hs line raw session HF); auto.
    left. exact (startswith_char "!" " " line Ebang). }
  destruct (Str.startswith "+ " line) eqn:Eplus.
  { rewrite (startswith2_other "+" "=" " " " " line) by (discriminate || exact Eplus).
    simpl. rewrite app_nil_r.
    commit_held H Hpb.
    destruct (SessionGroup.fromstring line) as [e|group] eqn:Eg; cbn [bind ret] in H;
      [discriminate|].
    inversion H; subst st'. open_follow; [|assumption|discriminate].
    apply (session_of_line_same _ _ hs) with (2 := HF).
    rewrite <- Eu. unfold held_sessions. simpl.
    rewrite (group_fromstring_sessions _ _ Eg). reflexivity. }
  destruct (Str.startswith "= " line) eqn:Eeq.
  { simpl. commit_held H Hpb.
    destruct (Session.fromstring line) as [e|session] eqn:Es; cbn [bind ret] in H;
      [discriminate|].
    inversion H; subst st'. open_follow; [|assumption|].
    - rewrite held_sessions_last.
      apply (sessions_follow_add _ _ hs line raw session HF); auto.
      right. exact (startswith_char "=" " " line Eeq).
    - intros s Hs Hplen. subst session. exfalso.
      rewrite (session_fromstring_not_plenary line s Es) in Hplen; [discriminate|].
      exact (startswith_other "=" "!" " " line ltac:(discriminate) Eeq). }
  simpl. rewrite app_nil_r.
  assert (Hsame : forall item,
             map without_items
               (held_sessions (Agenda.self st) (Some d)
                  (Agenda.current_session_group st)
                  match item, Agenda.current_session st with
                  | Some i, Some s => Some (Session.add s i)
                  | _, _ => Agenda.current_session st
                  end) =
             map without_items
               (held_sessions (Agenda.self st) (Some d)
                  (Agenda.current_session_group st) (Agenda.current_session st))).
  { intros item. destruct item as [i|], (Agenda.current_session st) as [s|];
      try reflexivity.
    unfold held_sessions. rewrite !map_app. reflexivity. }
  assert (Hpb' : forall item s,
             match item, Agenda.current_session st with
             | Some i, Some s0 => Some (Session.add s0 i)
             | _, _ => Agenda.current_session st
             end = Some s ->
             plenary_or_break (Session.type s) = true ->
             Agenda.current_session_group st = None).
  { intros item s Hs Hplen.
    destruct item as [i|], (Agenda.current_session st) as [s0|] eqn:Es0;
      try discriminate; inversion Hs; subst; apply (Hpb _ eq_refl); exact Hplen. }
  destruct (Str.startswith "@ " line).
  { rewrite update_states_item_only in H. cbn [bind ret] in H.
    inversion H; subst st'. open_follow; [|discriminate|apply Hpb'].
    exact (session_of_line_same _ _ hs (Hsame _) HF). }
  destruct (Agenda.item_match line) as [matchobj|].
  2:{ inversion H; subst st'. unfold sessions_follow. rewrite Ed.
      repeat split; [exact HF | discriminate | exact Hpb]. }
  destruct (match Agenda.current_item st with
            | Some item =>
                if Agenda.is_poster item
                then match Agenda.current_poster_topic st with
                     | Some v => ret (Some (Item.set_topic item v), Some PyNone)
                     | None => raise UnboundLocalError
                     end
                else ret (Agenda.current_item st, Agenda.current_poster_topic st)
            | None => ret (Agenda.current_item st, Agenda.current_poster_topic st)
            end) as [e | [item topic]]; cbn [bind ret] in H; [discriminate|].
  rewrite update_states_item_only in H. cbn [bind ret] in H.
  bind_inv H. inversion H; subst st'.
  open_follow; [|discriminate|apply Hpb'].
  exact (session_of_line_same _ _ hs (Hsame _) HF).
Qed.

Lemma loop_sessions (lines : list string) :
  forall st st' hs,
    sessions_follow st hs -> Agenda.loop st lines = inr st' ->
    sessions_follow st' (hs ++ session_lines lines).
Proof.
  induction lines as [|line lines IH]; intros st st' hs Hinv H; simpl in H.
  - inversion H; subst. simpl. rewrite app_nil_r. exact Hinv.
  - destruct (Agenda.process_line st line) as [e|st1] eqn:E; cbn [bind] in H;
      [discriminate|].
    apply (process_line_sessions _ _ _ hs Hinv) in E.
    apply (IH _ _ _ E) in H. rewrite <- app_assoc in H.
    unfold session_lines. simpl. destruct (is_session_line line); exact H.
Qed.

(** Before the first day header no day is open and the agenda has no days. *)
Lemma loop_before_first_header (pre : list string) (st : Agenda.state) :
  Agenda.loop (Agenda.start Agenda.init) pre = inr st ->
  day_headers pre = [] ->
  Agenda.current_day st = None /\ Agenda.days (Agenda.self st) = [].
Proof.
  intros H Hpre. apply (loop_days pre _ _ []) in H.
  2:{ split; [constructor | reflexivity]. }
  rewrite Hpre in H. destruct H as [HF _]. simpl in HF.
  inversion HF as [Hnil|]. unfold all_days in Hnil.
  destruct (Agenda.days (Agenda.self st)); [|discriminate].
  destruct (Agenda.current_day st); [discriminate|]. split; reflexivity.
Qed.

(** The first day header opens a day and drops what was open before it. *)
Lemma first_header_sessions (st st' : Agenda.state) (header : string) :
  Agenda.current_day st = None -> Agenda.days (Agenda.self st) = [] ->
  is_day_header header = true ->
  Agenda.process_line st header = inr st' ->
  sessions_follow st' [].
Proof.
  unfold is_day_header. intros Hday Hdays Hh H.
  unfold Agenda.process_line in H. cbv zeta in H.
  rewrite (startswith2_nonempty _ _ _ Hh), Hh, Hday in H. cbn [bind ret] in H.
  destruct (Day.fromstring (Str.strip header)) as [e|day] eqn:Eday;
    cbn [bind ret] in H; [discriminate|].
  inversion H; subst st'. open_follow; [|discriminate|discriminate].
  unfold held_sessions, sessions_of_agenda, sessions_of_opt_day, sessions_of_day.
  rewrite Hdays, (day_fromstring_contents _ _ Eday). constructor.
Qed.

(** X20: when the file parses, the sessions of the agenda, taken day by day
    and group by group in the order they are stored, are those of the session
    lines that come after the first day header, one for one and in the order
    of the file, each with the fields [Session.fromstring] reads off its
    line.  A session line before the first day header leaves no session. *)
Theorem X20_sessions_follow_the_session_lines
        (pre rest : list string) (header : string) (a : Agenda.t) :
  Agenda.fromfile Agenda.init (pre ++ header :: rest) = inr a ->
  day_headers pre = [] ->
  is_day_header header = true ->
  Forall2 session_of_line (sessions_of_agenda a) (session_lines rest).
Proof.
  unfold Agenda.fromfile. intros H Hpre Hh. rewrite loop_app in H.
  destruct (Agenda.loop (Agenda.start Agenda.init) pre) as [e|st0] eqn:E0;
    cbn [bind] in H; [discriminate|].
  destruct (loop_before_first_header pre st0 E0 Hpre) as [Hday0 Hdays0].
  change (Agenda.loop st0 (header :: rest))
    with (st1 <- Agenda.process_line st0 header ;; Agenda.loop st1 rest) in H.
  destruct (Agenda.process_line st0 header) as [e|st1] eqn:E1; cbn [bind] in H;
    [discriminate|].
  pose proof (first_header_sessions st0 st1 header Hday0 Hdays0 Hh E1) as Hinv.
  destruct (Agenda.loop st1 rest) as [e|st] eqn:E; cbn [bind] in H;
    [discriminate|].
  apply (loop_sessions rest _ _ [] Hinv) in E. simpl in E.
  destruct E as (HF & Hday & Hpb). unfold Agenda.tuple_of in H.
  destruct (Agenda.current_day st) as [d|] eqn:Ed; [clear Hday|congruence].
  commit_held H Hpb. inversion H; subst a.
  apply (session_of_line_same _ _ _) with (2 := HF).
  rewrite <- Eu. unfold held_sessions. simpl. rewrite app_nil_r. reflexivity.
Qed.

Lemma X20_witness :
  let pre := ["! 8:00--9:00 Breakfast"] in
  let header := "* Monday, June 3, 2019" in
  let rest := ["! 9:00--10:00 Keynote"; "+ 11:00--12:30 Oral Sessions";
               "= Session 1A: Parsing"; "101 11:00--11:15 #";
               "= Session 1B: Posters"; "! 12:30--14:00 Lunch Break"] in
  exists a,
    Agenda.fromfile Agenda.init (pre ++ header :: rest) = inr a /\
    day_headers pre = [] /\ is_day_header header = true /\
    Forall2 session_of_line (sessions_of_agenda a) (session_lines rest).
Proof.
  intros pre header rest.
  eassert (H : Agenda.fromfile Agenda.init (pre ++ header :: rest) = inr _)
    by (vm_compute; reflexivity).
  assert (Hpre : day_headers pre = []) by (vm_compute; reflexivity).
  assert (Hh : is_day_header header = true) by (vm_compute; reflexivity).
  eexists. split; [exact H|]. split; [exact Hpre|]. split; [exact Hh|].
  exact (X20_sessions_follow_the_session_lines pre rest header _ H Hpre Hh).
Defined.

(** * The anthology file and the lookup *)

(** ** What [_parse_anthology_xml] makes of the paper tags *)

Lemma append_inj (s a b : string) :
  (s ++ a)%string = (s ++ b)%string -> a = b.
Proof.
  induction s as [|c s IH]; simpl; intros H; [exact H|].
  inversion H. auto.
Qed.

(** The key of a paper is the stem of the file, a hyphen and its id. *)
Lemma parse_paper_key (stem : string) (tag : ScheduleMetadata.paper_tag)
      (key : string) (tuple : ScheduleMetadata.MetadataTuple) :
  ScheduleMetadata.parse_paper stem tag = inr (key, tuple) ->
  exists id, ScheduleMetadata.paper_id tag = Some id /\
             key = (stem ++ "-" ++ id)%string.
Proof.
  unfold ScheduleMetadata.parse_paper. intros H.
  destruct (ScheduleMetadata.paper_id tag) as [id|]; cbn [bind ret raise] in H;
    [|discriminate].
  destruct (ScheduleMetadata.text (ScheduleMetadata.paper_title tag));
    cbn [bind ret] in H; [discriminate|].
  destruct (ScheduleMetadata.text (ScheduleMetadata.paper_url tag));
    cbn [bind ret] in H; [discriminate|].
  destruct (ScheduleMetadata.authors_of (ScheduleMetadata.paper_authors tag));
    cbn [bind ret] in H; [discriminate|].
  inversion H. exists id. split; reflexivity.
Qed.

(** The author string of a paper with one author tag. *)
Lemma parse_paper_single_author
      (stem : string) (tag : ScheduleMetadata.paper_tag)
      (author : ScheduleMetadata.author_tag)
      (key : string) (tuple : ScheduleMetadata.MetadataTuple) :
  ScheduleMetadata.paper_authors tag = [author] ->
  ScheduleMetadata.parse_paper stem tag = inr (key, tuple) ->
  exists first last : string,
    ScheduleMetadata.first author = Some first /\
    ScheduleMetadata.last author = Some last /\
    ScheduleMetadata.authors tuple = (" and " ++ first ++ " " ++ last)%string.
Proof.
  intros Ha H. unfold ScheduleMetadata.parse_paper in H. rewrite Ha in H.
  destruct (ScheduleMetadata.paper_id tag); cbn [bind ret] in H; [|discriminate].
  destruct (ScheduleMetadata.paper_title tag);
    cbn [bind ret ScheduleMetadata.text] in H; [|discriminate].
  destruct (ScheduleMetadata.paper_url tag);
    cbn [bind ret ScheduleMetadata.text] in H; [|discriminate].
  unfold ScheduleMetadata.authors_of, ScheduleMetadata.author_names in H.
  destruct (ScheduleMetadata.first author) as [f|];
    cbn [bind ret ScheduleMetadata.text] in H; [|discriminate].
  destruct (ScheduleMetadata.last author) as [l|];
    cbn [bind ret ScheduleMetadata.text] in H; [|discriminate].
  inversion H; subst. exists f, l. repeat split.
Qed.

Lemma parse_papers_cons (stem : string)
      (acc : Dict.dict ScheduleMetadata.MetadataTuple)
      (tag : ScheduleMetadata.paper_tag)
      (papers : list ScheduleMetadata.paper_tag) :
  ScheduleMetadata.parse_papers stem acc (tag :: papers) =
  match ScheduleMetadata.parse_paper stem tag with
  | inl e => inl e
  | inr (key, tuple) =>
      ScheduleMetadata.parse_papers stem (Dict.set acc key tuple) papers
  end.
Proof.
  cbn [ScheduleMetadata.parse_papers].
  destruct (ScheduleMetadata.parse_paper stem tag) as [e|[key tuple]];
    reflexivity.
Qed.

Lemma parse_papers_app (stem : string)
      (l1 l2 : list ScheduleMetadata.paper_tag) :
  forall acc,
    ScheduleMetadata.parse_papers stem acc (l1 ++ l2) =
    match ScheduleMetadata.parse_papers stem acc l1 with
    | inl e => inl e
    | inr d => ScheduleMetadata.parse_papers stem d l2
    end.
Proof.
  induction l1 as [|tag l1 IH]; intros acc; [reflexivity|].
  rewrite <- app_comm_cons, !parse_papers_cons.
  destruct (ScheduleMetadata.parse_paper stem tag) as [e|[key tuple]];
    [reflexivity | apply IH].
Qed.

(** An entry of the dictionary was there before or stems from a paper. *)
Lemma parse_papers_from (stem : string)
      (papers : list ScheduleMetadata.paper_tag) :
  forall acc d key tuple,
    ScheduleMetadata.parse_papers stem acc papers = inr d ->
    Dict.get d key = Some tuple ->
    Dict.get acc key = Some tuple \/
    exists tag, In tag papers /\
                ScheduleMetadata.parse_paper stem tag = inr (key, tuple).
Proof.
  induction papers as [|tag papers IH]; intros acc d key tuple H Hget.
  - inversion H; subst. auto.
  - rewrite parse_papers_cons in H.
    destruct (ScheduleMetadata.parse_paper stem tag) as [e|[k t]] eqn:E;
      [discriminate|].
    destruct (IH _ _ _ _ H Hget) as [Hacc | (tag' & Hin & Hp)].
    + rewrite get_set in Hacc. destruct (String.eqb key k) eqn:Ek; [|auto].
      apply String.eqb_eq in Ek. subst k. inversion Hacc; subst t.
      right. exists tag. split; [left; reflexivity | exact E].
    + right. exists tag'. split; [right; exact Hin | exact Hp].
Qed.

(** An entry stays as it is as long as no paper has its key. *)
Lemma parse_papers_keeps (stem : string)
      (papers : list ScheduleMetadata.paper_tag) :
  forall acc d key tuple,
    ScheduleMetadata.parse_papers stem acc papers = inr d ->
    Dict.get acc key = Some tuple ->
    (forall tag k t, In tag papers ->
                     ScheduleMetadata.parse_paper stem tag = inr (k, t) ->
                     k <> key) ->
    Dict.get d key = Some tuple.
Proof.
  induction papers as [|tag papers IH]; intros acc d key tuple H Hget Hother.
  - inversion H; subst. exact Hget.
  - rewrite parse_papers_cons in H.
    destruct (ScheduleMetadata.parse_paper stem tag) as [e|[k t]] eqn:E;
      [discriminate|].
    apply (IH _ _ _ _ H).
    + rewrite get_set. destruct (String.eqb key k) eqn:Ek; [|exact Hget].
      apply String.eqb_eq in Ek. subst k. exfalso.
      exact (Hother tag key t (or_introl eq_refl) E eq_refl).
    + intros tag' k' t' Hin. apply Hother. right. exact Hin.
Qed.

(** C10: a paper entry with exactly one author tag gets the author string
    [" and "] followed by the name of that author.  First part: for every
    paper entry of a file that parses, if it has exactly one author tag,
    the tuple [_parse_anthology_xml] makes for it, which the dictionary of
    the file up to and including that entry has under the stem of the file,
    a hyphen and the id of the entry, has that author string; and the
    dictionary of the whole file has the same tuple under that key, unless a
    later paper entry of the file has the same id and so takes its place.
    Second part: every entry of the dictionary returned stems from a paper
    entry of the file, and has that author string when that paper entry has
    exactly one author tag. *)
Theorem C10_single_author_gets_leading_and
        (stem : string) (papers : list ScheduleMetadata.paper_tag)
        (d : Dict.dict ScheduleMetadata.MetadataTuple) :
  ScheduleMetadata._parse_anthology_xml (stem, papers) = inr d ->
  (forall before tag after author,
      papers = before ++ tag :: after ->
      ScheduleMetadata.paper_authors tag = [author] ->
      exists (id first last : string) (tuple : ScheduleMetadata.MetadataTuple)
             (d0 : Dict.dict ScheduleMetadata.MetadataTuple),
        ScheduleMetadata.paper_id tag = Some id /\
        ScheduleMetadata.first author = Some first /\
        ScheduleMetadata.last author = Some last /\
        ScheduleMetadata.authors tuple =
          (" and " ++ first ++ " " ++ last)%string /\
        ScheduleMetadata._parse_anthology_xml (stem, before ++ [tag]) = inr d0 /\
        Dict.get d0 (stem ++ "-" ++ id)%string = Some tuple /\
        ((forall tag', In tag' after ->
                       ScheduleMetadata.paper_id tag' <>
                       ScheduleMetadata.paper_id tag) ->
         Dict.get d (stem ++ "-" ++ id)%string = Some tuple)) /\
  (forall key tuple,
      Dict.get d key = Some tuple ->
      exists tag id,
        In tag papers /\
        ScheduleMetadata.paper_id tag = Some id /\
        key = (stem ++ "-" ++ id)%string /\
        forall author,
          ScheduleMetadata.paper_authors tag = [author] ->
          exists first last : string,
            ScheduleMetadata.first author = Some first /\
            ScheduleMetadata.last author = Some last /\
            ScheduleMetadata.authors tuple =
              (" and " ++ first ++ " " ++ last)%string).
Proof.
  unfold ScheduleMetadata._parse_anthology_xml. cbn [fst snd]. intros H. split.
  - intros before tag after author Hpapers Hone. subst papers.
    rewrite parse_papers_app in H. rewrite parse_papers_app.
    destruct (ScheduleMetadata.parse_papers stem [] before) as [e|d0];
      [discriminate|].
    rewrite parse_papers_cons in H. rewrite parse_papers_cons.
    destruct (ScheduleMetadata.parse_paper stem tag) as [e|[key tuple]] eqn:E;
      [discriminate|].
    destruct (parse_paper_key _ _ _ _ E) as (id & Hid & Hkey).
    destruct (parse_paper_single_author _ _ _ _ _ Hone E) as (f & l & Hf & Hl & Ha).
    exists id, f, l, tuple, (Dict.set d0 key tuple).
    split; [exact Hid|]. split; [exact Hf|]. split; [exact Hl|].
    split; [exact Ha|]. split; [reflexivity|].
    rewrite <- Hkey. split.
    + rewrite get_set, String.eqb_refl. reflexivity.
    + intros Hlater. apply (parse_papers_keeps _ _ _ _ _ _ H).
      * rewrite get_set, String.eqb_refl. reflexivity.
      * intros tag' k' t' Hin Hp Heq.
        destruct (parse_paper_key _ _ _ _ Hp) as (id' & Hid' & Hkey').
        apply (Hlater tag' Hin). rewrite Hid, Hid'. f_equal.
        rewrite Hkey, Hkey' in Heq.
        apply append_inj in Heq. apply (append_inj "-") in Heq. exact Heq.
  - intros key tuple Hget.
    destruct (parse_papers_from _ _ _ _ _ _ H Hget) as [Hacc | (tag & Hin & Hp)];
      [discriminate|].
    destruct (parse_paper_key _ _ _ _ Hp) as (id & Hid & Hkey).
    exists tag, id. repeat split; auto.
    intros author Hone. exact (parse_paper_single_author _ _ _ _ _ Hone Hp).
Qed.

Lemma C10_witness :
  let tag1 := ScheduleMetadata.mkPaper (Some "1001") (Some "A Title") None
                (Some "https://aclweb.org/anthology/N19-1001")
                [ScheduleMetadata.mkAuthor (Some "Ada") (Some "Lovelace")] in
  let tag2 := ScheduleMetadata.mkPaper (Some "1002") (Some "Another Title") None
                (Some "https://aclweb.org/anthology/N19-1002")
                [ScheduleMetadata.mkAuthor (Some "Alan") (Some "Turing");
                 ScheduleMetadata.mkAuthor (Some "Grace") (Some "Hopper")] in
  let d := [("N19-1001",
             ScheduleMetadata.mkTuple "A Title" " and Ada Lovelace" ""
               "https://aclweb.org/anthology/N19-1001");
            ("N19-1002",
             ScheduleMetadata.mkTuple "Another Title"
               "Alan Turing and Grace Hopper" ""
               "https://aclweb.org/anthology/N19-1002")] in
  ScheduleMetadata._parse_anthology_xml ("N19", [tag1; tag2]) = inr d /\
  exists (id first last : string) (tuple : ScheduleMetadata.MetadataTuple)
         (d0 : Dict.dict ScheduleMetadata.MetadataTuple),
    Some "1001" = Some id /\ Some "Ada" = Some first /\
    Some "Lovelace" = Some last /\
    ScheduleMetadata.authors tuple = (" and " ++ first ++ " " ++ last)%string /\
    ScheduleMetadata._parse_anthology_xml ("N19", [] ++ [tag1]) = inr d0 /\
    Dict.get d0 ("N19" ++ "-" ++ id)%string = Some tuple /\
    ((forall tag', In tag' [tag2] ->
                   ScheduleMetadata.paper_id tag' <> Some "1001") ->
     Dict.get d ("N19" ++ "-" ++ id)%string = Some tuple).
Proof.
  intros tag1 tag2 d.
  assert (H : ScheduleMetadata._parse_anthology_xml ("N19", [tag1; tag2]) = inr d)
    by (vm_compute; reflexivity).
  split; [exact H|].
  exact (proj1 (C10_single_author_gets_leading_and "N19" [tag1; tag2] d H)
           [] tag1 [tag2] _ eq_refl eq_refl).
Defined.

(** ** What the mapping files finally give for an order id *)

Lemma last_anthology_id_found (lines : list string) (order_id : string) :
  forall found,
    last_anthology_id lines order_id found =
    match last_anthology_id lines order_id None with
    | Some anthology_id => Some anthology_id
    | None => found
    end.
Proof.
  induction lines as [|line lines IH]; intros found; simpl; [reflexivity|].
  rewrite IH.
  rewrite (IH match line_anthology_id line order_id with
              | Some anthology_id => Some anthology_id
              | None => None
              end).
  destruct (last_anthology_id lines order_id None); [reflexivity|].
  destruct (line_anthology_id line order_id); reflexivity.
Qed.

Lemma last_anthology_id_app (l1 l2 : list string) (order_id : string) :
  forall found,
    last_anthology_id (l1 ++ l2) order_id found =
    last_anthology_id l2 order_id (last_anthology_id l1 order_id found).
Proof.
  induction l1 as [|line l1 IH]; intros found; simpl; [reflexivity | apply IH].
Qed.

Lemma parse_mapping_lines_final (lines : list string) :
  forall acc m,
    ScheduleMetadata.parse_mapping_lines acc lines = inr m ->
    forall order_id,
      Dict.get m order_id =
      last_anthology_id lines order_id (Dict.get acc order_id).
Proof.
  induction lines as [|line lines IH]; intros acc m H o; simpl in H.
  - inversion H; subst. reflexivity.
  - simpl. unfold line_anthology_id.
    destruct (Str.split " " (Str.strip line)) as [|a0 [|o0 [|x rest]]];
      try discriminate.
    rewrite (IH _ _ H o), get_set.
    destruct (String.eqb o o0); reflexivity.
Qed.

Lemma update_mappings_final (mappings : list (list string)) :
  forall d m,
    ScheduleMetadata.update_mappings d mappings = inr m ->
    forall order_id,
      Dict.get m order_id =
      last_anthology_id (concat mappings) order_id (Dict.get d order_id).
Proof.
  induction mappings as [|mapping mappings IH]; intros d m H o; simpl in H.
  - inversion H; subst. reflexivity.
  - destruct (ScheduleMetadata._parse_id_mapping_file mapping) as [e|m1] eqn:E1;
      cbn [bind] in H; [discriminate|].
    rewrite (IH _ _ H o). simpl. rewrite last_anthology_id_app. f_equal.
    unfold ScheduleMetadata._parse_id_mapping_file in E1.
    rewrite get_update.
    2:{ apply (parse_mapping_lines_nodup _ _ _ E1). constructor. }
    rewrite (parse_mapping_lines_final _ _ _ E1 o). simpl.
    symmetry. apply last_anthology_id_found.
Qed.

(** ** The inverse of the mapping *)

Lemma get_update_in {V} (pairs : list (string * V)) :
  forall (d : Dict.dict V) (k : string) (v : V),
    In (k, v) pairs -> Dict.get (Dict.update d pairs) k <> None.
Proof.
  unfold Dict.update.
  induction pairs as [|[k0 v0] pairs IH]; intros d k v Hin; simpl in *;
    [contradiction|].
  destruct Hin as [Heq | Hin].
  - inversion Heq; subst. apply (get_update_keeps pairs).
    rewrite get_set, String.eqb_refl. discriminate.
  - exact (IH _ _ _ Hin).
Qed.

Lemma invert_some (mapping : Dict.dict string) (anthology_id order_id : string) :
  NoDup (keys mapping) ->
  Dict.get (ScheduleMetadata.invert mapping) anthology_id = Some order_id ->
  Dict.get mapping order_id = Some anthology_id.
Proof.
  intros Hnd Hget. unfold ScheduleMetadata.invert, Dict.of_pairs in Hget.
  apply get_update_from in Hget. destruct Hget as [Hget | Hin]; [discriminate|].
  apply in_map_iff in Hin. destruct Hin as [[o a] [Heq Hin]].
  simpl in Heq. inversion Heq; subst o a.
  exact (in_get_nodup mapping _ _ Hnd Hin).
Qed.

Lemma invert_none (mapping : Dict.dict string) (anthology_id : string) :
  Dict.get (ScheduleMetadata.invert mapping) anthology_id = None ->
  forall order_id, Dict.get mapping order_id <> Some anthology_id.
Proof.
  intros Hnone o Hget. apply get_in in Hget.
  unfold ScheduleMetadata.invert, Dict.of_pairs in Hnone.
  apply (get_update_in (map (fun kv => (snd kv, fst kv)) mapping) []
           anthology_id o); [|exact Hnone].
  apply in_map_iff. exists (o, anthology_id). split; [reflexivity | exact Hget].
Qed.

(** ** The lookup *)

(** C9 (amended): on a metadata object built by [fromfiles], the empty id
    fails with [IndexError].  An id whose first character is [N], [W] or [S]
    is looked up as an anthology id.  The lookup succeeds exactly when the
    mapping files finally give this id for some order id, that is, when the
    last line for that order id, over all mapping files in their order, has
    this id for its anthology id; it then returns the tuple the object holds
    for such an order id.  Otherwise it fails with [KeyError]: so for an id
    no mapping line names, also when the anthology files have metadata for
    it or when it is an order id with metadata, and for an id named only by
    lines that a later line for the same order id replaced.  Any other
    non-empty id is looked up as an order id: the lookup returns the tuple
    the object holds for it and fails with [KeyError] when it holds none. *)
Theorem C9_lookup_by_first_character
        (xmls : list (string * list ScheduleMetadata.paper_tag))
        (mappings : list (list string))
        (tsv : option (list (Dict.dict pyval))) (md : ScheduleMetadata.t)
        (id_ : string) :
  ScheduleMetadata.fromfiles xmls mappings tsv = inr md ->
  match id_ with
  | EmptyString => ScheduleMetadata.__getitem__ md id_ = inl IndexError
  | String c _ =>
      if Str.mem c "NWS" then
        (exists order_id tuple,
            final_anthology_id mappings order_id = Some id_ /\
            Dict.get (ScheduleMetadata._order_id_to_metadata_dict md) order_id
              = Some tuple /\
            ScheduleMetadata.__getitem__ md id_ = inr tuple) \/
        ((forall order_id, final_anthology_id mappings order_id <> Some id_) /\
         ScheduleMetadata.__getitem__ md id_ = inl KeyError)
      else
        match Dict.get (ScheduleMetadata._order_id_to_metadata_dict md) id_ with
        | Some tuple => ScheduleMetadata.__getitem__ md id_ = inr tuple
        | None => ScheduleMetadata.__getitem__ md id_ = inl KeyError
        end
  end.
Proof.
  intros H. destruct id_ as [|c rest]; [reflexivity|].
  pose proof (fromfiles_parts _ _ _ _ H) as Hparts.
  destruct Hparts as (mapping & anthology & bridged & Hm & _ & _ & Hnd &
                      Hmap & Hinv & _).
  assert (Hfinal : forall o, Dict.get mapping o = final_anthology_id mappings o).
  { intros o. exact (update_mappings_final _ _ _ Hm o). }
  unfold ScheduleMetadata.__getitem__, ScheduleMetadata.looks_like_anthology_id.
  cbn [bind ret]. destruct (Str.mem c "NWS").
  - unfold Dict.getitem.
    destruct (Dict.get (ScheduleMetadata._anthology_id_to_order_id_dict md)
                       (String c rest)) as [order_id|] eqn:E;
      unfold ret, raise; cbn [bind].
    + left. pose proof (fromfiles_mapped _ _ _ _ _ _ H E) as Hhas.
      destruct (Dict.get (ScheduleMetadata._order_id_to_metadata_dict md) order_id)
        as [tuple|] eqn:Et; [|congruence].
      exists order_id, tuple. split; [|split; [exact Et|]].
      * rewrite <- Hfinal. rewrite Hinv in E. exact (invert_some _ _ _ Hnd E).
      * rewrite ?Et. reflexivity.
    + right. split; [|reflexivity].
      intros o. rewrite <- Hfinal. rewrite Hinv in E. exact (invert_none _ _ E o).
  - unfold Dict.getitem. cbn [bind ret].
    destruct (Dict.get (ScheduleMetadata._order_id_to_metadata_dict md)
                       (String c rest)); reflexivity.
Qed.

(** An anthology id the anthology file has metadata for, and the lookup
    fails: no mapping line names it. *)
Lemma C9_counterexample :
  let tag1 := ScheduleMetadata.mkPaper (Some "1001") (Some "A Title") None
                (Some "https://aclweb.org/anthology/N19-1001") [] in
  let tag2 := ScheduleMetadata.mkPaper (Some "1002") (Some "Another Title") None
                (Some "https://aclweb.org/anthology/N19-1002") [] in
  let tuple1 := ScheduleMetadata.mkTuple "A Title" "" ""
                  "https://aclweb.org/anthology/N19-1001" in
  let tuple2 := ScheduleMetadata.mkTuple "Another Title" "" ""
                  "https://aclweb.org/anthology/N19-1002" in
  let md := ScheduleMetadata.mk [("12", tuple1)] [("12", "N19-1001")]
              [("N19-1001", "12")] in
  ScheduleMetadata._parse_anthology_xml ("N19", [tag1; tag2]) =
    inr [("N19-1001", tuple1); ("N19-1002", tuple2)] /\
  ScheduleMetadata.fromfiles [("N19", [tag1; tag2])] [["N19-1001 12"]] None
    = inr md /\
  ScheduleMetadata.__getitem__ md "N19-1002" = inl KeyError.
Proof. repeat split; vm_compute; reflexivity. Qed.

Lemma C9_witness :
  let tag1 := ScheduleMetadata.mkPaper (Some "1001") (Some "A Title") None
                (Some "https://aclweb.org/anthology/N19-1001") [] in
  let tag2 := ScheduleMetadata.mkPaper (Some "1002") (Some "Another Title") None
                (Some "https://aclweb.org/anthology/N19-1002") [] in
  let tuple2 := ScheduleMetadata.mkTuple "Another Title" "" ""
                  "https://aclweb.org/anthology/N19-1002" in
  let mappings := [["N19-1001 12"; "N19-1002 12"]] in
  let md := ScheduleMetadata.mk [("12", tuple2)] [("12", "N19-1002")]
              [("N19-1002", "12")] in
  ScheduleMetadata.fromfiles [("N19", [tag1; tag2])] mappings None = inr md /\
  ((exists order_id tuple,
       final_anthology_id mappings order_id = Some "N19-1002" /\
       Dict.get (ScheduleMetadata._order_id_to_metadata_dict md) order_id
         = Some tuple /\
       ScheduleMetadata.__getitem__ md "N19-1002" = inr tuple) \/
   ((forall order_id, final_anthology_id mappings order_id <> Some "N19-1002") /\
    ScheduleMetadata.__getitem__ md "N19-1002" = inl KeyError)) /\
  ScheduleMetadata.__getitem__ md "N19-1002" = inr tuple2 /\
  ((exists order_id tuple,
       final_anthology_id mappings order_id = Some "N19-1001" /\
       Dict.get (ScheduleMetadata._order_id_to_metadata_dict md) order_id
         = Some tuple /\
       ScheduleMetadata.__getitem__ md "N19-1001" = inr tuple) \/
   ((forall order_id, final_anthology_id mappings order_id <> Some "N19-1001") /\
    ScheduleMetadata.__getitem__ md "N19-1001" = inl KeyError)) /\
  ScheduleMetadata.__getitem__ md "N19-1001" = inl KeyError /\
  ScheduleMetadata.__getitem__ md "12" = inr tuple2 /\
  ScheduleMetadata.__getitem__ md "13" = inl KeyError.
Proof.
  intros tag1 tag2 tuple2 mappings md.
  assert (H : ScheduleMetadata.fromfiles [("N19", [tag1; tag2])] mappings None
              = inr md) by (vm_compute; reflexivity).
  split; [exact H|]. split; [|split; [|split; [|split; [|split]]]].
  - exact (C9_lookup_by_first_character _ _ _ md "N19-1002" H).
  - vm_compute. reflexivity.
  - exact (C9_lookup_by_first_character _ _ _ md "N19-1001" H).
  - vm_compute. reflexivity.
  - exact (C9_lookup_by_first_character _ _ _ md "12" H).
  - exact (C9_lookup_by_first_character _ _ _ md "13" H).
Defined.
